(** * Output manager of the logger (core/output.go)

    A shallow embedding of the log-sink manager: configuration validation,
    construction, reconfiguration, forced rotation with recovery, the
    size-triggered rotation check and the asynchronous hook dispatcher.

    - The manager's fields are threaded through a small state monad
      together with the world around it.
    - Everything outside the process (file system, the lumberjack
      rotation primitive) is an environment [Env] whose answers the code
      only interprets; an answer may depend on how many outside calls
      came before.  Every outside call takes a non-negative time, which
      advances the clock [time.Now] reads.
    - A world keeps the trace of what happened: outside calls with their
      answers, lock operations on [om.mu], accesses to the fields the
      lock guards, goroutine starts and hook calls.
    - Goroutines started with [go] are pending tasks of the runtime; a
      schedule picks which one runs next.  A method call runs as one
      step: the dispatcher goroutine needs the read lock, which a
      rotation holds until it returns.
    - [int] and [int64] are 64 bits wide (amd64, arm64); paths follow
      path/filepath on a Unix target. *)

From Stdlib Require Import ZArith List String Ascii Bool Lia Permutation.
From Stdlib Require Import DecimalString.
Import ListNotations.

Local Open Scope string_scope.
Local Open Scope Z_scope.

(* ================================================================== *)
(** ** Go values: errors, machine integers, strings *)

(** Go's two error shapes used by the file: a plain message
    ([errors.New], or an error produced by the OS or by lumberjack) and
    the value built by [fmt.Errorf] with a [%w] verb, which keeps the
    formatted text and the wrapped cause. *)
Inductive error : Type :=
| errorString (s : string)
| wrapError (msg : string) (err : error).

(** [err.Error()] *)
Definition error_Error (e : error) : string :=
  match e with
  | errorString s => s
  | wrapError msg _ => msg
  end.

(** [errors.Unwrap] *)
Definition Unwrap (e : error) : option error :=
  match e with
  | errorString _ => None
  | wrapError _ err => Some err
  end.

(** [fmt.Errorf(prefix + "%w", err)] *)
Definition Errorf_w (prefix : string) (err : error) : error :=
  wrapError (prefix ++ error_Error err) err.

(** [%d] of an integer *)
Definition fmt_d (n : Z) : string := NilZero.string_of_int (Z.to_int n).

(** Signed 64-bit wrap-around: the value an [int64] expression takes. *)
Definition int64_min : Z := - 2 ^ 63.
Definition int64_max : Z := 2 ^ 63 - 1.
Definition int64 (z : Z) : Z := (z + 2 ^ 63) mod 2 ^ 64 - 2 ^ 63.
Definition int64_mul (a b : Z) : Z := int64 (a * b).
Definition int64_add (a b : Z) : Z := int64 (a + b).

(** [strings.HasSuffix] *)
Definition HasSuffix (s suffix : string) : bool :=
  let n := String.length s in
  let k := String.length suffix in
  (k <=? n)%nat && String.eqb (substring (n - k) k s) suffix.

(* ================================================================== *)
(** ** path/filepath on a Unix target

    [Separator] is the slash, there is no volume name; [Clean] is given
    element-wise: empty and [.] elements vanish, [..] removes the
    element before it, is dropped at the root, and is kept at the front
    of a relative path. *)
Module filepath.

Definition is_sep (c : ascii) : bool := Ascii.eqb c "/"%char.

Fixpoint has_sep (s : string) : bool :=
  match s with
  | EmptyString => false
  | String c s' => is_sep c || has_sep s'
  end.

(** Elements of a path between separators. *)
Fixpoint elements_from (cur : string) (s : string) : list string :=
  match s with
  | EmptyString => [cur]
  | String c s' =>
      if is_sep c then cur :: elements_from EmptyString s'
      else elements_from (cur ++ String c EmptyString) s'
  end.

Definition elements (s : string) : list string := elements_from EmptyString s.

(** One step of [Clean]'s loop.  [out] is the output so far, last element
    first; a leading run of [..] elements is never removed. *)
Definition clean_step (rooted : bool) (out : list string) (el : string)
  : list string :=
  if String.eqb el "" then out
  else if String.eqb el "." then out
  else if String.eqb el ".." then
    match out with
    | top :: rest =>
        if String.eqb top ".." then ".." :: out else rest
    | [] => if rooted then [] else [".."]
    end
  else el :: out.

Definition join (els : list string) : string :=
  match els with
  | [] => ""
  | e :: rest => fold_left (fun acc x => acc ++ "/" ++ x) rest e
  end.

Definition Clean (path : string) : string :=
  match path with
  | EmptyString => "."
  | String c _ =>
      let rooted := is_sep c in
      let out := rev (fold_left (clean_step rooted) (elements path) []) in
      let body := join out in
      if rooted then "/" ++ body
      else if String.eqb body "" then "." else body
  end.

(** The part of [s] up to and including its last separator. *)
Fixpoint upto_last_sep (s : string) : string :=
  match s with
  | EmptyString => EmptyString
  | String c s' =>
      match upto_last_sep s' with
      | EmptyString => if is_sep c then String c EmptyString else EmptyString
      | r => String c r
      end
  end.

(** [filepath.Dir]: drop the last element, then [Clean]. *)
Definition Dir (path : string) : string := Clean (upto_last_sep path).

Fixpoint strip_trailing_seps (s : string) : string :=
  match s with
  | EmptyString => EmptyString
  | String c s' =>
      match strip_trailing_seps s' with
      | EmptyString => if is_sep c then EmptyString else String c EmptyString
      | r => String c r
      end
  end.

Fixpoint after_last_sep (s : string) : string :=
  match s with
  | EmptyString => EmptyString
  | String c s' =>
      if has_sep s' then after_last_sep s'
      else if is_sep c then s' else s
  end.

(** [filepath.Base]: the last element, trailing separators removed. *)
Definition Base (path : string) : string :=
  match path with
  | EmptyString => "."
  | _ =>
      let p := after_last_sep (strip_trailing_seps path) in
      if String.eqb p "" then "/" else p
  end.

End filepath.

(* ================================================================== *)
(** ** Configuration *)

Record OutputConfig : Type := mkOutputConfig {
  FilePath : string;
  MaxSize : Z;
  MaxAge : Z;
  MaxBackups : Z;
  Compress : bool;
  LocalTime : bool
}.

Definition DefaultMaxSize : Z := 100.
Definition DefaultMaxAge : Z := 7.
Definition DefaultMaxBackups : Z := 5.
Definition DefaultCompress : bool := true.
Definition DefaultLocalTime : bool := false.

Definition NewOutputConfig (filePath : string) : OutputConfig :=
  {| FilePath := filePath;
     MaxSize := DefaultMaxSize;
     MaxAge := DefaultMaxAge;
     MaxBackups := DefaultMaxBackups;
     Compress := DefaultCompress;
     LocalTime := DefaultLocalTime |}.

Definition nonempty (s : string) : bool := negb (String.eqb s "").

Definition err_dir_empty : error :=
  errorString "invalid file path: directory cannot be empty".
Definition err_filename_empty : error :=
  errorString "invalid file path: filename cannot be empty".
Definition err_max_size (n : Z) : error :=
  errorString ("max size must be positive, got " ++ fmt_d n).
Definition err_max_age (n : Z) : error :=
  errorString ("max age cannot be negative, got " ++ fmt_d n).
Definition err_max_backups (n : Z) : error :=
  errorString ("max backups cannot be negative, got " ++ fmt_d n).

(* ================================================================== *)
(** ** The manager and what it talks to *)

(** [*lumberjack.Logger]: a pointer (its identity) and the fields
    [setupFileOutput] fills in. *)
Record Logger : Type := mkLogger {
  lj_ptr : nat;
  Filename : string;
  lj_MaxSize : Z;
  lj_MaxAge : Z;
  lj_MaxBackups : Z;
  lj_Compress : bool;
  lj_LocalTime : bool
}.

(** A non-nil [io.WriteCloser]: the lumberjack logger, or any other
    implementation (the type assertion in [RotateWithRecovery] tells them
    apart). *)
Inductive WriteCloser : Type :=
| LumberjackLogger (lj : Logger)
| OtherWriteCloser (ptr : nat).

(** [time.Time] as nanoseconds since the zero time. *)
Definition Time : Type := Z.
Definition zeroTime : Time := 0.
Definition IsZero (t : Time) : bool := t =? 0.

Record RotationEvent : Type := mkRotationEvent {
  Timestamp : Time;
  OldFile : string;
  NewFile : string;
  FileSize : Z;
  Success : bool;
  Error : option error
}.

(** A hook returns or panics with a value. *)
Inductive HookOutcome : Type :=
| HookReturns
| HookPanics (r : string).

Definition RotationHook : Type := RotationEvent -> HookOutcome.

Record OutputManager : Type := mkOutputManager {
  config : OutputConfig;
  fileWriter : option WriteCloser;
  isFileMode : bool;
  rotationHooks : list RotationHook;
  lastRotation : Time;
  rotationCount : Z
}.

(** [&OutputManager{config: config}] *)
Definition OutputManager_literal (c : OutputConfig) : OutputManager :=
  {| config := c; fileWriter := None; isFileMode := false;
     rotationHooks := []; lastRotation := zeroTime; rotationCount := 0 |}.

Definition set_config (c : OutputConfig) (om : OutputManager) :=
  {| config := c; fileWriter := fileWriter om; isFileMode := isFileMode om;
     rotationHooks := rotationHooks om; lastRotation := lastRotation om;
     rotationCount := rotationCount om |}.
Definition set_fileWriter (fw : option WriteCloser) (om : OutputManager) :=
  {| config := config om; fileWriter := fw; isFileMode := isFileMode om;
     rotationHooks := rotationHooks om; lastRotation := lastRotation om;
     rotationCount := rotationCount om |}.
Definition set_isFileMode (b : bool) (om : OutputManager) :=
  {| config := config om; fileWriter := fileWriter om; isFileMode := b;
     rotationHooks := rotationHooks om; lastRotation := lastRotation om;
     rotationCount := rotationCount om |}.
Definition set_rotationHooks (hs : list RotationHook) (om : OutputManager) :=
  {| config := config om; fileWriter := fileWriter om;
     isFileMode := isFileMode om; rotationHooks := hs;
     lastRotation := lastRotation om; rotationCount := rotationCount om |}.
Definition set_lastRotation (t : Time) (om : OutputManager) :=
  {| config := config om; fileWriter := fileWriter om;
     isFileMode := isFileMode om; rotationHooks := rotationHooks om;
     lastRotation := t; rotationCount := rotationCount om |}.
Definition set_rotationCount (n : Z) (om : OutputManager) :=
  {| config := config om; fileWriter := fileWriter om;
     isFileMode := isFileMode om; rotationHooks := rotationHooks om;
     lastRotation := lastRotation om; rotationCount := n |}.

(** Goroutines the file starts. *)
Inductive Task : Type :=
| GoTriggerRotationHooks (event : RotationEvent)
| GoHook (h : RotationHook) (event : RotationEvent).

(** Fields of the manager that [mu] guards. *)
Inductive Guarded : Type := F_rotationHooks | F_lastRotation | F_rotationCount.

(** What an execution does, in order: calls that leave the process with
    their answers, lock operations on [om.mu], accesses to the guarded
    fields, goroutine starts, hook calls and writes to standard error. *)
Inductive Event : Type :=
| EvMkdirAll (dir : string) (res : option error)
| EvStat (path : string) (res : Z + error)
| EvRotate (lj : Logger) (res : option error)
| EvClose (fw : WriteCloser) (res : option error)
| EvLock
| EvUnlock
| EvRLock
| EvRUnlock
| EvLoad (f : Guarded)
| EvStore (f : Guarded)
| EvGo (t : Task)
| EvHookCall (h : RotationHook) (event : RotationEvent)
| EvStderr (s : string).

(** The answers of the outside world.  The first argument is the number
    of outside calls made before this one, so an answer may differ from
    one call to the next. *)
Record Env : Type := mkEnv {
  env_MkdirAll : nat -> string -> option error;
  env_Stat : nat -> string -> Z + error;
  env_Rotate : nat -> Logger -> option error;
  env_Close : nat -> WriteCloser -> option error;
  env_elapsed : nat -> N
}.

Record World : Type := mkWorld {
  w_tick : nat;
  w_now : Time;
  w_next_ptr : nat;
  w_trace : list Event;
  w_tasks : list Task;
  w_crashed : bool
}.

Definition St : Type := (OutputManager * World)%type.

(** State monad over the manager and the world. *)
Definition M (A : Type) : Type := St -> A * St.

Definition ret {A} (a : A) : M A := fun s => (a, s).
Definition bind {A B} (m : M A) (k : A -> M B) : M B :=
  fun s => let (a, s') := m s in k a s'.

Declare Scope go_scope.
Delimit Scope go_scope with go.
Notation "x <- c ;; k" := (bind c (fun x => k))
  (at level 61, c at next level, right associativity) : go_scope.
Notation "c ;;; k" := (bind c (fun _ => k))
  (at level 61, right associativity) : go_scope.
Local Open Scope go_scope.

Definition get_om : M OutputManager := fun s => (fst s, s).
Definition update_om (f : OutputManager -> OutputManager) : M unit :=
  fun s => (tt, (f (fst s), snd s)).

Definition emit (e : Event) : M unit :=
  fun s =>
    let w := snd s in
    (tt, (fst s, {| w_tick := w_tick w; w_now := w_now w;
                    w_next_ptr := w_next_ptr w;
                    w_trace := w_trace w ++ [e];
                    w_tasks := w_tasks w; w_crashed := w_crashed w |})).

(** [go f(...)] *)
Definition go (t : Task) : M unit :=
  fun s =>
    let w := snd s in
    (tt, (fst s, {| w_tick := w_tick w; w_now := w_now w;
                    w_next_ptr := w_next_ptr w;
                    w_trace := w_trace w ++ [EvGo t];
                    w_tasks := w_tasks w ++ [t];
                    w_crashed := w_crashed w |})).

(** [time.Now()] *)
Definition time_Now : M Time := fun s => (w_now (snd s), s).

(** [&T{...}]: a fresh pointer. *)
Definition new_ptr : M nat :=
  fun s =>
    let w := snd s in
    (w_next_ptr w,
     (fst s, {| w_tick := w_tick w; w_now := w_now w;
                w_next_ptr := S (w_next_ptr w);
                w_trace := w_trace w;
                w_tasks := w_tasks w; w_crashed := w_crashed w |})).

(** Accesses to the guarded fields. *)
Definition load_rotationHooks : M (list RotationHook) :=
  emit (EvLoad F_rotationHooks) ;;; om <- get_om ;; ret (rotationHooks om).
Definition store_rotationHooks (hs : list RotationHook) : M unit :=
  emit (EvStore F_rotationHooks) ;;; update_om (set_rotationHooks hs).
Definition load_lastRotation : M Time :=
  emit (EvLoad F_lastRotation) ;;; om <- get_om ;; ret (lastRotation om).
Definition store_lastRotation (t : Time) : M unit :=
  emit (EvStore F_lastRotation) ;;; update_om (set_lastRotation t).
Definition load_rotationCount : M Z :=
  emit (EvLoad F_rotationCount) ;;; om <- get_om ;; ret (rotationCount om).
Definition store_rotationCount (n : Z) : M unit :=
  emit (EvStore F_rotationCount) ;;; update_om (set_rotationCount n).

(** [om.mu.Lock(); defer om.mu.Unlock(); body] *)
Definition with_Lock {A} (body : M A) : M A :=
  emit EvLock ;;; r <- body ;; emit EvUnlock ;;; ret r.

(** [om.mu.RLock(); defer om.mu.RUnlock(); body] *)
Definition with_RLock {A} (body : M A) : M A :=
  emit EvRLock ;;; r <- body ;; emit EvRUnlock ;;; ret r.

Definition isNil {A} (o : option A) : bool :=
  match o with None => true | Some _ => false end.

Section Operations.

Variable env : Env.

(** A call that leaves the process: it is counted and takes time. *)
Definition outside : M nat :=
  fun s =>
    let w := snd s in
    (w_tick w,
     (fst s, {| w_tick := S (w_tick w);
                w_now := w_now w + Z.of_N (env_elapsed env (w_tick w));
                w_next_ptr := w_next_ptr w;
                w_trace := w_trace w;
                w_tasks := w_tasks w; w_crashed := w_crashed w |})).

Definition os_MkdirAll (dir : string) : M (option error) :=
  k <- outside ;;
  let r := env_MkdirAll env k dir in
  emit (EvMkdirAll dir r) ;;; ret r.

Definition os_Stat (path : string) : M (Z + error) :=
  k <- outside ;;
  let r := env_Stat env k path in
  emit (EvStat path r) ;;; ret r.

Definition Logger_Rotate (lj : Logger) : M (option error) :=
  k <- outside ;;
  let r := env_Rotate env k lj in
  emit (EvRotate lj r) ;;; ret r.

Definition WriteCloser_Close (fw : WriteCloser) : M (option error) :=
  k <- outside ;;
  let r := env_Close env k fw in
  emit (EvClose fw r) ;;; ret r.

(** *** validateConfig *)
Definition validateConfig (om : OutputManager) : option error :=
  let ok_path :=
    if nonempty (FilePath (config om)) then
      let dir := filepath.Dir (FilePath (config om)) in
      if String.eqb dir "" || String.eqb dir "." then Some err_dir_empty
      else if HasSuffix (FilePath (config om)) "/"
              || HasSuffix (FilePath (config om)) "\"
      then Some err_filename_empty
      else
        let filename := filepath.Base (FilePath (config om)) in
        if String.eqb filename "" || String.eqb filename "."
           || String.eqb filename ".."
        then Some err_filename_empty
        else None
    else None in
  match ok_path with
  | Some err => Some err
  | None =>
      if MaxSize (config om) <=? 0 then
        Some (err_max_size (MaxSize (config om)))
      else if MaxAge (config om) <? 0 then
        Some (err_max_age (MaxAge (config om)))
      else if MaxBackups (config om) <? 0 then
        Some (err_max_backups (MaxBackups (config om)))
      else None
  end.

(** *** setupFileOutput *)
Definition setupFileOutput : M (option error) :=
  om <- get_om ;;
  let dir := filepath.Dir (FilePath (config om)) in
  r <- os_MkdirAll dir ;;
  match r with
  | Some err =>
      ret (Some (wrapError ("failed to create log directory " ++ dir ++ ": "
                              ++ error_Error err) err))
  | None =>
      p <- new_ptr ;;
      let lumberjackLogger :=
        {| lj_ptr := p;
           Filename := FilePath (config om);
           lj_MaxSize := MaxSize (config om);
           lj_MaxAge := MaxAge (config om);
           lj_MaxBackups := MaxBackups (config om);
           lj_Compress := Compress (config om);
           lj_LocalTime := LocalTime (config om) |} in
      update_om (set_fileWriter (Some (LumberjackLogger lumberjackLogger))) ;;;
      ret None
  end.

(** *** NewOutputManager, returning the pair of a manager pointer and an
    error, [nil] being [None] *)
Definition NewOutputManager (c : OutputConfig) (w : World)
  : (option OutputManager * option error) * World :=
  let om := OutputManager_literal c in
  match validateConfig om with
  | Some err =>
      ((None, Some (Errorf_w "invalid output configuration: " err)), w)
  | None =>
      if nonempty (FilePath c) then
        let '(r, (om1, w1)) := setupFileOutput (om, w) in
        match r with
        | Some err =>
            ((None, Some (Errorf_w "failed to setup file output: " err)), w1)
        | None => ((Some (set_isFileMode true om1), None), w1)
        end
      else ((Some om, None), w)
  end.

(** *** Close *)
Definition Close : M (option error) :=
  om <- get_om ;;
  match fileWriter om with
  | Some fw => WriteCloser_Close fw
  | None => ret None
  end.

Definition GetConfig : M OutputConfig := om <- get_om ;; ret (config om).
Definition IsFileMode : M bool := om <- get_om ;; ret (isFileMode om).
Definition GetFilePath : M string :=
  om <- get_om ;; ret (FilePath (config om)).

(** *** UpdateConfig *)
Definition UpdateConfig (newConfig : OutputConfig) : M (option error) :=
  let tempOM := OutputManager_literal newConfig in
  match validateConfig tempOM with
  | Some err => ret (Some (Errorf_w "invalid new configuration: " err))
  | None =>
      om <- get_om ;;
      closed <-
        match fileWriter om with
        | Some fw =>
            r <- WriteCloser_Close fw ;;
            match r with
            | Some err =>
                ret (Some (Errorf_w "failed to close current file writer: "
                             err))
            | None =>
                update_om (set_fileWriter None) ;;;
                update_om (set_isFileMode false) ;;;
                ret None
            end
        | None => ret None
        end ;;
      match closed with
      | Some err => ret (Some err)
      | None =>
          update_om (set_config newConfig) ;;;
          if nonempty (FilePath newConfig) then
            r <- setupFileOutput ;;
            match r with
            | Some err =>
                ret (Some (Errorf_w "failed to setup new file output: " err))
            | None => update_om (set_isFileMode true) ;;; ret None
            end
          else ret None
      end
  end.

(** *** Hook registry *)
Definition AddRotationHook (hook : RotationHook) : M unit :=
  with_Lock (hs <- load_rotationHooks ;; store_rotationHooks (hs ++ [hook])).

Definition RemoveAllRotationHooks : M unit :=
  with_Lock (store_rotationHooks []).

(** [for _, hook := range hooks { go func(h RotationHook) {...}(hook) }] *)
Fixpoint start_hook_goroutines (hooks : list RotationHook)
  (event : RotationEvent) : M unit :=
  match hooks with
  | [] => ret tt
  | hook :: rest =>
      go (GoHook hook event) ;;; start_hook_goroutines rest event
  end.

(** *** triggerRotationHooks *)
Definition triggerRotationHooks (event : RotationEvent) : M unit :=
  emit EvRLock ;;;
  hooks <- load_rotationHooks ;;
  emit EvRUnlock ;;;
  start_hook_goroutines hooks event.

(** How a goroutine ends: normally, or with a panic nobody recovered. *)
Inductive GoExit : Type :=
| Finished
| Panicked (r : string).

(** [h(event)]: the call is made, and returns or panics. *)
Definition call_hook (h : RotationHook) (event : RotationEvent)
  : M GoExit :=
  emit (EvHookCall h event) ;;;
  match h event with
  | HookReturns => ret Finished
  | HookPanics r => ret (Panicked r)
  end.

(** The deferred function of a hook goroutine: [recover()] is non-nil
    when the body panicked; the panic is printed to standard error and
    stops there. *)
Definition with_recover (body : M GoExit) : M GoExit :=
  ex <- body ;;
  match ex with
  | Finished => ret Finished
  | Panicked r =>
      emit (EvStderr ("Rotation hook panic: " ++ r ++ String "010" "")) ;;;
      ret Finished
  end.

(** The body of one hook goroutine. *)
Definition hook_goroutine (h : RotationHook) (event : RotationEvent)
  : M GoExit :=
  with_recover (call_hook h event).

(** *** GetRotationStats *)
Definition GetRotationStats : M (Time * Z) :=
  with_RLock (t <- load_lastRotation ;; n <- load_rotationCount ;;
              ret (t, n)).

(** *** attemptRecovery *)
Definition attemptRecovery : M (option error) :=
  om <- get_om ;;
  match fileWriter om with
  | Some fw => WriteCloser_Close fw ;;; setupFileOutput
  | None => setupFileOutput
  end.

Definition err_no_file_writer : error :=
  errorString "no file writer configured".
Definition err_no_rotation_support : error :=
  errorString "file writer does not support rotation".

(** *** RotateWithRecovery *)
Definition RotateWithRecovery : M (option error) :=
  om <- get_om ;;
  if isNil (fileWriter om) then ret (Some err_no_file_writer)
  else
    with_Lock (
      om <- get_om ;;
      match fileWriter om with
      | Some (LumberjackLogger lj) =>
          st <- os_Stat (FilePath (config om)) ;;
          let fileSize := match st with inl sz => sz | inr _ => 0 end in
          rotationTime <- time_Now ;;
          err <- Logger_Rotate lj ;;
          let event :=
            {| Timestamp := rotationTime;
               OldFile := FilePath (config om);
               NewFile := FilePath (config om);
               FileSize := fileSize;
               Success := isNil err;
               Error := err |} in
          (if isNil err then
             store_lastRotation rotationTime ;;;
             n <- load_rotationCount ;;
             store_rotationCount (int64_add n 1)
           else ret tt) ;;;
          go (GoTriggerRotationHooks event) ;;;
          match err with
          | Some e =>
              recoveryErr <- attemptRecovery ;;
              match recoveryErr with
              | Some re =>
                  ret (Some (wrapError
                    ("rotation failed and recovery failed: rotation error: "
                       ++ error_Error e ++ ", recovery error: "
                       ++ error_Error re) e))
              | None =>
                  ret (Some (Errorf_w
                    "rotation failed but recovery succeeded: " e))
              end
          | None => ret None
          end
      | _ => ret (Some err_no_rotation_support)
      end).

(** *** Rotate *)
Definition Rotate : M (option error) := RotateWithRecovery.

(** [int64(om.config.MaxSize) * 1024 * 1024] *)
Definition maxSizeBytes (c : OutputConfig) : Z :=
  int64_mul (int64_mul (int64 (MaxSize c)) 1024) 1024.

(** *** ForceRotationIfNeeded *)
Definition ForceRotationIfNeeded : M (option error) :=
  om <- get_om ;;
  if negb (isFileMode om) || isNil (fileWriter om) then ret None
  else
    st <- os_Stat (FilePath (config om)) ;;
    match st with
    | inr _ => ret None
    | inl size =>
        if size >=? maxSizeBytes (config om) then RotateWithRecovery
        else ret None
    end.

(** *** GetCurrentFileSize *)
Definition GetCurrentFileSize : M (Z * option error) :=
  om <- get_om ;;
  if negb (isFileMode om) then ret (0, Some (errorString "not in file mode"))
  else
    st <- os_Stat (FilePath (config om)) ;;
    match st with
    | inr err => ret (0, Some (Errorf_w "failed to get file stats: " err))
    | inl size => ret (size, None)
    end.

End Operations.

(* ================================================================== *)
(** ** The goroutine scheduler *)

Definition set_tasks (ts : list Task) (w : World) : World :=
  {| w_tick := w_tick w; w_now := w_now w; w_next_ptr := w_next_ptr w;
     w_trace := w_trace w; w_tasks := ts; w_crashed := w_crashed w |}.

Definition crash (w : World) : World :=
  {| w_tick := w_tick w; w_now := w_now w; w_next_ptr := w_next_ptr w;
     w_trace := w_trace w; w_tasks := w_tasks w; w_crashed := true |}.

(** Take the [i]-th pending goroutine out of the pool. *)
Fixpoint take_task (i : nat) (ts : list Task) : option (Task * list Task) :=
  match ts, i with
  | [], _ => None
  | t :: rest, O => Some (t, rest)
  | t :: rest, S j =>
      match take_task j rest with
      | Some (t', rest') => Some (t', t :: rest')
      | None => None
      end
  end.

Definition run_goroutine (t : Task) : M GoExit :=
  match t with
  | GoTriggerRotationHooks event => triggerRotationHooks event ;;; ret Finished
  | GoHook h event => hook_goroutine h event
  end.

(** Run the [i]-th pending goroutine to its end.  A panic that leaves a
    goroutine takes the process down; nothing runs after that. *)
Definition run_task (i : nat) (s : St) : option St :=
  if w_crashed (snd s) then None
  else
    match take_task i (w_tasks (snd s)) with
    | None => None
    | Some (t, rest) =>
        let (ex, s') := run_goroutine t (fst s, set_tasks rest (snd s)) in
        match ex with
        | Finished => Some s'
        | Panicked _ => Some (fst s', crash (snd s'))
        end
    end.

(** A schedule names, step by step, which pending goroutine runs next. *)
Fixpoint run_schedule (sched : list nat) (s : St) : option St :=
  match sched with
  | [] => Some s
  | i :: rest =>
      match run_task i s with
      | Some s' => run_schedule rest s'
      | None => None
      end
  end.

(** The hook calls recorded in a trace, in order. *)
Fixpoint hook_calls (tr : list Event) : list (RotationHook * RotationEvent) :=
  match tr with
  | [] => []
  | EvHookCall h event :: rest => (h, event) :: hook_calls rest
  | _ :: rest => hook_calls rest
  end.

(** The hook calls a pending goroutine will still make when the registry
    holds [hooks]. *)
Definition task_calls (hooks : list RotationHook) (t : Task)
  : list (RotationHook * RotationEvent) :=
  match t with
  | GoTriggerRotationHooks event => map (fun h => (h, event)) hooks
  | GoHook h event => [(h, event)]
  end.

Definition pending_calls (hooks : list RotationHook) (ts : list Task)
  : list (RotationHook * RotationEvent) :=
  flat_map (task_calls hooks) ts.

(** Scheduler steps a pool of goroutines still needs. *)
Definition task_steps (hooks : list RotationHook) (t : Task) : nat :=
  match t with
  | GoTriggerRotationHooks _ => S (List.length hooks)
  | GoHook _ _ => 1
  end.

Definition pending_steps (hooks : list RotationHook) (ts : list Task) : nat :=
  list_sum (map (task_steps hooks) ts).

(** The hook calls made from the world [w] to the later world [w']. *)
Definition calls_since (w w' : World)
  : list (RotationHook * RotationEvent) :=
  skipn (List.length (hook_calls (w_trace w))) (hook_calls (w_trace w')).

(** Calls of the rotation primitive recorded in a trace. *)
Fixpoint rotations (tr : list Event) : list (Logger * option error) :=
  match tr with
  | [] => []
  | EvRotate lj r :: rest => (lj, r) :: rotations rest
  | _ :: rest => rotations rest
  end.

(** Directory creations recorded in a trace. *)
Fixpoint mkdirs (tr : list Event) : list string :=
  match tr with
  | [] => []
  | EvMkdirAll dir _ :: rest => dir :: mkdirs rest
  | _ :: rest => mkdirs rest
  end.

(* ================================================================== *)
(** ** Clients of the public interface *)

Inductive Call : Type :=
| CallUpdateConfig (newConfig : OutputConfig)
| CallClose
| CallRotate
| CallRotateWithRecovery
| CallForceRotationIfNeeded
| CallAddRotationHook (hook : RotationHook)
| CallRemoveAllRotationHooks
| CallGetRotationStats
| CallGetCurrentFileSize
| Schedule (i : nat).

Definition do_call (env : Env) (c : Call) (s : St) : St :=
  match c with
  | CallUpdateConfig newConfig => snd (UpdateConfig env newConfig s)
  | CallClose => snd (Close env s)
  | CallRotate => snd (Rotate env s)
  | CallRotateWithRecovery => snd (RotateWithRecovery env s)
  | CallForceRotationIfNeeded => snd (ForceRotationIfNeeded env s)
  | CallAddRotationHook hook => snd (AddRotationHook hook s)
  | CallRemoveAllRotationHooks => snd (RemoveAllRotationHooks s)
  | CallGetRotationStats => snd (GetRotationStats s)
  | CallGetCurrentFileSize => snd (GetCurrentFileSize env s)
  | Schedule i => match run_task i s with Some s' => s' | None => s end
  end.

Definition run_calls (env : Env) (cs : list Call) (s : St) : St :=
  fold_left (fun s c => do_call env c s) cs s.

(** A manager a client can hold: built by [NewOutputManager], then used
    through the public methods, goroutines running in between. *)
Definition reachable (env : Env) (s : St) : Prop :=
  exists c w0 om0 w1 cs,
    NewOutputManager env c w0 = ((Some om0, None), w1)
    /\ run_calls env cs (om0, w1) = s.

(* ================================================================== *)
(** ** Writers the manager hands out *)

(** An [io.Writer] as the manager returns it: standard output, the file
    writer, or the fan-out [io.MultiWriter] builds over its arguments. *)
#[warnings="-register-all"]
Inductive io_Writer : Type :=
| os_Stdout
| FileWriter (fw : WriteCloser)
| io_MultiWriter (writers : list io_Writer).

(** *** GetWriter *)
Definition GetWriter : M io_Writer :=
  om <- get_om ;;
  match fileWriter om with
  | Some fw => if isFileMode om then ret (FileWriter fw) else ret os_Stdout
  | None => ret os_Stdout
  end.

(** *** GetMultiWriter *)
Definition GetMultiWriter : M io_Writer :=
  om <- get_om ;;
  match fileWriter om with
  | Some fw =>
      if isFileMode om then ret (io_MultiWriter [os_Stdout; FileWriter fw])
      else ret os_Stdout
  | None => ret os_Stdout
  end.

(** Where the bytes written to a writer end up. *)
Fixpoint destinations (wr : io_Writer) : list io_Writer :=
  match wr with
  | io_MultiWriter writers => flat_map destinations writers
  | _ => [wr]
  end.

(* ================================================================== *)
(** ** The state of [om.mu] along a trace *)

Inductive LockState : Type :=
| Unlocked
| WriteLocked
| ReadLocked (readers : nat).

(** One event against the lock: [None] when the event cannot happen in
    that state without blocking for ever, or touches a guarded field
    without the lock it needs, or calls a hook while the lock is held. *)
Definition lock_step (st : LockState) (e : Event) : option LockState :=
  match e, st with
  | EvLock, Unlocked => Some WriteLocked
  | EvLock, _ => None
  | EvUnlock, WriteLocked => Some Unlocked
  | EvUnlock, _ => None
  | EvRLock, Unlocked => Some (ReadLocked 1)
  | EvRLock, ReadLocked n => Some (ReadLocked (S n))
  | EvRLock, WriteLocked => None
  | EvRUnlock, ReadLocked 1 => Some Unlocked
  | EvRUnlock, ReadLocked (S (S n)) => Some (ReadLocked (S n))
  | EvRUnlock, _ => None
  | EvStore _, WriteLocked => Some st
  | EvStore _, _ => None
  | EvLoad _, Unlocked => None
  | EvLoad _, _ => Some st
  | EvHookCall _ _, Unlocked => Some st
  | EvHookCall _ _, _ => None
  | _, _ => Some st
  end.

Fixpoint check_locks (st : LockState) (tr : list Event) : option LockState :=
  match tr with
  | [] => Some st
  | e :: rest =>
      match lock_step st e with
      | Some st' => check_locks st' rest
      | None => None
      end
  end.

(* ================================================================== *)
(** ** The logger package: how the manager is used (logger.go) *)

(** [core.Level] *)
Definition Level : Type := Z.
Definition DEBUG : Level := 0.
Definition INFO : Level := 1.
Definition WARN : Level := 2.
Definition ERROR : Level := 3.
Definition FATAL : Level := 4.

Definition Level_String (l : Level) : string :=
  if l =? DEBUG then "DEBUG"
  else if l =? INFO then "INFO"
  else if l =? WARN then "WARN"
  else if l =? ERROR then "ERROR"
  else if l =? FATAL then "FATAL"
  else "UNKNOWN".

(** [core.Config], the configuration of the formatter. *)
Module formatter.
Record Config : Type := mkConfig {
  ServiceName : string;
  Environment : string;
  TenantID : string;
  SanitizeSensitiveData : bool
}.
End formatter.

Module adapters.
(** [adapters.ZerologConfig]; a nil writer or formatter configuration is
    [None]. *)
Record ZerologConfig : Type := mkZerologConfig {
  Writer : option io_Writer;
  Level : Level;
  TimeFormat : string;
  PrettyPrint : bool;
  CallerEnabled : bool;
  FormatterConfig : option formatter.Config
}.
End adapters.

Module logger.

(** [OutputType], a set of bits. *)
Definition OutputType : Type := Z.
Definition OutputStdout : OutputType := Z.shiftl 1 0.
Definition OutputFile : OutputType := Z.shiftl 1 1.

(** [logger.Config]; the observability settings are read by none of the
    functions below and stay of an arbitrary type. *)
Record Config {ObservabilityConfig : Type} : Type := mkConfig {
  ServiceName : string;
  Environment : string;
  Output : OutputType;
  LogLevel : Level;
  LogFilePath : string;
  TenantID : string;
  PrettyPrint : bool;
  CallerEnabled : bool;
  Observability : ObservabilityConfig
}.
Arguments Config : clear implicits.

Section Package.

Context {ObservabilityConfig : Type}.
Context {Adapter : Type}.

(** [adapters.NewZerologAdapter], which only consumes the configuration
    built here. *)
Variable NewZerologAdapter : adapters.ZerologConfig -> Adapter.

Variable env : Env.

(** *** Config.Validate; [%v] of a level prints its [String()]. *)
Definition Validate (c : Config ObservabilityConfig) : option error :=
  if String.eqb (ServiceName c) "" then
    Some (errorString "service name cannot be empty")
  else if String.eqb (Environment c) "" then
    Some (errorString "environment cannot be empty")
  else if Output c =? 0 then
    Some (errorString "output type must be specified")
  else if negb (Z.land (Output c) OutputFile =? 0)
          && String.eqb (LogFilePath c) "" then
    Some (errorString
            "log file path must be specified when file output is enabled")
  else if (LogLevel c =? DEBUG) || (LogLevel c =? INFO)
          || (LogLevel c =? WARN) || (LogLevel c =? ERROR)
          || (LogLevel c =? FATAL) then None
  else Some (errorString
               ("invalid log level: " ++ Level_String (LogLevel c))).

(** The configuration [createBaseAdapter] gives the output manager. *)
Definition outputConfig_of (config : Config ObservabilityConfig)
  : OutputConfig :=
  if negb (Z.land (Output config) OutputFile =? 0) then
    NewOutputConfig (LogFilePath config)
  else
    {| FilePath := "";
       MaxSize := DefaultMaxSize;
       MaxAge := DefaultMaxAge;
       MaxBackups := DefaultMaxBackups;
       Compress := DefaultCompress;
       LocalTime := DefaultLocalTime |}.

(** *** createBaseAdapter.  The result is [None] when the function
    panics: a method called on a nil manager. *)
Definition createBaseAdapter (config : Config ObservabilityConfig)
  (w : World) : option (option Adapter * option error) * World :=
  let zerologConfig (writer : io_Writer) :=
    {| adapters.Writer := Some writer;
       adapters.Level := LogLevel config;
       adapters.TimeFormat := "";
       adapters.PrettyPrint := PrettyPrint config;
       adapters.CallerEnabled := CallerEnabled config;
       adapters.FormatterConfig := None |} in
  let outputConfig := outputConfig_of config in
  let '((outputManager, err), w1) := NewOutputManager env outputConfig w in
  match err with
  | Some e =>
      (Some (None, Some (Errorf_w "failed to create output manager: " e)),
       w1)
  | None =>
      if Output config =? OutputStdout then
        match outputManager with
        | Some om =>
            (Some (Some (NewZerologAdapter
                           (zerologConfig (fst (GetWriter (om, w1))))),
                   None), w1)
        | None => (None, w1)
        end
      else if Output config =? OutputFile then
        match outputManager with
        | Some om =>
            (Some (Some (NewZerologAdapter
                           (zerologConfig (fst (GetWriter (om, w1))))),
                   None), w1)
        | None => (None, w1)
        end
      else if Output config =? Z.lor OutputStdout OutputFile then
        match outputManager with
        | Some om =>
            (Some (Some (NewZerologAdapter
                           (zerologConfig (fst (GetMultiWriter (om, w1))))),
                   None), w1)
        | None => (None, w1)
        end
      else
        (Some (Some (NewZerologAdapter (zerologConfig os_Stdout)), None), w1)
  end.

End Package.

End logger.

(* ================================================================== *)
(** ** Vocabulary of the statements *)

(** The logger [setupFileOutput] builds at pointer [p] for a
    configuration. *)
Definition logger_of_config (p : nat) (c : OutputConfig) : Logger :=
  {| lj_ptr := p; Filename := FilePath c; lj_MaxSize := MaxSize c;
     lj_MaxAge := MaxAge c; lj_MaxBackups := MaxBackups c;
     lj_Compress := Compress c; lj_LocalTime := LocalTime c |}.

(** The event [RotateWithRecovery] builds when it calls the rotation
    primitive on [lj] from the state [(om, w)]. *)
Definition rotation_event (env : Env) (om : OutputManager) (w : World)
  (lj : Logger) : RotationEvent :=
  {| Timestamp := w_now w + Z.of_N (env_elapsed env (w_tick w));
     OldFile := FilePath (config om);
     NewFile := FilePath (config om);
     FileSize := match env_Stat env (w_tick w) (FilePath (config om)) with
                 | inl sz => sz
                 | inr _ => 0
                 end;
     Success := isNil (env_Rotate env (S (w_tick w)) lj);
     Error := env_Rotate env (S (w_tick w)) lj |}.

(** The text of the error [setupFileOutput] returns when the directory
    cannot be created. *)
Definition mkdir_failure_text (dir : string) (err : error) : string :=
  "failed to create log directory " ++ dir ++ ": " ++ error_Error err.

(** The world after a successful or failed [os.Stat] of [path]. *)
Definition after_stat (env : Env) (path : string) (w : World) : World :=
  {| w_tick := S (w_tick w);
     w_now := w_now w + Z.of_N (env_elapsed env (w_tick w));
     w_next_ptr := w_next_ptr w;
     w_trace := w_trace w ++ [EvStat path (env_Stat env (w_tick w) path)];
     w_tasks := w_tasks w;
     w_crashed := w_crashed w |}.

(** The outside call at which [UpdateConfig] makes the new directory:
    one later when there is a writer to close first. *)
Definition rebind_tick (om : OutputManager) (w : World) : nat :=
  match fileWriter om with
  | Some _ => S (w_tick w)
  | None => w_tick w
  end.

(** The manager once [UpdateConfig] has closed and dropped its writer,
    if it had one. *)
Definition writer_dropped (om : OutputManager) : OutputManager :=
  match fileWriter om with
  | Some _ => set_isFileMode false (set_fileWriter None om)
  | None => om
  end.

(** The directory check of the validator fails. *)
Definition dir_rejected (path : string) : bool :=
  String.eqb (filepath.Dir path) "" || String.eqb (filepath.Dir path) ".".

Definition ends_in_separator (path : string) : bool :=
  HasSuffix path "/" || HasSuffix path "\".

(** The last element of the path is no file name. *)
Definition base_rejected (path : string) : bool :=
  String.eqb (filepath.Base path) "" || String.eqb (filepath.Base path) "."
  || String.eqb (filepath.Base path) "..".

(** The failure cases of validation as the specification lists them. *)
Definition spec_validate_fails (c : OutputConfig) : bool :=
  (nonempty (FilePath c) && dir_rejected (FilePath c))
  || (nonempty (FilePath c) && ends_in_separator (FilePath c))
  || (MaxSize c <=? 0) || (MaxAge c <? 0) || (MaxBackups c <? 0).

(** The failure cases of validation in the code: the listed ones and a
    last path element that is [.] or [..]. *)
Definition code_validate_fails (c : OutputConfig) : bool :=
  spec_validate_fails c
  || (nonempty (FilePath c) && base_rejected (FilePath c)).

(** A manager as [NewOutputManager] hands it out. *)
Definition fully_usable (c : OutputConfig) (p : nat) (om : OutputManager)
  : Prop :=
  config om = c
  /\ validateConfig om = None
  /\ rotationHooks om = [] /\ lastRotation om = zeroTime
  /\ rotationCount om = 0
  /\ (if nonempty (FilePath c)
      then isFileMode om = true
           /\ fileWriter om = Some (LumberjackLogger (logger_of_config p c))
      else isFileMode om = false /\ fileWriter om = None).

(** The manager invariant of the public interface. *)
Definition bound_to_config (om : OutputManager) : Prop :=
  validateConfig om = None
  /\ ((isFileMode om = false /\ fileWriter om = None)
      \/ (isFileMode om = true
          /\ nonempty (FilePath (config om)) = true
          /\ exists p,
               fileWriter om
               = Some (LumberjackLogger (logger_of_config p (config om))))).

(** Two events lie in one critical section of [om.mu] within a trace. *)
Definition in_one_critical_section (tr : list Event) (a b : Event) : Prop :=
  exists pre mid post : list Event,
    tr = (pre ++ [EvLock] ++ mid ++ [EvUnlock] ++ post)%list
    /\ In a mid /\ In b mid /\ ~ In EvLock mid /\ ~ In EvUnlock mid.

(** Rotations of the primitive that succeeded, counted in a trace. *)
Definition successes (tr : list Event) : nat :=
  List.length (filter (fun r => isNil (snd r)) (rotations tr)).

(** What a call does to the hook registry. *)
Definition registry_step (hs : list RotationHook) (c : Call)
  : list RotationHook :=
  match c with
  | CallAddRotationHook hook => (hs ++ [hook])%list
  | CallRemoveAllRotationHooks => []
  | _ => hs
  end.

(** Calls of [Close] on a writer recorded in a trace. *)
Fixpoint closes (tr : list Event) : list WriteCloser :=
  match tr with
  | [] => []
  | EvClose fw _ :: rest => fw :: closes rest
  | _ :: rest => closes rest
  end.

(** Files examined with [os.Stat] in a trace. *)
Fixpoint stats (tr : list Event) : list string :=
  match tr with
  | [] => []
  | EvStat path _ :: rest => path :: stats rest
  | _ :: rest => stats rest
  end.

(** What one call may do between the states [s] and [s']: it adds a
    piece to the trace that takes and releases the lock properly, leaves
    the registry as [hooks'], rotates at most once, counts a rotation
    that succeeded, and never moves the clock or the last rotation time
    backwards. *)
Definition summarised (hooks' : list RotationHook) (s s' : St) : Prop :=
  exists seg : list Event,
    w_trace (snd s') = (w_trace (snd s) ++ seg)%list
    /\ check_locks Unlocked seg = Some Unlocked
    /\ rotationHooks (fst s') = hooks'
    /\ (successes seg <= 1)%nat
    /\ rotationCount (fst s')
       = (if (successes seg =? 1)%nat
          then int64_add (rotationCount (fst s)) 1
          else rotationCount (fst s))
    /\ w_now (snd s) <= w_now (snd s')
    /\ (lastRotation (fst s') = lastRotation (fst s)
        \/ w_now (snd s) <= lastRotation (fst s') <= w_now (snd s')).

(** Calls that only register or remove hooks. *)
Definition is_registration (c : Call) : bool :=
  match c with
  | CallAddRotationHook _ | CallRemoveAllRotationHooks => true
  | _ => false
  end.

(** The path [createBaseAdapter] gives the output manager: the
    configured one when the file bit is set. *)
Definition manager_path {O : Type} (c : logger.Config O) : string :=
  if Z.testbit (logger.Output c) 1 then logger.LogFilePath c else "".

(** The settings [createBaseAdapter] hands to the zerolog adapter for a
    writer. *)
Definition adapter_settings {O : Type} (c : logger.Config O)
  (writer : io_Writer) : adapters.ZerologConfig :=
  {| adapters.Writer := Some writer;
     adapters.Level := logger.LogLevel c;
     adapters.TimeFormat := "";
     adapters.PrettyPrint := logger.PrettyPrint c;
     adapters.CallerEnabled := logger.CallerEnabled c;
     adapters.FormatterConfig := None |}.

(* ================================================================== *)
(** ** Scenarios *)

Module Scenario.

(** Directories under [/var/log] can be created, others are refused;
    files are two megabytes large; the rotation primitive works. *)
Definition mkdir_under_var_log (dir : string) : option error :=
  if String.eqb dir "/var/log" then None
  else Some (errorString "mkdir: permission denied").

Definition env_ok : Env :=
  {| env_MkdirAll := fun _ dir => mkdir_under_var_log dir;
     env_Stat := fun _ _ => inl 2097152;
     env_Rotate := fun _ _ => None;
     env_Close := fun _ _ => None;
     env_elapsed := fun _ => 5%N |}.

(** The rotation primitive fails, recovery is possible. *)
Definition env_rotate_fails : Env :=
  {| env_MkdirAll := fun _ dir => mkdir_under_var_log dir;
     env_Stat := fun _ _ => inl 2097152;
     env_Rotate := fun _ _ => Some (errorString "rename: device busy");
     env_Close := fun _ _ => None;
     env_elapsed := fun _ => 5%N |}.

(** The rotation primitive fails and, after the manager was built, so
    does directory creation. *)
Definition env_rotate_and_recovery_fail : Env :=
  {| env_MkdirAll := fun k dir =>
       if Nat.eqb k 0 then None
       else Some (errorString "mkdir: read-only file system");
     env_Stat := fun _ _ => inr (errorString "stat: no such file");
     env_Rotate := fun _ _ => Some (errorString "rename: device busy");
     env_Close := fun _ _ => None;
     env_elapsed := fun _ => 5%N |}.

(** Closing a writer fails. *)
Definition env_close_fails : Env :=
  {| env_MkdirAll := fun _ dir => mkdir_under_var_log dir;
     env_Stat := fun _ _ => inl 10;
     env_Rotate := fun _ _ => None;
     env_Close := fun _ _ => Some (errorString "close: input/output error");
     env_elapsed := fun _ => 5%N |}.

(** Small files. *)
Definition env_small_file : Env :=
  {| env_MkdirAll := fun _ dir => mkdir_under_var_log dir;
     env_Stat := fun _ _ => inl 10;
     env_Rotate := fun _ _ => None;
     env_Close := fun _ _ => None;
     env_elapsed := fun _ => 5%N |}.

Definition world0 : World :=
  {| w_tick := 0; w_now := 1000; w_next_ptr := 0; w_trace := [];
     w_tasks := []; w_crashed := false |}.

Definition cfg_app : OutputConfig :=
  {| FilePath := "/var/log/app.log"; MaxSize := 1; MaxAge := 7;
     MaxBackups := 5; Compress := true; LocalTime := false |}.

Definition cfg_elsewhere : OutputConfig :=
  {| FilePath := "/srv/new/app.log"; MaxSize := 20; MaxAge := 2;
     MaxBackups := 5; Compress := true; LocalTime := false |}.

Definition cfg_console : OutputConfig :=
  {| FilePath := ""; MaxSize := 100; MaxAge := 7;
     MaxBackups := 5; Compress := true; LocalTime := false |}.

Definition cfg_negative_size : OutputConfig :=
  {| FilePath := "/var/log/app.log"; MaxSize := -1; MaxAge := 1;
     MaxBackups := 0; Compress := false; LocalTime := false |}.

Definition cfg_dotdot : OutputConfig :=
  {| FilePath := "/tmp/.."; MaxSize := 100; MaxAge := 7;
     MaxBackups := 5; Compress := false; LocalTime := false |}.

Definition cfg_bare : OutputConfig :=
  {| FilePath := "app.log"; MaxSize := 100; MaxAge := 7;
     MaxBackups := 5; Compress := false; LocalTime := false |}.

(** A maximum size of 2^43 megabytes. *)
Definition cfg_huge : OutputConfig :=
  {| FilePath := "/var/log/app.log"; MaxSize := 8796093022208; MaxAge := 7;
     MaxBackups := 5; Compress := true; LocalTime := false |}.

(** The manager [NewOutputManager] builds for [c], or the bare literal
    when construction fails. *)
Definition built (env : Env) (c : OutputConfig) : St :=
  match NewOutputManager env c world0 with
  | ((Some om, _), w) => (om, w)
  | ((None, _), w) => (OutputManager_literal c, w)
  end.

Definition hook_quiet : RotationHook := fun _ => HookReturns.
Definition hook_panics : RotationHook :=
  fun _ => HookPanics "test panic in hook".
Definition hook_on_failure : RotationHook :=
  fun event => if Success event then HookReturns else HookPanics "failed".

(** The table of TestOutputManager_ValidateConfig. *)
Definition test_table : list OutputConfig :=
  [ mkOutputConfig "/tmp/test.log" 100 7 5 false false;
    mkOutputConfig "" 100 7 5 false false;
    mkOutputConfig "test.log" 100 0 0 false false;
    mkOutputConfig "/tmp/" 100 0 0 false false;
    mkOutputConfig "/tmp/test.log" 0 0 0 false false;
    mkOutputConfig "/tmp/test.log" (-1) 0 0 false false;
    mkOutputConfig "/tmp/test.log" 100 (-1) 0 false false;
    mkOutputConfig "/tmp/test.log" 100 7 (-1) false false ].

Definition cfg_other_log : OutputConfig :=
  {| FilePath := "/var/log/new.log"; MaxSize := 20; MaxAge := 2;
     MaxBackups := 0; Compress := false; LocalTime := false |}.

(** Two hooks are registered, one of which panics; the log is rotated;
    the dispatcher and then the two hook goroutines run. *)
Definition with_two_hooks : St :=
  snd (AddRotationHook hook_panics
         (snd (AddRotationHook hook_quiet (built env_ok cfg_app)))).

Definition rotated : St := snd (Rotate env_ok with_two_hooks).

Definition drained : St :=
  match run_schedule [0%nat; 0%nat; 0%nat] rotated with
  | Some s => s
  | None => rotated
  end.

(** The two hooks are removed again before the log is rotated. *)
Definition rotated_without_hooks : St :=
  snd (Rotate env_ok (snd (RemoveAllRotationHooks with_two_hooks))).

Definition drained_without_hooks : St :=
  match run_schedule [0%nat] rotated_without_hooks with
  | Some s => s
  | None => rotated_without_hooks
  end.

(** A client at work while the rotation primitive keeps failing. *)
Definition busy : St :=
  run_calls env_rotate_fails
    [CallAddRotationHook hook_on_failure; CallRotate; Schedule 0;
     Schedule 0; CallForceRotationIfNeeded; CallUpdateConfig cfg_elsewhere;
     CallUpdateConfig cfg_app; CallClose]
    (built env_rotate_fails cfg_app).

(** A client that registers hooks, rotates, lets the goroutines run and
    reads the statistics. *)
Definition session : list Call :=
  [CallAddRotationHook hook_quiet; CallRotate; Schedule 0; Schedule 0;
   CallGetRotationStats; CallForceRotationIfNeeded;
   CallRemoveAllRotationHooks; CallRotateWithRecovery; Schedule 0;
   CallGetCurrentFileSize; CallClose].

(** The manager for [cfg_app], fresh and after that session. *)
Definition fresh : St := built env_ok cfg_app.
Definition after_session : St := run_calls env_ok session fresh.

(** Registrations made while a rotation is being announced. *)
Definition late_registrations : list Call :=
  [CallAddRotationHook hook_quiet; CallRemoveAllRotationHooks;
   CallAddRotationHook hook_panics].

(** A service configuration of the logger package. *)
Definition svc_config (output : logger.OutputType) (path : string)
  : logger.Config unit :=
  {| logger.ServiceName := "billing";
     logger.Environment := "production";
     logger.Output := output;
     logger.LogLevel := INFO;
     logger.LogFilePath := path;
     logger.TenantID := "";
     logger.PrettyPrint := false;
     logger.CallerEnabled := true;
     logger.Observability := tt |}.

End Scenario.

(* ================================================================== *)
(** * Properties *)

#[local] Arguments filepath.Dir : simpl never.
#[local] Arguments filepath.Base : simpl never.
#[local] Arguments HasSuffix : simpl never.
#[local] Arguments validateConfig : simpl never.
#[local] Arguments int64_add : simpl never.
#[local] Arguments maxSizeBytes : simpl never.
#[local] Arguments Errorf_w : simpl never.
#[local] Arguments error_Error : simpl never.
#[local] Arguments String.append : simpl never.
#[local] Arguments RotateWithRecovery : simpl never.
#[local] Arguments setupFileOutput : simpl never.

(** Symbolic execution of a method body on a state. *)
Ltac exec :=
  unfold ForceRotationIfNeeded, Rotate;
  unfold RotateWithRecovery, UpdateConfig, attemptRecovery;
  unfold setupFileOutput, Close, GetCurrentFileSize, GetRotationStats,
    AddRotationHook, RemoveAllRotationHooks, triggerRotationHooks,
    hook_goroutine, with_Lock, with_RLock;
  unfold with_recover, call_hook;
  unfold os_Stat, os_MkdirAll, Logger_Rotate, WriteCloser_Close,
    load_rotationHooks, store_rotationHooks, load_lastRotation,
    store_lastRotation, load_rotationCount, store_rotationCount;
  unfold outside, emit, go, time_Now, new_ptr, get_om, update_om, bind, ret;
  cbn.

(* ------------------------------------------------------------------ *)
(** ** Paths *)

Section Paths.

Lemma upto_last_sep_no_sep (s : string) :
  filepath.has_sep s = false -> filepath.upto_last_sep s = EmptyString.
Proof.
  induction s as [|c s IH]; simpl; intros H; [reflexivity|].
  apply orb_false_iff in H. destruct H as [Hc Hs].
  rewrite (IH Hs), Hc. reflexivity.
Qed.

Lemma Dir_no_sep (s : string) :
  filepath.has_sep s = false -> filepath.Dir s = ".".
Proof.
  intros H. unfold filepath.Dir.
  rewrite (upto_last_sep_no_sep s H). reflexivity.
Qed.

Lemma Dir_has_sep (s : string) :
  filepath.Dir s <> "." -> filepath.has_sep s = true.
Proof.
  intros H. destruct (filepath.has_sep s) eqn:E; [reflexivity|].
  exfalso. apply H. apply Dir_no_sep. exact E.
Qed.

End Paths.

(* ------------------------------------------------------------------ *)
(** ** Validation *)

Section Validation.

Lemma validateConfig_reads_config (om1 om2 : OutputManager) :
  config om1 = config om2 -> validateConfig om1 = validateConfig om2.
Proof. unfold validateConfig. intros ->. reflexivity. Qed.

Lemma validateConfig_decides (om : OutputManager) :
  isNil (validateConfig om) = negb (code_validate_fails (config om)).
Proof.
  unfold validateConfig, code_validate_fails, spec_validate_fails,
    dir_rejected, ends_in_separator, base_rejected.
  destruct (nonempty (FilePath (config om))); simpl.
  - destruct (String.eqb (filepath.Dir (FilePath (config om))) ""
              || String.eqb (filepath.Dir (FilePath (config om))) ".");
      simpl; [reflexivity|].
    destruct (HasSuffix (FilePath (config om)) "/"
              || HasSuffix (FilePath (config om)) "\"); simpl; [reflexivity|].
    destruct (String.eqb (filepath.Base (FilePath (config om))) ""
              || String.eqb (filepath.Base (FilePath (config om))) "."
              || String.eqb (filepath.Base (FilePath (config om))) "..");
      simpl.
    + rewrite !orb_true_r. reflexivity.
    + rewrite !orb_false_r.
      destruct (MaxSize (config om) <=? 0); simpl; [reflexivity|].
      destruct (MaxAge (config om) <? 0); simpl; [reflexivity|].
      destruct (MaxBackups (config om) <? 0); reflexivity.
  - rewrite !orb_false_r.
    destruct (MaxSize (config om) <=? 0); simpl; [reflexivity|].
    destruct (MaxAge (config om) <? 0); simpl; [reflexivity|].
    destruct (MaxBackups (config om) <? 0); reflexivity.
Qed.

Lemma validateConfig_None_iff (om : OutputManager) :
  validateConfig om = None <-> code_validate_fails (config om) = false.
Proof.
  pose proof (validateConfig_decides om) as H.
  destruct (validateConfig om), (code_validate_fails (config om));
    simpl in H; split; intros; congruence.
Qed.

Lemma eqb_string_prop (a b : string) : String.eqb a b = true <-> a = b.
Proof. apply String.eqb_eq. Qed.

Lemma nonempty_prop (s : string) : nonempty s = true <-> s <> "".
Proof.
  unfold nonempty. rewrite negb_true_iff. apply String.eqb_neq.
Qed.

Lemma validateConfig_cases (om : OutputManager) :
  validateConfig om <> None
  <-> (FilePath (config om) <> ""
       /\ (filepath.Dir (FilePath (config om)) = ""
           \/ filepath.Dir (FilePath (config om)) = "."))
      \/ (FilePath (config om) <> ""
          /\ (HasSuffix (FilePath (config om)) "/" = true
              \/ HasSuffix (FilePath (config om)) "\" = true))
      \/ (FilePath (config om) <> ""
          /\ (filepath.Base (FilePath (config om)) = ""
              \/ filepath.Base (FilePath (config om)) = "."
              \/ filepath.Base (FilePath (config om)) = ".."))
      \/ MaxSize (config om) <= 0 \/ MaxAge (config om) < 0
      \/ MaxBackups (config om) < 0.
Proof.
  assert (E : validateConfig om <> None
              <-> code_validate_fails (config om) = true).
  { rewrite validateConfig_None_iff.
    destruct (code_validate_fails (config om)); split; congruence. }
  rewrite E. clear E.
  unfold code_validate_fails, spec_validate_fails, dir_rejected,
    ends_in_separator, base_rejected.
  rewrite !orb_true_iff, !andb_true_iff, !orb_true_iff, !eqb_string_prop,
    nonempty_prop, Z.leb_le, !Z.ltb_lt.
  tauto.
Qed.

(** C5, as the code has it: validation fails exactly in the listed
    cases or when the last path element is empty, [.] or [..] (the
    [compress] and [useLocalTime] fields play no part).  The listed
    cases: a non-empty path whose directory is empty or [.]; a
    non-empty path ending in a slash or a backslash; maximum size not
    positive; maximum age negative; backup count negative. *)
Theorem validateConfig_fails_exactly_when (om : OutputManager) :
  let c := config om in
  let path := FilePath c in
  validateConfig om <> None
  <-> (path <> "" /\ (filepath.Dir path = "" \/ filepath.Dir path = "."))
      \/ (path <> "" /\ (HasSuffix path "/" = true \/ HasSuffix path "\" = true))
      \/ (path <> ""
          /\ (filepath.Base path = "" \/ filepath.Base path = "."
              \/ filepath.Base path = ".."))
      \/ MaxSize c <= 0 \/ MaxAge c < 0 \/ MaxBackups c < 0.
Proof.
  cbv zeta. apply validateConfig_cases.
Qed.

(** C5, the statement as listed fails: [/tmp/..] has the directory
    [/tmp], ends in no separator and comes with valid numbers, so none
    of the listed cases applies, and validation rejects it. *)
Lemma validateConfig_rejects_unlisted_case :
  spec_validate_fails Scenario.cfg_dotdot = false
  /\ filepath.Dir (FilePath Scenario.cfg_dotdot) = "/tmp"
  /\ HasSuffix (FilePath Scenario.cfg_dotdot) "/" = false
  /\ HasSuffix (FilePath Scenario.cfg_dotdot) "\" = false
  /\ 0 < MaxSize Scenario.cfg_dotdot
  /\ 0 <= MaxAge Scenario.cfg_dotdot
  /\ 0 <= MaxBackups Scenario.cfg_dotdot
  /\ validateConfig (OutputManager_literal Scenario.cfg_dotdot)
     = Some err_filename_empty.
Proof.
  repeat split; try reflexivity; discriminate.
Qed.

Lemma validateConfig_bare_filename (om : OutputManager) :
  nonempty (FilePath (config om)) = true ->
  filepath.has_sep (FilePath (config om)) = false ->
  validateConfig om = Some err_dir_empty.
Proof.
  intros Hne Hsep. unfold validateConfig.
  rewrite Hne, (Dir_no_sep _ Hsep). reflexivity.
Qed.

Lemma validateConfig_numbers (om : OutputManager) :
  MaxSize (config om) <= 0 \/ MaxAge (config om) < 0
  \/ MaxBackups (config om) < 0 ->
  validateConfig om <> None.
Proof.
  intros H. apply validateConfig_cases. tauto.
Qed.

Lemma validateConfig_file_path (om : OutputManager) :
  validateConfig om = None ->
  nonempty (FilePath (config om)) = true ->
  filepath.has_sep (FilePath (config om)) = true
  /\ filepath.Dir (FilePath (config om)) <> ""
  /\ filepath.Dir (FilePath (config om)) <> ".".
Proof.
  intros Hv Hne.
  assert (Hd : filepath.Dir (FilePath (config om)) <> ""
               /\ filepath.Dir (FilePath (config om)) <> ".").
  { split; intros E;
      (destruct (validateConfig_cases om) as [_ F];
       apply F; [|exact Hv]; left; split;
       [apply nonempty_prop; exact Hne | auto]). }
  split; [|exact Hd]. apply Dir_has_sep. apply Hd.
Qed.

End Validation.

(* ------------------------------------------------------------------ *)
(** ** Machine integers *)

Section MachineIntegers.

Lemma int64_in_range (z : Z) :
  int64_min <= z <= int64_max -> int64 z = z.
Proof.
  unfold int64, int64_min, int64_max.
  change (2 ^ 63) with 9223372036854775808.
  change (2 ^ 64) with 18446744073709551616.
  intros H. rewrite Z.mod_small; lia.
Qed.

Lemma int64_add_one (n : Z) :
  int64_min <= n < int64_max -> int64_add n 1 = n + 1.
Proof.
  intros H. unfold int64_add. apply int64_in_range.
  unfold int64_min, int64_max in *.
  change (2 ^ 63) with 9223372036854775808 in *. lia.
Qed.

(** Below 2^43 megabytes the byte threshold is the exact product. *)
Lemma maxSizeBytes_exact (c : OutputConfig) :
  0 <= MaxSize c < 2 ^ 43 -> maxSizeBytes c = MaxSize c * 1048576.
Proof.
  change (2 ^ 43) with 8796093022208. intros H.
  unfold maxSizeBytes, int64_mul.
  assert (R : forall z, -9223372036854775808 <= z <= 9223372036854775807 ->
                        int64 z = z).
  { intros z Hz. apply int64_in_range. unfold int64_min, int64_max.
    change (2 ^ 63) with 9223372036854775808. lia. }
  rewrite (R (MaxSize c)) by lia.
  rewrite (R (MaxSize c * 1024)) by lia.
  rewrite (R (MaxSize c * 1024 * 1024)) by lia.
  lia.
Qed.

End MachineIntegers.

(* ------------------------------------------------------------------ *)
(** ** Traces *)

Section Traces.

Lemma hook_calls_app (a b : list Event) :
  hook_calls (a ++ b) = (hook_calls a ++ hook_calls b)%list.
Proof.
  induction a as [|e a IH]; simpl; [reflexivity|].
  destruct e; simpl; rewrite IH; reflexivity.
Qed.

Lemma rotations_app (a b : list Event) :
  rotations (a ++ b) = (rotations a ++ rotations b)%list.
Proof.
  induction a as [|e a IH]; simpl; [reflexivity|].
  destruct e; simpl; rewrite IH; reflexivity.
Qed.

Lemma mkdirs_app (a b : list Event) :
  mkdirs (a ++ b) = (mkdirs a ++ mkdirs b)%list.
Proof.
  induction a as [|e a IH]; simpl; [reflexivity|].
  destruct e; simpl; rewrite IH; reflexivity.
Qed.

Lemma hook_calls_go (f : RotationHook -> Task) (hs : list RotationHook) :
  hook_calls (map (fun h => EvGo (f h)) hs) = [].
Proof. induction hs as [|h hs IH]; simpl; auto. Qed.

End Traces.

(* ------------------------------------------------------------------ *)
(** ** Rotation *)

Section Rotation.

Variable env : Env.

Lemma RotateWithRecovery_no_writer (om : OutputManager) (w : World) :
  fileWriter om = None ->
  RotateWithRecovery env (om, w) = (Some err_no_file_writer, (om, w)).
Proof.
  intros Hfw. unfold RotateWithRecovery, bind, get_om, ret. cbn.
  rewrite Hfw. reflexivity.
Qed.

Lemma RotateWithRecovery_other_writer (om : OutputManager) (w : World)
  (p : nat) :
  fileWriter om = Some (OtherWriteCloser p) ->
  fst (RotateWithRecovery env (om, w)) = Some err_no_rotation_support
  /\ fst (snd (RotateWithRecovery env (om, w))) = om.
Proof.
  intros Hfw. destruct om as [c fw fm hs lr rc]; cbn in Hfw; subst fw.
  exec. split; reflexivity.
Qed.

(** The primitive rotates. *)
Lemma RotateWithRecovery_success (om : OutputManager) (w : World)
  (lj : Logger) :
  fileWriter om = Some (LumberjackLogger lj) ->
  env_Rotate env (S (w_tick w)) lj = None ->
  RotateWithRecovery env (om, w)
  = (None,
     (set_rotationCount (int64_add (rotationCount om) 1)
        (set_lastRotation (Timestamp (rotation_event env om w lj)) om),
      {| w_tick := S (S (w_tick w));
         w_now := w_now w + Z.of_N (env_elapsed env (w_tick w))
                  + Z.of_N (env_elapsed env (S (w_tick w)));
         w_next_ptr := w_next_ptr w;
         w_trace :=
           (w_trace w
            ++ [EvLock;
                EvStat (FilePath (config om))
                  (env_Stat env (w_tick w) (FilePath (config om)));
                EvRotate lj None;
                EvStore F_lastRotation;
                EvLoad F_rotationCount;
                EvStore F_rotationCount;
                EvGo (GoTriggerRotationHooks (rotation_event env om w lj));
                EvUnlock])%list;
         w_tasks :=
           (w_tasks w
            ++ [GoTriggerRotationHooks (rotation_event env om w lj)])%list;
         w_crashed := w_crashed w |})).
Proof.
  intros Hfw Hr. destruct om as [c fw fm hs lr rc]; cbn in Hfw; subst fw.
  unfold rotation_event. exec. rewrite Hr. cbn.
  rewrite <- !app_assoc. reflexivity.
Qed.

(** The primitive fails, the directory can be made again. *)
Lemma RotateWithRecovery_recovered (om : OutputManager) (w : World)
  (lj : Logger) (e : error) :
  fileWriter om = Some (LumberjackLogger lj) ->
  env_Rotate env (S (w_tick w)) lj = Some e ->
  env_MkdirAll env (S (S (S (w_tick w))))
    (filepath.Dir (FilePath (config om))) = None ->
  RotateWithRecovery env (om, w)
  = (Some (Errorf_w "rotation failed but recovery succeeded: " e),
     (set_fileWriter
        (Some (LumberjackLogger
                 (logger_of_config (w_next_ptr w) (config om)))) om,
      {| w_tick := S (S (S (S (w_tick w))));
         w_now := w_now w + Z.of_N (env_elapsed env (w_tick w))
                  + Z.of_N (env_elapsed env (S (w_tick w)))
                  + Z.of_N (env_elapsed env (S (S (w_tick w))))
                  + Z.of_N (env_elapsed env (S (S (S (w_tick w)))));
         w_next_ptr := S (w_next_ptr w);
         w_trace :=
           (w_trace w
            ++ [EvLock;
                EvStat (FilePath (config om))
                  (env_Stat env (w_tick w) (FilePath (config om)));
                EvRotate lj (Some e);
                EvGo (GoTriggerRotationHooks (rotation_event env om w lj));
                EvClose (LumberjackLogger lj)
                  (env_Close env (S (S (w_tick w))) (LumberjackLogger lj));
                EvMkdirAll (filepath.Dir (FilePath (config om))) None;
                EvUnlock])%list;
         w_tasks :=
           (w_tasks w
            ++ [GoTriggerRotationHooks (rotation_event env om w lj)])%list;
         w_crashed := w_crashed w |})).
Proof.
  intros Hfw Hr Hm. destruct om as [c fw fm hs lr rc]; cbn in Hfw; subst fw.
  unfold rotation_event, logger_of_config. cbn in Hm. exec.
  rewrite Hr. cbn. rewrite Hm. cbn.
  rewrite <- !app_assoc. reflexivity.
Qed.

(** The primitive fails and so does making the directory. *)
Lemma RotateWithRecovery_unrecovered (om : OutputManager) (w : World)
  (lj : Logger) (e me : error) :
  fileWriter om = Some (LumberjackLogger lj) ->
  env_Rotate env (S (w_tick w)) lj = Some e ->
  env_MkdirAll env (S (S (S (w_tick w))))
    (filepath.Dir (FilePath (config om))) = Some me ->
  RotateWithRecovery env (om, w)
  = (Some (wrapError
             ("rotation failed and recovery failed: rotation error: "
                ++ error_Error e ++ ", recovery error: "
                ++ mkdir_failure_text
                     (filepath.Dir (FilePath (config om))) me) e),
     (om,
      {| w_tick := S (S (S (S (w_tick w))));
         w_now := w_now w + Z.of_N (env_elapsed env (w_tick w))
                  + Z.of_N (env_elapsed env (S (w_tick w)))
                  + Z.of_N (env_elapsed env (S (S (w_tick w))))
                  + Z.of_N (env_elapsed env (S (S (S (w_tick w)))));
         w_next_ptr := w_next_ptr w;
         w_trace :=
           (w_trace w
            ++ [EvLock;
                EvStat (FilePath (config om))
                  (env_Stat env (w_tick w) (FilePath (config om)));
                EvRotate lj (Some e);
                EvGo (GoTriggerRotationHooks (rotation_event env om w lj));
                EvClose (LumberjackLogger lj)
                  (env_Close env (S (S (w_tick w))) (LumberjackLogger lj));
                EvMkdirAll (filepath.Dir (FilePath (config om))) (Some me);
                EvUnlock])%list;
         w_tasks :=
           (w_tasks w
            ++ [GoTriggerRotationHooks (rotation_event env om w lj)])%list;
         w_crashed := w_crashed w |})).
Proof.
  intros Hfw Hr Hm. destruct om as [c fw fm hs lr rc]; cbn in Hfw; subst fw.
  unfold rotation_event, mkdir_failure_text. cbn in Hm. exec.
  rewrite Hr. cbn. rewrite Hm. cbn.
  rewrite <- !app_assoc. reflexivity.
Qed.

Lemma GetRotationStats_reads (om : OutputManager) (w : World) :
  fst (GetRotationStats (om, w)) = (lastRotation om, rotationCount om)
  /\ fst (snd (GetRotationStats (om, w))) = om.
Proof. exec. split; reflexivity. Qed.

(** C2: with no writer bound the call fails at once; when the rotation
    primitive fails, the old logger is closed and the directory and
    logger are made again from the stored configuration; the error then
    returned carries the rotation failure, together with the recovery
    failure when recovery failed too; and no error is returned exactly
    when the primitive was called and rotated. *)
Theorem RotateWithRecovery_failure_recovery (om : OutputManager)
  (w : World) :
  let out := RotateWithRecovery env (om, w) in
  let dir := filepath.Dir (FilePath (config om)) in
  (fileWriter om = None -> out = (Some err_no_file_writer, (om, w)))
  /\ (forall lj e,
        fileWriter om = Some (LumberjackLogger lj) ->
        env_Rotate env (S (w_tick w)) lj = Some e ->
        (exists before,
           w_trace (snd (snd out))
           = (w_trace w ++ before
              ++ [EvClose (LumberjackLogger lj)
                    (env_Close env (S (S (w_tick w))) (LumberjackLogger lj));
                  EvMkdirAll dir (env_MkdirAll env (S (S (S (w_tick w)))) dir);
                  EvUnlock])%list
           /\ rotations before = [(lj, Some e)])
        /\ match env_MkdirAll env (S (S (S (w_tick w)))) dir with
           | Some me =>
               fst out
               = Some (wrapError
                         ("rotation failed and recovery failed: rotation error: "
                            ++ error_Error e ++ ", recovery error: "
                            ++ "failed to create log directory " ++ dir
                            ++ ": " ++ error_Error me) e)
               /\ fst (snd out) = om
           | None =>
               fst out
               = Some (wrapError
                         ("rotation failed but recovery succeeded: "
                            ++ error_Error e) e)
               /\ fst (snd out)
                  = set_fileWriter
                      (Some (LumberjackLogger
                               (logger_of_config (w_next_ptr w) (config om))))
                      om
           end)
  /\ (fst out = None
      <-> exists lj, fileWriter om = Some (LumberjackLogger lj)
                     /\ env_Rotate env (S (w_tick w)) lj = None).
Proof.
  cbv zeta. split; [|split].
  - apply RotateWithRecovery_no_writer.
  - intros lj e Hfw Hr.
    destruct (env_MkdirAll env (S (S (S (w_tick w))))
                (filepath.Dir (FilePath (config om)))) as [me|] eqn:Hm.
    + rewrite (RotateWithRecovery_unrecovered om w lj e me Hfw Hr Hm).
      cbn [fst snd w_trace]. split; [|split; reflexivity].
      exists [EvLock;
              EvStat (FilePath (config om))
                (env_Stat env (w_tick w) (FilePath (config om)));
              EvRotate lj (Some e);
              EvGo (GoTriggerRotationHooks (rotation_event env om w lj))].
      split; reflexivity.
    + rewrite (RotateWithRecovery_recovered om w lj e Hfw Hr Hm).
      cbn [fst snd w_trace]. split; [|split; reflexivity].
      exists [EvLock;
              EvStat (FilePath (config om))
                (env_Stat env (w_tick w) (FilePath (config om)));
              EvRotate lj (Some e);
              EvGo (GoTriggerRotationHooks (rotation_event env om w lj))].
      split; reflexivity.
  - destruct (fileWriter om) as [[lj|p]|] eqn:Hfw.
    + destruct (env_Rotate env (S (w_tick w)) lj) as [e|] eqn:Hr.
      * assert (Hsome : fst (RotateWithRecovery env (om, w)) <> None).
        { destruct (env_MkdirAll env (S (S (S (w_tick w))))
                      (filepath.Dir (FilePath (config om)))) as [me|] eqn:Hm.
          - rewrite (RotateWithRecovery_unrecovered om w lj e me Hfw Hr Hm).
            discriminate.
          - rewrite (RotateWithRecovery_recovered om w lj e Hfw Hr Hm).
            discriminate. }
        split; [intros H; contradiction|].
        intros [lj' [E Hr']]. inversion E; subst lj'. congruence.
      * rewrite (RotateWithRecovery_success om w lj Hfw Hr).
        split; [|reflexivity]. intros _. exists lj. auto.
    + destruct (RotateWithRecovery_other_writer om w p Hfw) as [E _].
      rewrite E. split; [discriminate|]. intros [lj [H _]]. discriminate.
    + rewrite (RotateWithRecovery_no_writer om w Hfw).
      split; [discriminate|]. intros [lj [H _]]. discriminate.
Qed.

(** C4: when the primitive rotates, the count goes up by one (in
    [int64]) and the last rotation time becomes the time read during
    the call, which is the event's timestamp and is not before the
    call's start; the two stores lie in one critical section of the
    manager's lock; when the primitive fails, neither field changes. *)
Theorem RotateWithRecovery_statistics (om : OutputManager) (w : World)
  (lj : Logger) :
  fileWriter om = Some (LumberjackLogger lj) ->
  let out := RotateWithRecovery env (om, w) in
  let om' := fst (snd out) in
  let w' := snd (snd out) in
  (env_Rotate env (S (w_tick w)) lj = None ->
     rotationCount om' = int64_add (rotationCount om) 1
     /\ (int64_min <= rotationCount om < int64_max ->
         rotationCount om' = rotationCount om + 1)
     /\ lastRotation om' = Timestamp (rotation_event env om w lj)
     /\ w_now w <= lastRotation om' <= w_now w'
     /\ fst (GetRotationStats (om', w'))
        = (Timestamp (rotation_event env om w lj),
           int64_add (rotationCount om) 1)
     /\ exists new,
          w_trace w' = (w_trace w ++ new)%list
          /\ in_one_critical_section new (EvStore F_lastRotation)
               (EvStore F_rotationCount))
  /\ (env_Rotate env (S (w_tick w)) lj <> None ->
      rotationCount om' = rotationCount om
      /\ lastRotation om' = lastRotation om
      /\ fst (GetRotationStats (om', w'))
         = (lastRotation om, rotationCount om)).
Proof.
  intros Hfw. cbv zeta. split.
  - intros Hr. rewrite (RotateWithRecovery_success om w lj Hfw Hr).
    cbn [fst snd w_trace w_now rotationCount lastRotation
         set_rotationCount set_lastRotation].
    split; [reflexivity|]. split; [apply int64_add_one|].
    split; [reflexivity|]. split; [cbn [rotation_event Timestamp]; lia|].
    split; [exact (proj1 (GetRotationStats_reads _ _))|].
    eexists. split; [reflexivity|].
    exists [],
      [EvStat (FilePath (config om))
         (env_Stat env (w_tick w) (FilePath (config om)));
       EvRotate lj None; EvStore F_lastRotation; EvLoad F_rotationCount;
       EvStore F_rotationCount;
       EvGo (GoTriggerRotationHooks (rotation_event env om w lj))], [].
    split; [reflexivity|]. cbn [In].
    split; [auto 6|]. split; [auto 8|].
    split; intros H; repeat (destruct H as [H|H]; [discriminate|]);
      exact H.
  - intros Hr.
    destruct (env_Rotate env (S (w_tick w)) lj) as [e|] eqn:Hre;
      [clear Hr|congruence].
    destruct (env_MkdirAll env (S (S (S (w_tick w))))
                (filepath.Dir (FilePath (config om)))) as [me|] eqn:Hm.
    + rewrite (RotateWithRecovery_unrecovered om w lj e me Hfw Hre Hm).
      cbn [fst snd]. split; [reflexivity|]. split; [reflexivity|].
      exact (proj1 (GetRotationStats_reads _ _)).
    + rewrite (RotateWithRecovery_recovered om w lj e Hfw Hre Hm).
      cbn [fst snd]. split; [reflexivity|]. split; [reflexivity|].
      exact (proj1 (GetRotationStats_reads _ _)).
Qed.

End Rotation.

(* ------------------------------------------------------------------ *)
(** ** The size check *)

Section SizeCheck.

Variable env : Env.

Lemma RotateWithRecovery_rotates_once (om : OutputManager) (w : World)
  (lj : Logger) :
  fileWriter om = Some (LumberjackLogger lj) ->
  rotations (w_trace (snd (snd (RotateWithRecovery env (om, w)))))
  = (rotations (w_trace w) ++ [(lj, env_Rotate env (S (w_tick w)) lj)])%list.
Proof.
  intros Hfw.
  destruct (env_Rotate env (S (w_tick w)) lj) as [e|] eqn:Hr.
  - destruct (env_MkdirAll env (S (S (S (w_tick w))))
                (filepath.Dir (FilePath (config om)))) as [me|] eqn:Hm.
    + rewrite (RotateWithRecovery_unrecovered env om w lj e me Hfw Hr Hm).
      cbn [fst snd w_trace]. rewrite rotations_app. reflexivity.
    + rewrite (RotateWithRecovery_recovered env om w lj e Hfw Hr Hm).
      cbn [fst snd w_trace]. rewrite rotations_app. reflexivity.
  - rewrite (RotateWithRecovery_success env om w lj Hfw Hr).
    cbn [fst snd w_trace]. rewrite rotations_app. reflexivity.
Qed.

Lemma ForceRotationIfNeeded_console (om : OutputManager) (w : World) :
  isFileMode om = false \/ fileWriter om = None ->
  ForceRotationIfNeeded env (om, w) = (None, (om, w)).
Proof.
  intros H. unfold ForceRotationIfNeeded, bind, get_om, ret. cbn.
  destruct H as [H|H]; rewrite H; cbn; [reflexivity|].
  rewrite orb_true_r. reflexivity.
Qed.

Lemma ForceRotationIfNeeded_file (om : OutputManager) (w : World) :
  isFileMode om = true -> fileWriter om <> None ->
  ForceRotationIfNeeded env (om, w)
  = match env_Stat env (w_tick w) (FilePath (config om)) with
    | inr _ => (None, (om, after_stat env (FilePath (config om)) w))
    | inl size =>
        if size >=? maxSizeBytes (config om)
        then RotateWithRecovery env
               (om, after_stat env (FilePath (config om)) w)
        else (None, (om, after_stat env (FilePath (config om)) w))
    end.
Proof.
  intros Hfm Hfw. unfold ForceRotationIfNeeded, bind, get_om, ret. cbn.
  rewrite Hfm. destruct (fileWriter om) as [fw|]; [|congruence]. cbn.
  unfold os_Stat, outside, emit, bind, ret, after_stat. cbn.
  destruct (env_Stat env (w_tick w) (FilePath (config om))) as [size|err];
    [|reflexivity].
  destruct (size >=? maxSizeBytes (config om)); reflexivity.
Qed.

(** The size check against the byte threshold the code computes:
    nothing happens on a console-only manager, when the file cannot be
    examined or when it is smaller than the threshold; otherwise the
    rotation primitive is called once, through [RotateWithRecovery].
    The threshold is the exact number of bytes for a maximum size below
    2^43 megabytes. *)
Lemma ForceRotationIfNeeded_threshold (om : OutputManager) (w : World) :
  let out := ForceRotationIfNeeded env (om, w) in
  let path := FilePath (config om) in
  (isFileMode om = false \/ fileWriter om = None -> out = (None, (om, w)))
  /\ (forall lj,
        isFileMode om = true ->
        fileWriter om = Some (LumberjackLogger lj) ->
        match env_Stat env (w_tick w) path with
        | inr _ =>
            fst out = None /\ fst (snd out) = om
            /\ rotations (w_trace (snd (snd out))) = rotations (w_trace w)
        | inl size =>
            (size < maxSizeBytes (config om) ->
             fst out = None /\ fst (snd out) = om
             /\ rotations (w_trace (snd (snd out))) = rotations (w_trace w))
            /\ (maxSizeBytes (config om) <= size ->
                out = RotateWithRecovery env (om, after_stat env path w)
                /\ rotations (w_trace (snd (snd out)))
                   = (rotations (w_trace w)
                      ++ [(lj, env_Rotate env (S (S (w_tick w))) lj)])%list)
        end)
  /\ (0 <= MaxSize (config om) < 2 ^ 43 ->
      maxSizeBytes (config om) = MaxSize (config om) * 1048576).
Proof.
  cbv zeta. split; [apply ForceRotationIfNeeded_console|].
  split; [|apply maxSizeBytes_exact].
  intros lj Hfm Hfw.
  rewrite (ForceRotationIfNeeded_file om w Hfm) by congruence.
  destruct (env_Stat env (w_tick w) (FilePath (config om)))
    as [size|err] eqn:Hst.
  - split.
    + intros Hlt.
      destruct (size >=? maxSizeBytes (config om)) eqn:Hge;
        [apply Z.geb_le in Hge; lia|].
      cbn [fst snd after_stat w_trace]. rewrite rotations_app, Hst.
      cbn. rewrite app_nil_r. auto.
    + intros Hle.
      destruct (size >=? maxSizeBytes (config om)) eqn:Hge.
      * split; [reflexivity|].
        rewrite (RotateWithRecovery_rotates_once _ _ lj Hfw).
        cbn [after_stat w_trace w_tick]. rewrite rotations_app, Hst.
        cbn. rewrite app_nil_r. reflexivity.
      * rewrite Z.geb_leb in Hge. apply Z.leb_gt in Hge. lia.
  - cbn [fst snd after_stat w_trace]. rewrite rotations_app, Hst.
    cbn. rewrite app_nil_r. auto.
Qed.

End SizeCheck.

(* ------------------------------------------------------------------ *)
(** ** Reconfiguration *)

Section Reconfiguration.

Variable env : Env.

Lemma UpdateConfig_invalid (newConfig : OutputConfig) (s : St)
  (err : error) :
  validateConfig (OutputManager_literal newConfig) = Some err ->
  UpdateConfig env newConfig s
  = (Some (Errorf_w "invalid new configuration: " err), s).
Proof. intros H. unfold UpdateConfig. rewrite H. reflexivity. Qed.

(** What [UpdateConfig] leaves in the manager, case by case. *)
Lemma UpdateConfig_manager (newConfig : OutputConfig) (om : OutputManager)
  (w : World) :
  validateConfig (OutputManager_literal newConfig) = None ->
  let out := UpdateConfig env newConfig (om, w) in
  let dir := filepath.Dir (FilePath newConfig) in
  let closed :=
    match fileWriter om with
    | Some fw => env_Close env (w_tick w) fw
    | None => None
    end in
  match closed with
  | Some cerr =>
      fst out = Some (Errorf_w "failed to close current file writer: " cerr)
      /\ fst (snd out) = om
  | None =>
      if nonempty (FilePath newConfig) then
        match env_MkdirAll env (rebind_tick om w) dir with
        | Some merr =>
            fst out
            = Some (Errorf_w "failed to setup new file output: "
                      (wrapError (mkdir_failure_text dir merr) merr))
            /\ fst (snd out) = set_config newConfig (writer_dropped om)
            /\ In dir (mkdirs (w_trace (snd (snd out))))
        | None =>
            fst out = None
            /\ fst (snd out)
               = set_isFileMode true
                   (set_fileWriter
                      (Some (LumberjackLogger
                               (logger_of_config (w_next_ptr w) newConfig)))
                      (set_config newConfig (writer_dropped om)))
        end
      else
        fst out = None
        /\ fst (snd out) = set_config newConfig (writer_dropped om)
  end.
Proof.
  intros Hv. cbv zeta. unfold UpdateConfig, rebind_tick. rewrite Hv.
  destruct om as [c fw fm hs lr rc]. exec.
  destruct fw as [fw|]; cbn.
  - destruct (env_Close env (w_tick w) fw) as [cerr|]; cbn;
      [split; reflexivity|].
    destruct (nonempty (FilePath newConfig)); cbn; [|split; reflexivity].
    destruct (env_MkdirAll env (S (w_tick w))
                (filepath.Dir (FilePath newConfig))) as [merr|]; cbn.
    + split; [reflexivity|]. split; [reflexivity|].
      rewrite !mkdirs_app. cbn. apply in_or_app. right. left. reflexivity.
    + split; reflexivity.
  - destruct (nonempty (FilePath newConfig)); cbn; [|split; reflexivity].
    destruct (env_MkdirAll env (w_tick w)
                (filepath.Dir (FilePath newConfig))) as [merr|]; cbn.
    + split; [reflexivity|]. split; [reflexivity|].
      rewrite !mkdirs_app. cbn. apply in_or_app. right. left. reflexivity.
    + split; reflexivity.
Qed.

(** C1, as the code has it: when [UpdateConfig] returns an error, either
    validation of the new configuration failed and nothing was touched;
    or closing the current writer failed and the manager is as before;
    or making the directory for the new path failed, and by then the
    old writer is closed and dropped and the new configuration is
    already stored. *)
Theorem UpdateConfig_failure_state (newConfig : OutputConfig)
  (om : OutputManager) (w : World) (err : error) :
  fst (UpdateConfig env newConfig (om, w)) = Some err ->
  let out := UpdateConfig env newConfig (om, w) in
  let om' := fst (snd out) in
  let dir := filepath.Dir (FilePath newConfig) in
  (validateConfig (OutputManager_literal newConfig) <> None
   /\ snd out = (om, w))
  \/ (validateConfig (OutputManager_literal newConfig) = None
      /\ (exists fw cerr,
            fileWriter om = Some fw
            /\ env_Close env (w_tick w) fw = Some cerr
            /\ err = Errorf_w "failed to close current file writer: " cerr)
      /\ om' = om)
  \/ (validateConfig (OutputManager_literal newConfig) = None
      /\ (forall fw, fileWriter om = Some fw ->
                     env_Close env (w_tick w) fw = None)
      /\ FilePath newConfig <> ""
      /\ (exists merr,
            env_MkdirAll env (rebind_tick om w) dir = Some merr
            /\ err = Errorf_w "failed to setup new file output: "
                       (wrapError (mkdir_failure_text dir merr) merr))
      /\ om' = set_config newConfig (writer_dropped om)
      /\ config om' = newConfig
      /\ fileWriter om' = None
      /\ (fileWriter om <> None -> isFileMode om' = false)).
Proof.
  intros Herr. cbv zeta.
  destruct (validateConfig (OutputManager_literal newConfig)) as [verr|]
    eqn:Hv.
  - left. split; [discriminate|].
    rewrite (UpdateConfig_invalid newConfig (om, w) verr Hv). reflexivity.
  - right. pose proof (UpdateConfig_manager newConfig om w Hv) as H.
    cbv zeta in H.
    destruct (fileWriter om) as [fw|] eqn:Hfw.
    + destruct (env_Close env (w_tick w) fw) as [cerr|] eqn:Hc.
      * left. destruct H as [H1 H2]. split; [reflexivity|].
        split; [|exact H2]. exists fw, cerr.
        repeat split; auto. congruence.
      * right. destruct (nonempty (FilePath newConfig)) eqn:Hne;
          [|destruct H; congruence].
        destruct (env_MkdirAll env (rebind_tick om w)
                    (filepath.Dir (FilePath newConfig))) as [merr|] eqn:Hm;
          [|destruct H; congruence].
        destruct H as [H1 [H2 _]].
        split; [reflexivity|].
        split; [intros fw' E; inversion E; subst; exact Hc|].
        split; [apply nonempty_prop; exact Hne|].
        split; [exists merr; split; [reflexivity|congruence]|].
        split; [exact H2|]. rewrite H2. unfold writer_dropped.
        rewrite Hfw. cbn. auto.
    + right. destruct (nonempty (FilePath newConfig)) eqn:Hne;
        [|destruct H; congruence].
      destruct (env_MkdirAll env (rebind_tick om w)
                  (filepath.Dir (FilePath newConfig))) as [merr|] eqn:Hm;
        [|destruct H; congruence].
      destruct H as [H1 [H2 _]].
      split; [reflexivity|].
      split; [intros fw' E; discriminate|].
      split; [apply nonempty_prop; exact Hne|].
      split; [exists merr; split; [reflexivity|congruence]|].
      split; [exact H2|]. rewrite H2. unfold writer_dropped.
      rewrite Hfw. cbn. repeat split; auto. congruence.
Qed.

End Reconfiguration.

(* ------------------------------------------------------------------ *)
(** ** Construction *)

Section Construction.

Variable env : Env.

Lemma NewOutputManager_invalid (c : OutputConfig) (w : World) :
  validateConfig (OutputManager_literal c) <> None ->
  (exists err, fst (NewOutputManager env c w) = (None, Some err))
  /\ snd (NewOutputManager env c w) = w.
Proof.
  intros H. unfold NewOutputManager.
  destruct (validateConfig (OutputManager_literal c)) as [err|];
    [|congruence].
  split; [eexists; reflexivity|reflexivity].
Qed.

Lemma NewOutputManager_result (c : OutputConfig) (w : World) :
  (exists err, fst (NewOutputManager env c w) = (None, Some err))
  \/ (exists om,
        fst (NewOutputManager env c w) = (Some om, None)
        /\ fully_usable c (w_next_ptr w) om).
Proof.
  unfold NewOutputManager.
  destruct (validateConfig (OutputManager_literal c)) as [err|] eqn:Hv.
  - left. eexists. reflexivity.
  - destruct (nonempty (FilePath c)) eqn:Hne.
    + exec.
      destruct (env_MkdirAll env (w_tick w) (filepath.Dir (FilePath c)));
        cbn.
      * left. eexists. reflexivity.
      * right. eexists. split; [reflexivity|].
        unfold fully_usable. cbn. rewrite Hne.
        repeat split; auto.
    + right. eexists. split; [reflexivity|].
      unfold fully_usable. cbn. rewrite Hne. repeat split; auto.
Qed.

(** C8: bad numbers make construction fail with the world exactly as it
    was, so without any directory made; and what comes back is either
    an error and no manager, or no error and a manager bound to its
    configuration. *)
Theorem NewOutputManager_validates_first (c : OutputConfig) (w : World) :
  let out := NewOutputManager env c w in
  (MaxSize c <= 0 \/ MaxAge c < 0 \/ MaxBackups c < 0 ->
   (exists err, fst out = (None, Some err))
   /\ snd out = w
   /\ mkdirs (w_trace (snd out)) = mkdirs (w_trace w))
  /\ ((exists err, fst out = (None, Some err))
      \/ (exists om,
            fst out = (Some om, None)
            /\ fully_usable c (w_next_ptr w) om)).
Proof.
  cbv zeta. split; [|apply NewOutputManager_result].
  intros H.
  destruct (NewOutputManager_invalid c w) as [H1 H2].
  { apply validateConfig_numbers. exact H. }
  split; [exact H1|]. split; [exact H2|]. rewrite H2. reflexivity.
Qed.

End Construction.

(* ------------------------------------------------------------------ *)
(** ** Hook dispatch *)

Section Dispatch.

Lemma start_hook_goroutines_run (hooks : list RotationHook)
  (event : RotationEvent) (om : OutputManager) (w : World) :
  start_hook_goroutines hooks event (om, w)
  = (tt,
     (om,
      {| w_tick := w_tick w; w_now := w_now w; w_next_ptr := w_next_ptr w;
         w_trace :=
           (w_trace w ++ map (fun h => EvGo (GoHook h event)) hooks)%list;
         w_tasks := (w_tasks w ++ map (fun h => GoHook h event) hooks)%list;
         w_crashed := w_crashed w |})).
Proof.
  revert w. induction hooks as [|h hooks IH]; intros w.
  - destruct w. cbn. rewrite !app_nil_r. reflexivity.
  - cbn [start_hook_goroutines]. unfold bind, go. cbn.
    rewrite IH. cbn. rewrite <- !app_assoc. reflexivity.
Qed.

(** The dispatcher: the registry is read between [RLock] and [RUnlock],
    and only then is one goroutine per hook started. *)
Lemma triggerRotationHooks_run (event : RotationEvent) (om : OutputManager)
  (w : World) :
  triggerRotationHooks event (om, w)
  = (tt,
     (om,
      {| w_tick := w_tick w; w_now := w_now w; w_next_ptr := w_next_ptr w;
         w_trace :=
           (w_trace w
            ++ [EvRLock; EvLoad F_rotationHooks; EvRUnlock]
            ++ map (fun h => EvGo (GoHook h event)) (rotationHooks om))%list;
         w_tasks :=
           (w_tasks w
            ++ map (fun h => GoHook h event) (rotationHooks om))%list;
         w_crashed := w_crashed w |})).
Proof.
  unfold triggerRotationHooks, load_rotationHooks, bind, emit, get_om, ret.
  cbn. rewrite start_hook_goroutines_run. cbn.
  rewrite <- !app_assoc. reflexivity.
Qed.

Lemma hook_goroutine_run (h : RotationHook) (event : RotationEvent)
  (om : OutputManager) (w : World) :
  fst (hook_goroutine h event (om, w)) = Finished
  /\ fst (snd (hook_goroutine h event (om, w))) = om
  /\ w_tasks (snd (snd (hook_goroutine h event (om, w)))) = w_tasks w
  /\ w_crashed (snd (snd (hook_goroutine h event (om, w)))) = w_crashed w
  /\ hook_calls (w_trace (snd (snd (hook_goroutine h event (om, w)))))
     = (hook_calls (w_trace w) ++ [(h, event)])%list.
Proof.
  unfold hook_goroutine, with_recover, call_hook, bind, emit, ret. cbn.
  destruct (h event); cbn; rewrite ?hook_calls_app; cbn;
    rewrite ?app_nil_r; auto.
Qed.

Lemma take_task_perm (i : nat) (ts : list Task) (t : Task)
  (rest : list Task) :
  take_task i ts = Some (t, rest) -> Permutation ts (t :: rest).
Proof.
  revert i t rest. induction ts as [|t0 ts IH]; intros i t rest H.
  - destruct i; discriminate.
  - destruct i as [|j]; cbn in H.
    + inversion H; subst. apply Permutation_refl.
    + destruct (take_task j ts) as [[t' rest']|] eqn:E; [|discriminate].
      inversion H; subst.
      apply perm_trans with (t0 :: t :: rest').
      * apply perm_skip. apply (IH j). exact E.
      * apply perm_swap.
Qed.

Lemma pending_calls_app (hooks : list RotationHook) (a b : list Task) :
  pending_calls hooks (a ++ b)
  = (pending_calls hooks a ++ pending_calls hooks b)%list.
Proof. unfold pending_calls. apply flat_map_app. Qed.

Lemma pending_calls_hooks (hooks hs : list RotationHook)
  (event : RotationEvent) :
  pending_calls hooks (map (fun h => GoHook h event) hs)
  = map (fun h => (h, event)) hs.
Proof.
  induction hs as [|h hs IH]; cbn; [reflexivity|].
  unfold pending_calls in IH. rewrite IH. reflexivity.
Qed.

Lemma pending_calls_perm (hooks : list RotationHook) (a b : list Task) :
  Permutation a b ->
  Permutation (pending_calls hooks a) (pending_calls hooks b).
Proof. unfold pending_calls. apply Permutation_flat_map. Qed.

(** One scheduler step keeps the calls made together with the calls
    still owed, leaves the manager alone and never ends in a crash. *)
Lemma run_task_keeps_calls (i : nat) (om om' : OutputManager)
  (w w' : World) :
  run_task i (om, w) = Some (om', w') ->
  om' = om
  /\ w_crashed w' = false
  /\ Permutation
       (hook_calls (w_trace w') ++ pending_calls (rotationHooks om) (w_tasks w'))
       (hook_calls (w_trace w) ++ pending_calls (rotationHooks om) (w_tasks w)).
Proof.
  unfold run_task. cbn [fst snd].
  destruct (w_crashed w) eqn:Hcr; [discriminate|].
  destruct (take_task i (w_tasks w)) as [[t rest]|] eqn:Ht; [|discriminate].
  pose proof (pending_calls_perm (rotationHooks om) _ _
                (take_task_perm _ _ _ _ Ht)) as Hp.
  destruct t as [event|h event]; cbn [run_goroutine].
  - unfold bind, ret. rewrite triggerRotationHooks_run.
    cbn [fst snd set_tasks w_trace w_tasks w_crashed].
    intros H. inversion H; subst. cbn [w_trace w_tasks w_crashed].
    split; [reflexivity|]. split; [exact Hcr|].
    rewrite !hook_calls_app. cbn [hook_calls].
    rewrite (hook_calls_go (fun h => GoHook h event)), pending_calls_app,
      pending_calls_hooks, !app_nil_r.
    apply Permutation_app_head.
    eapply perm_trans; [apply Permutation_app_comm|].
    apply Permutation_sym. exact Hp.
  - destruct (hook_goroutine_run h event om (set_tasks rest w))
      as [H1 [H2 [H3 [H4 H5]]]].
    destruct (hook_goroutine h event (om, set_tasks rest w))
      as [ex [om1 w1]] eqn:E.
    cbn [fst snd] in *. subst ex. intros H. inversion H; subst.
    split; [reflexivity|]. split; [rewrite H4; exact Hcr|].
    rewrite H5, H3. cbn [set_tasks w_trace w_tasks].
    rewrite <- app_assoc. apply Permutation_app_head.
    apply Permutation_sym. exact Hp.
Qed.

Lemma run_schedule_keeps_calls (sched : list nat) (s s' : St) :
  run_schedule sched s = Some s' ->
  fst s' = fst s
  /\ (sched <> [] -> w_crashed (snd s') = false)
  /\ Permutation
       (hook_calls (w_trace (snd s'))
        ++ pending_calls (rotationHooks (fst s)) (w_tasks (snd s')))
       (hook_calls (w_trace (snd s))
        ++ pending_calls (rotationHooks (fst s)) (w_tasks (snd s))).
Proof.
  revert s. induction sched as [|i sched IH]; intros s H; cbn in H.
  - inversion H; subst. split; [reflexivity|].
    split; [congruence|apply Permutation_refl].
  - destruct (run_task i s) as [s1|] eqn:E; [|discriminate].
    destruct s as [om w]. destruct s1 as [om1 w1].
    destruct (run_task_keeps_calls _ _ _ _ _ E) as [Hom [Hcr Hp]].
    subst om1. destruct (IH _ H) as [H1 [H2 H3]]. cbn [fst snd] in *.
    split; [exact H1|]. split.
    + intros _. destruct sched as [|j sched'].
      * cbn in H. inversion H; subst. exact Hcr.
      * apply H2. discriminate.
    + eapply perm_trans; [exact H3|exact Hp].
Qed.

(** Once the pool is empty, the calls made are the calls there were and
    the calls that were owed. *)
Lemma run_schedule_drained (sched : list nat) (s s' : St) :
  run_schedule sched s = Some s' ->
  w_tasks (snd s') = [] ->
  Permutation (hook_calls (w_trace (snd s')))
    (hook_calls (w_trace (snd s))
     ++ pending_calls (rotationHooks (fst s)) (w_tasks (snd s))).
Proof.
  intros H Hempty.
  destruct (run_schedule_keeps_calls _ _ _ H) as [_ [_ Hp]].
  rewrite Hempty in Hp. cbn in Hp. rewrite app_nil_r in Hp. exact Hp.
Qed.

Lemma pending_steps_app (hooks : list RotationHook) (a b : list Task) :
  pending_steps hooks (a ++ b)
  = (pending_steps hooks a + pending_steps hooks b)%nat.
Proof. unfold pending_steps. rewrite map_app, list_sum_app. reflexivity. Qed.

Lemma pending_steps_hooks (hooks hs : list RotationHook)
  (event : RotationEvent) :
  pending_steps hooks (map (fun h => GoHook h event) hs) = List.length hs.
Proof.
  unfold pending_steps.
  induction hs as [|h hs IH]; [reflexivity|].
  cbn. f_equal. exact IH.
Qed.

(** Whatever the hooks do, the pending goroutines can be run to the
    end: running the first one again and again empties the pool. *)
Lemma pool_can_be_drained (n : nat) (om : OutputManager) (w : World) :
  (pending_steps (rotationHooks om) (w_tasks w) <= n)%nat ->
  w_crashed w = false ->
  exists sched s',
    run_schedule sched (om, w) = Some s' /\ w_tasks (snd s') = [].
Proof.
  revert w. induction n as [|n IH]; intros w Hn Hcr.
  - exists [], (om, w). split; [reflexivity|]. cbn.
    destruct (w_tasks w) as [|t ts]; [reflexivity|].
    unfold pending_steps in Hn. cbn in Hn. destruct t; cbn in Hn; lia.
  - destruct (w_tasks w) as [|t ts] eqn:Hts.
    + exists [], (om, w). split; [reflexivity|exact Hts].
    + assert (Hstep : exists w1,
                run_task 0 (om, w) = Some (om, w1)
                /\ w_crashed w1 = false
                /\ (pending_steps (rotationHooks om) (w_tasks w1) <= n)%nat).
      { unfold run_task. cbn [fst snd]. rewrite Hcr, Hts. cbn [take_task].
        unfold pending_steps in Hn.
        destruct t as [event|h event]; cbn [run_goroutine]; cbn in Hn.
        - unfold bind, ret. rewrite triggerRotationHooks_run.
          cbn [fst snd set_tasks w_trace w_tasks w_crashed].
          eexists. split; [reflexivity|]. cbn [w_crashed w_tasks].
          split; [exact Hcr|].
          rewrite pending_steps_app, pending_steps_hooks.
          unfold pending_steps, list_sum in *. lia.
        - destruct (hook_goroutine_run h event om (set_tasks ts w))
            as [H1 [H2 [H3 [H4 _]]]].
          destruct (hook_goroutine h event (om, set_tasks ts w))
            as [ex [om1 w1]] eqn:E.
          cbn [fst snd] in *. subst ex om1.
          exists w1. split; [reflexivity|].
          split; [rewrite H4; exact Hcr|].
          rewrite H3. cbn [set_tasks w_tasks].
          unfold pending_steps, list_sum in *. lia. }
      destruct Hstep as [w1 [Hrun [Hcr1 Hn1]]].
      destruct (IH w1 Hn1 Hcr1) as [sched [s' [Hs Hempty]]].
      exists (0%nat :: sched), s'. split; [|exact Hempty].
      cbn [run_schedule]. rewrite Hrun. exact Hs.
Qed.

End Dispatch.

(* ------------------------------------------------------------------ *)
(** ** Rotation and its hooks *)

Section RotationHooks.

Variable env : Env.

Lemma calls_since_extends (w w' : World)
  (added : list (RotationHook * RotationEvent)) :
  hook_calls (w_trace w') = (hook_calls (w_trace w) ++ added)%list ->
  calls_since w w' = added.
Proof.
  intros H. unfold calls_since. rewrite H, skipn_app, skipn_all.
  rewrite Nat.sub_diag. reflexivity.
Qed.

Lemma run_task_extends (i : nat) (s s' : St) :
  run_task i s = Some s' ->
  exists added,
    hook_calls (w_trace (snd s'))
    = (hook_calls (w_trace (snd s)) ++ added)%list.
Proof.
  destruct s as [om w]. unfold run_task. cbn [fst snd].
  destruct (w_crashed w); [discriminate|].
  destruct (take_task i (w_tasks w)) as [[t rest]|]; [|discriminate].
  destruct t as [event|h event]; cbn [run_goroutine].
  - unfold bind, ret. rewrite triggerRotationHooks_run. cbn [fst snd].
    intros H. inversion H; subst. cbn [snd w_trace set_tasks].
    exists []. rewrite hook_calls_app. cbn [hook_calls].
    rewrite (hook_calls_go (fun h => GoHook h event)). reflexivity.
  - destruct (hook_goroutine_run h event om (set_tasks rest w))
      as [H1 [_ [_ [_ H5]]]].
    destruct (hook_goroutine h event (om, set_tasks rest w))
      as [ex [om1 w1]].
    cbn [fst snd] in *. subst ex. intros H. inversion H; subst.
    cbn [snd]. exists [(h, event)]. exact H5.
Qed.

Lemma run_schedule_extends (sched : list nat) (s s' : St) :
  run_schedule sched s = Some s' ->
  exists added,
    hook_calls (w_trace (snd s'))
    = (hook_calls (w_trace (snd s)) ++ added)%list.
Proof.
  revert s. induction sched as [|i sched IH]; intros s H; cbn in H.
  - inversion H; subst. exists []. rewrite app_nil_r. reflexivity.
  - destruct (run_task i s) as [s1|] eqn:E; [|discriminate].
    destruct (run_task_extends _ _ _ E) as [a1 H1].
    destruct (IH _ H) as [a2 H2].
    exists (a1 ++ a2)%list. rewrite H2, H1, app_assoc. reflexivity.
Qed.

(** Once the pool is empty, the calls made meanwhile are the calls that
    were owed, each once. *)
Lemma run_schedule_calls_since (sched : list nat) (s s' : St) :
  run_schedule sched s = Some s' ->
  w_tasks (snd s') = [] ->
  Permutation (calls_since (snd s) (snd s'))
    (pending_calls (rotationHooks (fst s)) (w_tasks (snd s))).
Proof.
  intros H Hempty.
  destruct (run_schedule_extends _ _ _ H) as [added Ha].
  rewrite (calls_since_extends _ _ _ Ha).
  pose proof (run_schedule_drained _ _ _ H Hempty) as Hp.
  rewrite Ha in Hp. apply Permutation_app_inv_l in Hp. exact Hp.
Qed.

Lemma calls_since_same_start (w1 w2 w' : World) :
  hook_calls (w_trace w1) = hook_calls (w_trace w2) ->
  calls_since w1 w' = calls_since w2 w'.
Proof. intros H. unfold calls_since. rewrite H. reflexivity. Qed.

(** A rotation attempt starts the dispatcher once, with the event of
    the attempt, and calls no hook itself. *)
Lemma RotateWithRecovery_dispatches (om : OutputManager) (w : World)
  (lj : Logger) :
  fileWriter om = Some (LumberjackLogger lj) ->
  w_tasks (snd (snd (RotateWithRecovery env (om, w))))
  = (w_tasks w ++ [GoTriggerRotationHooks (rotation_event env om w lj)])%list
  /\ hook_calls (w_trace (snd (snd (RotateWithRecovery env (om, w)))))
     = hook_calls (w_trace w)
  /\ rotationHooks (fst (snd (RotateWithRecovery env (om, w))))
     = rotationHooks om
  /\ w_crashed (snd (snd (RotateWithRecovery env (om, w)))) = w_crashed w.
Proof.
  intros Hfw.
  destruct (env_Rotate env (S (w_tick w)) lj) as [e|] eqn:Hr.
  - destruct (env_MkdirAll env (S (S (S (w_tick w))))
                (filepath.Dir (FilePath (config om)))) as [me|] eqn:Hm.
    + rewrite (RotateWithRecovery_unrecovered env om w lj e me Hfw Hr Hm).
      cbn [fst snd w_trace w_tasks w_crashed]. rewrite hook_calls_app.
      cbn. rewrite app_nil_r. auto.
    + rewrite (RotateWithRecovery_recovered env om w lj e Hfw Hr Hm).
      cbn [fst snd w_trace w_tasks w_crashed]. rewrite hook_calls_app.
      cbn. rewrite app_nil_r. auto.
  - rewrite (RotateWithRecovery_success env om w lj Hfw Hr).
    cbn [fst snd w_trace w_tasks w_crashed]. rewrite hook_calls_app.
    cbn. rewrite app_nil_r. auto.
Qed.

Lemma RemoveAllRotationHooks_run (om : OutputManager) (w : World) :
  RemoveAllRotationHooks (om, w)
  = (tt,
     (set_rotationHooks [] om,
      {| w_tick := w_tick w; w_now := w_now w; w_next_ptr := w_next_ptr w;
         w_trace :=
           (w_trace w ++ [EvLock; EvStore F_rotationHooks; EvUnlock])%list;
         w_tasks := w_tasks w;
         w_crashed := w_crashed w |})).
Proof. exec. rewrite <- !app_assoc. reflexivity. Qed.

Lemma AddRotationHook_run (hook : RotationHook) (om : OutputManager)
  (w : World) :
  AddRotationHook hook (om, w)
  = (tt,
     (set_rotationHooks (rotationHooks om ++ [hook]) om,
      {| w_tick := w_tick w; w_now := w_now w; w_next_ptr := w_next_ptr w;
         w_trace :=
           (w_trace w
            ++ [EvLock; EvLoad F_rotationHooks; EvStore F_rotationHooks;
                EvUnlock])%list;
         w_tasks := w_tasks w;
         w_crashed := w_crashed w |})).
Proof. exec. rewrite <- !app_assoc. reflexivity. Qed.

(** The error a rotation returns is the same under any registry. *)
Lemma RotateWithRecovery_ignores_hooks (om : OutputManager) (w : World)
  (hs : list RotationHook) :
  fst (RotateWithRecovery env (set_rotationHooks hs om, w))
  = fst (RotateWithRecovery env (om, w)).
Proof.
  destruct (fileWriter om) as [[lj|p]|] eqn:Hfw.
  - destruct (env_Rotate env (S (w_tick w)) lj) as [e|] eqn:Hr.
    + destruct (env_MkdirAll env (S (S (S (w_tick w))))
                  (filepath.Dir (FilePath (config om)))) as [me|] eqn:Hm.
      * rewrite (RotateWithRecovery_unrecovered env om w lj e me Hfw Hr Hm).
        rewrite (RotateWithRecovery_unrecovered env (set_rotationHooks hs om)
                   w lj e me Hfw Hr Hm).
        reflexivity.
      * rewrite (RotateWithRecovery_recovered env om w lj e Hfw Hr Hm).
        rewrite (RotateWithRecovery_recovered env (set_rotationHooks hs om)
                   w lj e Hfw Hr Hm).
        reflexivity.
    + rewrite (RotateWithRecovery_success env om w lj Hfw Hr).
      rewrite (RotateWithRecovery_success env (set_rotationHooks hs om)
                 w lj Hfw Hr).
      reflexivity.
  - destruct (RotateWithRecovery_other_writer env om w p Hfw) as [E _].
    destruct (RotateWithRecovery_other_writer env (set_rotationHooks hs om)
                w p Hfw) as [E' _].
    congruence.
  - rewrite (RotateWithRecovery_no_writer env om w Hfw).
    rewrite (RotateWithRecovery_no_writer env (set_rotationHooks hs om)
               w Hfw).
    reflexivity.
Qed.

(** C6: a rotation attempt starts the dispatcher once with an event
    whose success flag and error are the primitive's answer; when the
    pending goroutines have run, in whatever order, every hook of the
    registry has been called once with that event (besides the calls
    earlier attempts still owed); after [RemoveAllRotationHooks] an
    attempt leads to no call for its event; the dispatcher reads the
    registry between [RLock] and [RUnlock] and starts hook goroutines
    only afterwards, calling no hook itself. *)
Theorem rotation_hooks_called_once (om : OutputManager) (w : World)
  (lj : Logger) :
  fileWriter om = Some (LumberjackLogger lj) ->
  let event := rotation_event env om w lj in
  let s1 := snd (RotateWithRecovery env (om, w)) in
  let s1' :=
    snd (RotateWithRecovery env (snd (RemoveAllRotationHooks (om, w)))) in
  (w_tasks (snd s1) = (w_tasks w ++ [GoTriggerRotationHooks event])%list
   /\ Success event = isNil (env_Rotate env (S (w_tick w)) lj)
   /\ Error event = env_Rotate env (S (w_tick w)) lj
   /\ (Error event <> None <-> Success event = false))
  /\ (forall sched s2,
        run_schedule sched s1 = Some s2 -> w_tasks (snd s2) = [] ->
        Permutation (calls_since w (snd s2))
          (pending_calls (rotationHooks om) (w_tasks w)
           ++ map (fun h => (h, event)) (rotationHooks om)))
  /\ (forall sched s2,
        run_schedule sched s1' = Some s2 -> w_tasks (snd s2) = [] ->
        Permutation (calls_since w (snd s2)) (pending_calls [] (w_tasks w))
        /\ (w_tasks w = [] -> calls_since w (snd s2) = []))
  /\ (forall ev om0 w0,
        w_trace (snd (snd (triggerRotationHooks ev (om0, w0))))
        = (w_trace w0
           ++ [EvRLock; EvLoad F_rotationHooks; EvRUnlock]
           ++ map (fun h => EvGo (GoHook h ev)) (rotationHooks om0))%list
        /\ calls_since w0 (snd (snd (triggerRotationHooks ev (om0, w0))))
           = []).
Proof.
  intros Hfw. cbv zeta.
  destruct (RotateWithRecovery_dispatches om w lj Hfw)
    as [Htasks [Hcalls [Hhooks Hcr]]].
  split; [|split; [|split]].
  - split; [exact Htasks|]. split; [reflexivity|]. split; [reflexivity|].
    cbn [rotation_event Error Success].
    destruct (env_Rotate env (S (w_tick w)) lj); cbn; split; congruence.
  - intros sched s2 Hrun Hempty.
    rewrite <- (calls_since_same_start _ w _ Hcalls).
    pose proof (run_schedule_calls_since _ _ _ Hrun Hempty) as Hp.
    rewrite Hhooks, Htasks, pending_calls_app in Hp. cbn in Hp.
    rewrite app_nil_r in Hp. exact Hp.
  - intros sched s2. rewrite RemoveAllRotationHooks_run. cbn [snd].
    set (om0 := set_rotationHooks [] om).
    set (w0 := {| w_tick := w_tick w; w_now := w_now w;
                  w_next_ptr := w_next_ptr w;
                  w_trace := (w_trace w
                              ++ [EvLock; EvStore F_rotationHooks;
                                  EvUnlock])%list;
                  w_tasks := w_tasks w; w_crashed := w_crashed w |}).
    intros Hrun Hempty.
    destruct (RotateWithRecovery_dispatches om0 w0 lj Hfw)
      as [Htasks0 [Hcalls0 [Hhooks0 _]]].
    assert (Hw0 : hook_calls (w_trace w0) = hook_calls (w_trace w)).
    { unfold w0. cbn [w_trace]. rewrite hook_calls_app. cbn.
      apply app_nil_r. }
    pose proof (run_schedule_calls_since _ _ _ Hrun Hempty) as Hp.
    rewrite Hhooks0, Htasks0, pending_calls_app in Hp. cbn in Hp.
    rewrite app_nil_r in Hp.
    rewrite (calls_since_same_start _ w _ (eq_trans Hcalls0 Hw0)) in Hp.
    split; [exact Hp|].
    intros Hquiet. rewrite Hquiet in Hp. cbn in Hp.
    apply Permutation_sym, Permutation_nil in Hp. exact Hp.
  - intros ev om0 w0. rewrite triggerRotationHooks_run. cbn [fst snd w_trace].
    split; [reflexivity|].
    apply calls_since_extends. cbn [w_trace]. rewrite hook_calls_app.
    cbn [hook_calls app].
    rewrite (hook_calls_go (fun h => GoHook h ev)). reflexivity.
Qed.

(** C7: whatever the hooks do, panics included, the error a rotation
    returns is the same; the goroutines it leaves behind can always be
    run to the end, and when they have run, in whatever order, the
    process has not crashed, the manager is as the rotation left it,
    and every registered hook has been called with the event. *)
Theorem hook_panics_are_contained (om : OutputManager) (w : World)
  (lj : Logger) :
  fileWriter om = Some (LumberjackLogger lj) ->
  w_crashed w = false ->
  let event := rotation_event env om w lj in
  let s1 := snd (Rotate env (om, w)) in
  (forall hs,
     fst (Rotate env (set_rotationHooks hs om, w))
     = fst (Rotate env (om, w)))
  /\ (exists sched s2,
        run_schedule sched s1 = Some s2 /\ w_tasks (snd s2) = [])
  /\ (forall sched s2,
        run_schedule sched s1 = Some s2 -> w_tasks (snd s2) = [] ->
        w_crashed (snd s2) = false
        /\ fst s2 = fst s1
        /\ forall h, In h (rotationHooks om) ->
                     In (h, event) (calls_since w (snd s2))).
Proof.
  intros Hfw Hcr. cbv zeta. unfold Rotate.
  destruct (RotateWithRecovery_dispatches om w lj Hfw)
    as [Htasks [Hcalls [Hhooks Hcr1]]].
  split; [intros hs; apply RotateWithRecovery_ignores_hooks|].
  destruct (RotateWithRecovery env (om, w)) as [r [om1 w1]] eqn:E.
  cbn [fst snd] in *.
  split.
  - apply (pool_can_be_drained
             (pending_steps (rotationHooks om1) (w_tasks w1)));
      [apply Nat.le_refl|congruence].
  - intros sched s2 Hrun Hempty.
    destruct (run_schedule_keeps_calls _ _ _ Hrun) as [Hom [Hnc _]].
    cbn [fst snd] in *.
    split.
    + destruct sched as [|i sched]; [|apply Hnc; discriminate].
      cbn in Hrun. inversion Hrun; subst. cbn. congruence.
    + split; [exact Hom|]. intros h Hin.
      pose proof (run_schedule_calls_since _ _ _ Hrun Hempty) as Hp.
      cbn [fst snd] in Hp.
      rewrite Hhooks, Htasks, pending_calls_app in Hp. cbn in Hp.
      rewrite app_nil_r in Hp.
      rewrite (calls_since_same_start _ w _ Hcalls) in Hp.
      apply (Permutation_in _ (Permutation_sym Hp)).
      apply in_or_app. right.
      apply (in_map (fun h0 => (h0, rotation_event env om w lj))).
      exact Hin.
Qed.

End RotationHooks.

(* ------------------------------------------------------------------ *)
(** ** Managers a client can hold *)

Section Reachable.

Variable env : Env.

Lemma bound_to_config_same_binding (om om' : OutputManager) :
  config om' = config om -> fileWriter om' = fileWriter om ->
  isFileMode om' = isFileMode om ->
  bound_to_config om -> bound_to_config om'.
Proof.
  unfold bound_to_config. intros Hc Hw Hm [Hv H].
  rewrite (validateConfig_reads_config om' om Hc), Hc, Hw, Hm. auto.
Qed.

Lemma fully_usable_bound (c : OutputConfig) (p : nat) (om : OutputManager) :
  fully_usable c p om -> bound_to_config om.
Proof.
  unfold fully_usable, bound_to_config.
  intros [Hc [Hv [_ [_ [_ H]]]]]. split; [exact Hv|]. subst c.
  destruct (nonempty (FilePath (config om))).
  - right. destruct H as [H1 H2]. split; [exact H1|].
    split; [reflexivity|]. exists p. exact H2.
  - left. exact H.
Qed.

Lemma NewOutputManager_bound (c : OutputConfig) (w0 : World)
  (om : OutputManager) (w1 : World) :
  NewOutputManager env c w0 = ((Some om, None), w1) -> bound_to_config om.
Proof.
  intros H. destruct (NewOutputManager_result env c w0) as [[err E]|[om' [E U]]].
  - rewrite H in E. discriminate.
  - rewrite H in E. inversion E; subst. exact (fully_usable_bound _ _ _ U).
Qed.

Lemma writer_dropped_bound (newConfig : OutputConfig) (om : OutputManager) :
  validateConfig (OutputManager_literal newConfig) = None ->
  bound_to_config om ->
  bound_to_config (set_config newConfig (writer_dropped om)).
Proof.
  intros Hv [_ H]. split.
  - rewrite <- Hv. apply validateConfig_reads_config. reflexivity.
  - left. unfold writer_dropped.
    destruct H as [[H1 H2]|[H1 [H2 [p H3]]]].
    + rewrite H2. cbn. auto.
    + rewrite H3. cbn. auto.
Qed.

Lemma UpdateConfig_bound (newConfig : OutputConfig) (om : OutputManager)
  (w : World) :
  bound_to_config om ->
  bound_to_config (fst (snd (UpdateConfig env newConfig (om, w)))).
Proof.
  intros Hb.
  destruct (validateConfig (OutputManager_literal newConfig)) as [verr|]
    eqn:Hv.
  - rewrite (UpdateConfig_invalid env newConfig (om, w) verr Hv). exact Hb.
  - pose proof (UpdateConfig_manager env newConfig om w Hv) as H.
    cbv zeta in H.
    destruct (match fileWriter om with
              | Some fw => env_Close env (w_tick w) fw
              | None => None
              end) as [cerr|].
    + destruct H as [_ H]. rewrite H. exact Hb.
    + destruct (nonempty (FilePath newConfig)) eqn:Hne.
      * destruct (env_MkdirAll env (rebind_tick om w)
                    (filepath.Dir (FilePath newConfig))) as [merr|].
        -- destruct H as [_ [H _]]. rewrite H.
           apply writer_dropped_bound; assumption.
        -- destruct H as [_ H]. rewrite H. split.
           ++ rewrite <- Hv. apply validateConfig_reads_config. reflexivity.
           ++ right. cbn. split; [reflexivity|]. split; [exact Hne|].
              exists (w_next_ptr w). reflexivity.
      * destruct H as [_ H]. rewrite H.
        apply writer_dropped_bound; assumption.
Qed.

Lemma RotateWithRecovery_bound (om : OutputManager) (w : World) :
  bound_to_config om ->
  bound_to_config (fst (snd (RotateWithRecovery env (om, w))))
  /\ fst (RotateWithRecovery env (om, w)) <> Some err_no_rotation_support.
Proof.
  intros Hb. destruct Hb as [Hv [[H1 H2]|[H1 [H2 [p H3]]]]].
  - rewrite (RotateWithRecovery_no_writer env om w H2).
    split; [|discriminate]. split; auto.
  - set (lj := logger_of_config p (config om)) in *.
    assert (Hb : bound_to_config om).
    { split; [exact Hv|]. right. split; [exact H1|]. split; [exact H2|].
      exists p. exact H3. }
    destruct (env_Rotate env (S (w_tick w)) lj) as [e|] eqn:Hr.
    + destruct (env_MkdirAll env (S (S (S (w_tick w))))
                  (filepath.Dir (FilePath (config om)))) as [me|] eqn:Hm.
      * rewrite (RotateWithRecovery_unrecovered env om w lj e me H3 Hr Hm).
        split; [exact Hb|discriminate].
      * rewrite (RotateWithRecovery_recovered env om w lj e H3 Hr Hm).
        split; [|discriminate]. cbn [fst snd]. split; [exact Hv|].
        right. cbn. split; [exact H1|]. split; [exact H2|].
        exists (w_next_ptr w). reflexivity.
    + rewrite (RotateWithRecovery_success env om w lj H3 Hr).
      split; [|discriminate]. cbn [fst snd].
      apply (bound_to_config_same_binding om); auto.
Qed.

Lemma ForceRotationIfNeeded_bound (om : OutputManager) (w : World) :
  bound_to_config om ->
  bound_to_config (fst (snd (ForceRotationIfNeeded env (om, w))))
  /\ fst (ForceRotationIfNeeded env (om, w)) <> Some err_no_rotation_support.
Proof.
  intros Hb. destruct (isFileMode om) eqn:Hfm.
  - destruct (fileWriter om) as [fw|] eqn:Hfw.
    + rewrite (ForceRotationIfNeeded_file env om w Hfm) by congruence.
      destruct (env_Stat env (w_tick w) (FilePath (config om)))
        as [size|err].
      * destruct (size >=? maxSizeBytes (config om)).
        -- apply RotateWithRecovery_bound. exact Hb.
        -- split; [exact Hb|discriminate].
      * split; [exact Hb|discriminate].
    + rewrite (ForceRotationIfNeeded_console env om w) by auto.
      split; [exact Hb|discriminate].
  - rewrite (ForceRotationIfNeeded_console env om w) by auto.
    split; [exact Hb|discriminate].
Qed.

Lemma Close_manager (om : OutputManager) (w : World) :
  fst (snd (Close env (om, w))) = om.
Proof. exec. destruct (fileWriter om); reflexivity. Qed.

Lemma GetCurrentFileSize_manager (om : OutputManager) (w : World) :
  fst (snd (GetCurrentFileSize env (om, w))) = om.
Proof.
  exec. destruct (isFileMode om); cbn; [|reflexivity].
  destruct (env_Stat env (w_tick w) (FilePath (config om))); reflexivity.
Qed.

Lemma do_call_bound (c : Call) (s : St) :
  bound_to_config (fst s) -> bound_to_config (fst (do_call env c s)).
Proof.
  destruct s as [om w]. cbn [fst]. intros Hb.
  destruct c; cbn [do_call].
  - apply UpdateConfig_bound. exact Hb.
  - rewrite Close_manager. exact Hb.
  - apply RotateWithRecovery_bound. exact Hb.
  - apply RotateWithRecovery_bound. exact Hb.
  - apply ForceRotationIfNeeded_bound. exact Hb.
  - rewrite AddRotationHook_run. cbn [fst snd].
    apply (bound_to_config_same_binding om); auto.
  - rewrite RemoveAllRotationHooks_run. cbn [fst snd].
    apply (bound_to_config_same_binding om); auto.
  - rewrite (proj2 (GetRotationStats_reads om w)). exact Hb.
  - rewrite GetCurrentFileSize_manager. exact Hb.
  - destruct (run_task i (om, w)) as [[om' w']|] eqn:E; [|exact Hb].
    destruct (run_task_keeps_calls _ _ _ _ _ E) as [Hom _].
    cbn [fst]. subst om'. exact Hb.
Qed.

Lemma run_calls_bound (cs : list Call) (s : St) :
  bound_to_config (fst s) -> bound_to_config (fst (run_calls env cs s)).
Proof.
  revert s. induction cs as [|c cs IH]; intros s Hb; [exact Hb|].
  cbn [run_calls fold_left]. apply IH. apply do_call_bound. exact Hb.
Qed.

Lemma reachable_bound (s : St) :
  reachable env s -> bound_to_config (fst s).
Proof.
  intros [c [w0 [om0 [w1 [cs [Hnew Hrun]]]]]]. subst s.
  apply run_calls_bound. cbn [fst].
  exact (NewOutputManager_bound c w0 om0 w1 Hnew).
Qed.

(** C9: a path without a separator has the directory [.] and is
    rejected with the empty-directory error; hence the path of every
    manager in file mode that a client can hold contains a separator,
    with a directory that is neither empty nor [.]. *)
Theorem bare_filename_is_rejected :
  (forall om : OutputManager,
     FilePath (config om) <> "" ->
     filepath.has_sep (FilePath (config om)) = false ->
     filepath.Dir (FilePath (config om)) = "."
     /\ validateConfig om = Some err_dir_empty)
  /\ (forall s : St,
        reachable env s ->
        isFileMode (fst s) = true ->
        filepath.has_sep (FilePath (config (fst s))) = true
        /\ filepath.Dir (FilePath (config (fst s))) <> ""
        /\ filepath.Dir (FilePath (config (fst s))) <> ".").
Proof.
  split.
  - intros om Hne Hsep. split; [apply Dir_no_sep; exact Hsep|].
    apply validateConfig_bare_filename; [|exact Hsep].
    apply nonempty_prop. exact Hne.
  - intros s Hr Hfm.
    destruct (reachable_bound s Hr) as [Hv [[H1 _]|[_ [H2 _]]]];
      [congruence|].
    apply validateConfig_file_path; assumption.
Qed.

(** C10: in every manager a client can hold, file mode means that the
    writer is a lumberjack logger carrying the fields of the stored
    configuration, and a manager without file mode has no writer; so
    no rotation call ends in the error of a writer that cannot rotate. *)
Theorem file_mode_writer_is_lumberjack (s : St) :
  reachable env s ->
  (isFileMode (fst s) = true ->
   exists p,
     fileWriter (fst s)
     = Some (LumberjackLogger (logger_of_config p (config (fst s)))))
  /\ (isFileMode (fst s) = false -> fileWriter (fst s) = None)
  /\ fst (Rotate env s) <> Some err_no_rotation_support
  /\ fst (RotateWithRecovery env s) <> Some err_no_rotation_support
  /\ fst (ForceRotationIfNeeded env s) <> Some err_no_rotation_support.
Proof.
  intros Hr. pose proof (reachable_bound s Hr) as Hb.
  destruct s as [om w]. cbn [fst] in *.
  split; [|split; [|split; [|split]]].
  - intros Hfm. destruct Hb as [_ [[H1 _]|[_ [_ H3]]]]; [congruence|].
    exact H3.
  - intros Hfm. destruct Hb as [_ [[_ H2]|[H1 _]]]; [exact H2|congruence].
  - unfold Rotate. apply RotateWithRecovery_bound. exact Hb.
  - apply RotateWithRecovery_bound. exact Hb.
  - apply ForceRotationIfNeeded_bound. exact Hb.
Qed.

End Reachable.

(* ================================================================== *)
(** * The repository's tests, on the model *)

Section Tests.

(** TestOutputManager_ValidateConfig *)
Example test_ValidateConfig :
  map (fun c => option_map error_Error
                  (validateConfig (OutputManager_literal c)))
    Scenario.test_table
  = [ None; None;
      Some "invalid file path: directory cannot be empty";
      Some "invalid file path: filename cannot be empty";
      Some "max size must be positive, got 0";
      Some "max size must be positive, got -1";
      Some "max age cannot be negative, got -1";
      Some "max backups cannot be negative, got -1" ].
Proof. vm_compute. reflexivity. Qed.

(** TestNewOutputManager_NoFile, TestOutputManager_Rotate_NoFile,
    TestOutputManager_Close_NoFile,
    TestOutputManager_ForceRotationIfNeeded_NoFile *)
Example test_NoFile :
  let s := Scenario.built Scenario.env_ok Scenario.cfg_console in
  fst (NewOutputManager Scenario.env_ok Scenario.cfg_console Scenario.world0)
  = (Some (OutputManager_literal Scenario.cfg_console), None)
  /\ isFileMode (fst s) = false
  /\ option_map error_Error (fst (Rotate Scenario.env_ok s))
     = Some "no file writer configured"
  /\ snd (Rotate Scenario.env_ok s) = s
  /\ fst (Close Scenario.env_ok s) = None
  /\ ForceRotationIfNeeded Scenario.env_ok s = (None, s).
Proof. cbv zeta. vm_compute. repeat split; reflexivity. Qed.

(** TestOutputManager_UpdateConfig, TestOutputManager_UpdateConfig_Invalid *)
Example test_UpdateConfig :
  let s := Scenario.built Scenario.env_ok Scenario.cfg_app in
  fst (UpdateConfig Scenario.env_ok Scenario.cfg_other_log s) = None
  /\ config (fst (snd (UpdateConfig Scenario.env_ok
                         Scenario.cfg_other_log s)))
     = Scenario.cfg_other_log
  /\ isFileMode (fst (snd (UpdateConfig Scenario.env_ok
                             Scenario.cfg_other_log s))) = true
  /\ fst (UpdateConfig Scenario.env_ok Scenario.cfg_negative_size s)
     <> None
  /\ snd (UpdateConfig Scenario.env_ok Scenario.cfg_negative_size s) = s.
Proof. cbv zeta. vm_compute. repeat split; try reflexivity; discriminate. Qed.

(** A writer that cannot be closed keeps the manager as it is. *)
Example test_UpdateConfig_close_fails :
  let s := Scenario.built Scenario.env_close_fails Scenario.cfg_app in
  option_map error_Error
    (fst (UpdateConfig Scenario.env_close_fails Scenario.cfg_other_log s))
  = Some "failed to close current file writer: close: input/output error"
  /\ fst (snd (UpdateConfig Scenario.env_close_fails
                 Scenario.cfg_other_log s)) = fst s.
Proof. cbv zeta. vm_compute. split; reflexivity. Qed.

(** TestOutputManager_RotationStats *)
Example test_RotationStats :
  let s := Scenario.built Scenario.env_ok Scenario.cfg_app in
  fst (GetRotationStats s) = (zeroTime, 0)
  /\ fst (Rotate Scenario.env_ok s) = None
  /\ fst (GetRotationStats (snd (Rotate Scenario.env_ok s))) = (1010, 1).
Proof. cbv zeta. vm_compute. repeat split; reflexivity. Qed.

(** TestOutputManager_ForceRotationIfNeeded: a small file is left
    alone, a file of two megabytes under a limit of one is rotated. *)
Example test_ForceRotationIfNeeded :
  rotationCount
    (fst (snd (ForceRotationIfNeeded Scenario.env_small_file
                 (Scenario.built Scenario.env_small_file Scenario.cfg_app))))
  = 0
  /\ rotationCount
       (fst (snd (ForceRotationIfNeeded Scenario.env_ok
                    (Scenario.built Scenario.env_ok Scenario.cfg_app))))
     = 1.
Proof. vm_compute. split; reflexivity. Qed.

(** TestOutputManager_RotationHookPanicRecovery: both hooks are called,
    the panic is printed, the rotation reports no error. *)
Example test_RotationHookPanicRecovery :
  fst (Rotate Scenario.env_ok Scenario.with_two_hooks) = None
  /\ List.length (calls_since (snd Scenario.with_two_hooks)
                    (snd Scenario.drained)) = 2%nat
  /\ w_crashed (snd Scenario.drained) = false
  /\ In (EvStderr ("Rotation hook panic: test panic in hook"
                     ++ String "010" EmptyString))
        (w_trace (snd Scenario.drained)).
Proof.
  vm_compute. repeat split; try reflexivity.
  repeat (first [left; reflexivity | right]).
Qed.

(** TestOutputManager_RemoveAllRotationHooks *)
Example test_RemoveAllRotationHooks :
  w_tasks (snd Scenario.drained_without_hooks) = []
  /\ calls_since (snd Scenario.with_two_hooks)
       (snd Scenario.drained_without_hooks) = [].
Proof. vm_compute. split; reflexivity. Qed.

End Tests.

(* ================================================================== *)
(** * The statements on concrete runs *)

(** C1, the statement as given fails: the manager for
    [/var/log/app.log] is asked to move to [/srv/new/app.log], whose
    directory cannot be made.  [UpdateConfig] returns an error, and the
    manager now stores the new configuration, has no writer and is out
    of file mode. *)
Lemma UpdateConfig_rebind_failure_swaps :
  let s := Scenario.built Scenario.env_ok Scenario.cfg_app in
  let out := UpdateConfig Scenario.env_ok Scenario.cfg_elsewhere s in
  config (fst s) = Scenario.cfg_app
  /\ isFileMode (fst s) = true
  /\ fst out <> None
  /\ config (fst (snd out)) = Scenario.cfg_elsewhere
  /\ config (fst (snd out)) <> config (fst s)
  /\ fileWriter (fst (snd out)) <> fileWriter (fst s)
  /\ isFileMode (fst (snd out)) <> isFileMode (fst s).
Proof.
  cbv zeta. vm_compute. repeat split; discriminate.
Qed.

Lemma UpdateConfig_failure_state_witness :
  let s := Scenario.built Scenario.env_ok Scenario.cfg_app in
  let out := UpdateConfig Scenario.env_ok Scenario.cfg_elsewhere s in
  fst out <> None
  /\ fst (snd out)
     = set_config Scenario.cfg_elsewhere (writer_dropped (fst s)).
Proof.
  cbv zeta. split; [discriminate|].
  destruct (UpdateConfig_failure_state Scenario.env_ok
              Scenario.cfg_elsewhere
              (fst (Scenario.built Scenario.env_ok Scenario.cfg_app))
              (snd (Scenario.built Scenario.env_ok Scenario.cfg_app))
              _ eq_refl)
    as [[Hv _]|[[_ [[fw [cerr [_ [Hc _]]]] _]]|[_ [_ [_ [_ [H _]]]]]]].
  - exfalso. apply Hv. reflexivity.
  - discriminate Hc.
  - exact H.
Defined.

Lemma RotateWithRecovery_failure_recovery_witness :
  let s := Scenario.built Scenario.env_rotate_and_recovery_fail
             Scenario.cfg_app in
  fst (RotateWithRecovery Scenario.env_rotate_and_recovery_fail s)
  = Some (wrapError
            ("rotation failed and recovery failed: rotation error: "
               ++ "rename: device busy" ++ ", recovery error: "
               ++ "failed to create log directory " ++ "/var/log" ++ ": "
               ++ "mkdir: read-only file system")
            (errorString "rename: device busy")).
Proof.
  cbv zeta.
  exact (proj1 (proj2 (proj1 (proj2
    (RotateWithRecovery_failure_recovery
       Scenario.env_rotate_and_recovery_fail
       (fst (Scenario.built Scenario.env_rotate_and_recovery_fail
               Scenario.cfg_app))
       (snd (Scenario.built Scenario.env_rotate_and_recovery_fail
               Scenario.cfg_app))))
    _ _ eq_refl eq_refl))).
Defined.

(** C3, the code at a maximum size of 2^43 megabytes: the configuration
    is accepted, the file holds 10 bytes, far below 2^43 * 1048576, yet
    the 64-bit product wraps to -2^63, the comparison succeeds and the
    file is rotated. *)
Lemma ForceRotationIfNeeded_threshold_wraps :
  let s := Scenario.built Scenario.env_small_file Scenario.cfg_huge in
  let out := ForceRotationIfNeeded Scenario.env_small_file s in
  validateConfig (fst s) = None
  /\ isFileMode (fst s) = true
  /\ env_Stat Scenario.env_small_file (w_tick (snd s))
       (FilePath Scenario.cfg_huge) = inl 10
  /\ 10 < MaxSize Scenario.cfg_huge * 1048576
  /\ maxSizeBytes Scenario.cfg_huge = int64_min
  /\ rotations (w_trace (snd s)) = []
  /\ rotations (w_trace (snd (snd out)))
     = [(logger_of_config 0 Scenario.cfg_huge, None)]
  /\ rotationCount (fst (snd out)) = 1.
Proof.
  cbv zeta. vm_compute. repeat split; reflexivity.
Qed.

Lemma RotateWithRecovery_statistics_witness :
  let s := Scenario.built Scenario.env_ok Scenario.cfg_app in
  let out := RotateWithRecovery Scenario.env_ok s in
  rotationCount (fst s) = 0
  /\ rotationCount (fst (snd out)) = 1
  /\ lastRotation (fst (snd out)) = 1010.
Proof.
  cbv zeta.
  destruct (RotateWithRecovery_statistics Scenario.env_ok
              (fst (Scenario.built Scenario.env_ok Scenario.cfg_app))
              (snd (Scenario.built Scenario.env_ok Scenario.cfg_app))
              _ eq_refl) as [H _].
  destruct (H eq_refl) as [_ [H1 [H2 _]]].
  split; [reflexivity|]. split.
  - apply H1. split; [discriminate|reflexivity].
  - exact H2.
Defined.

Lemma rotation_hooks_called_once_witness :
  run_schedule [0%nat; 0%nat; 0%nat] Scenario.rotated
  = Some Scenario.drained
  /\ w_tasks (snd Scenario.drained) = []
  /\ Permutation
       (calls_since (snd Scenario.with_two_hooks) (snd Scenario.drained))
       (map (fun h =>
               (h, rotation_event Scenario.env_ok
                     (fst Scenario.with_two_hooks)
                     (snd Scenario.with_two_hooks)
                     (logger_of_config 0 Scenario.cfg_app)))
          [Scenario.hook_quiet; Scenario.hook_panics]).
Proof.
  assert (Hfw : fileWriter (fst Scenario.with_two_hooks)
                = Some (LumberjackLogger
                          (logger_of_config 0 Scenario.cfg_app)))
    by (vm_compute; reflexivity).
  assert (Hrun : run_schedule [0%nat; 0%nat; 0%nat]
                   (snd (RotateWithRecovery Scenario.env_ok
                           (fst Scenario.with_two_hooks,
                            snd Scenario.with_two_hooks)))
                 = Some Scenario.drained)
    by (vm_compute; reflexivity).
  assert (Hempty : w_tasks (snd Scenario.drained) = [])
    by (vm_compute; reflexivity).
  pose proof (proj1 (proj2
    (rotation_hooks_called_once Scenario.env_ok
       (fst Scenario.with_two_hooks) (snd Scenario.with_two_hooks)
       (logger_of_config 0 Scenario.cfg_app) Hfw))
    [0%nat; 0%nat; 0%nat] Scenario.drained Hrun Hempty) as H.
  split; [vm_compute; reflexivity|]. split; [exact Hempty|].
  vm_compute in H. vm_compute. exact H.
Defined.

Lemma hook_panics_are_contained_witness :
  Scenario.hook_panics
    (rotation_event Scenario.env_ok (fst Scenario.with_two_hooks)
       (snd Scenario.with_two_hooks) (logger_of_config 0 Scenario.cfg_app))
  = HookPanics "test panic in hook"
  /\ fst (Rotate Scenario.env_ok Scenario.with_two_hooks) = None
  /\ w_crashed (snd Scenario.drained) = false
  /\ In (Scenario.hook_quiet,
         rotation_event Scenario.env_ok (fst Scenario.with_two_hooks)
           (snd Scenario.with_two_hooks)
           (logger_of_config 0 Scenario.cfg_app))
        (calls_since (snd Scenario.with_two_hooks) (snd Scenario.drained)).
Proof.
  assert (Hfw : fileWriter (fst Scenario.with_two_hooks)
                = Some (LumberjackLogger
                          (logger_of_config 0 Scenario.cfg_app)))
    by (vm_compute; reflexivity).
  assert (Hcr : w_crashed (snd Scenario.with_two_hooks) = false)
    by (vm_compute; reflexivity).
  assert (Hrun : run_schedule [0%nat; 0%nat; 0%nat]
                   (snd (Rotate Scenario.env_ok
                           (fst Scenario.with_two_hooks,
                            snd Scenario.with_two_hooks)))
                 = Some Scenario.drained)
    by (vm_compute; reflexivity).
  assert (Hempty : w_tasks (snd Scenario.drained) = [])
    by (vm_compute; reflexivity).
  destruct (proj2 (proj2
    (hook_panics_are_contained Scenario.env_ok
       (fst Scenario.with_two_hooks) (snd Scenario.with_two_hooks)
       (logger_of_config 0 Scenario.cfg_app) Hfw Hcr))
    [0%nat; 0%nat; 0%nat] Scenario.drained Hrun Hempty)
    as [Hnc [_ Hin]].
  split; [reflexivity|]. split; [vm_compute; reflexivity|].
  split; [exact Hnc|]. apply Hin. vm_compute. left. reflexivity.
Defined.

Lemma NewOutputManager_validates_first_witness :
  MaxSize Scenario.cfg_negative_size <= 0
  /\ snd (NewOutputManager Scenario.env_ok Scenario.cfg_negative_size
            Scenario.world0) = Scenario.world0
  /\ fst (fst (NewOutputManager Scenario.env_ok Scenario.cfg_negative_size
                 Scenario.world0)) = None.
Proof.
  assert (H : MaxSize Scenario.cfg_negative_size <= 0) by (cbn; lia).
  split; [exact H|].
  destruct (proj1 (NewOutputManager_validates_first Scenario.env_ok
                     Scenario.cfg_negative_size Scenario.world0)
              (or_introl H)) as [[err E] [Hw _]].
  split; [exact Hw|]. rewrite E. reflexivity.
Defined.

Lemma bare_filename_is_rejected_witness :
  filepath.has_sep (FilePath Scenario.cfg_bare) = false
  /\ validateConfig (OutputManager_literal Scenario.cfg_bare)
     = Some err_dir_empty.
Proof.
  split; [reflexivity|].
  assert (H : FilePath (config (OutputManager_literal Scenario.cfg_bare))
              <> "") by discriminate.
  exact (proj2 (proj1 (bare_filename_is_rejected Scenario.env_ok)
                  (OutputManager_literal Scenario.cfg_bare) H eq_refl)).
Defined.

Lemma file_mode_writer_is_lumberjack_witness :
  reachable Scenario.env_rotate_fails Scenario.busy
  /\ isFileMode (fst Scenario.busy) = true
  /\ fst (Rotate Scenario.env_rotate_fails Scenario.busy)
     <> Some err_no_rotation_support.
Proof.
  assert (H : reachable Scenario.env_rotate_fails Scenario.busy).
  { exists Scenario.cfg_app, Scenario.world0,
      (fst (Scenario.built Scenario.env_rotate_fails Scenario.cfg_app)),
      (snd (Scenario.built Scenario.env_rotate_fails Scenario.cfg_app)).
    exists [CallAddRotationHook Scenario.hook_on_failure; CallRotate;
            Schedule 0; Schedule 0; CallForceRotationIfNeeded;
            CallUpdateConfig Scenario.cfg_elsewhere;
            CallUpdateConfig Scenario.cfg_app; CallClose].
    split; vm_compute; reflexivity. }
  split; [exact H|]. split; [vm_compute; reflexivity|].
  exact (proj1 (proj2 (proj2
    (file_mode_writer_is_lumberjack Scenario.env_rotate_fails
       Scenario.busy H)))).
Defined.

(* ================================================================== *)
(** * Further properties of the manager *)

(* ------------------------------------------------------------------ *)
(** ** What every call does *)

Section Summaries.

Variable env : Env.

Lemma check_locks_app (st : LockState) (a b : list Event) :
  check_locks st (a ++ b)
  = match check_locks st a with
    | Some st' => check_locks st' b
    | None => None
    end.
Proof.
  revert st. induction a as [|e a IH]; intros st; cbn; [reflexivity|].
  destruct (lock_step st e); [apply IH|reflexivity].
Qed.

Lemma check_locks_go (st : LockState) (f : RotationHook -> Task)
  (hs : list RotationHook) :
  check_locks st (map (fun h => EvGo (f h)) hs) = Some st.
Proof.
  induction hs as [|h hs IH]; cbn; [reflexivity|].
  destruct st; exact IH.
Qed.

Lemma successes_app (a b : list Event) :
  successes (a ++ b) = (successes a + successes b)%nat.
Proof.
  unfold successes. rewrite rotations_app, filter_app, length_app.
  reflexivity.
Qed.

Lemma rotations_go (f : RotationHook -> Task) (hs : list RotationHook) :
  rotations (map (fun h => EvGo (f h)) hs) = [].
Proof. induction hs as [|h hs IH]; cbn; auto. Qed.

Lemma elapsed_nonneg (k : nat) : 0 <= Z.of_N (env_elapsed env k).
Proof. apply N2Z.is_nonneg. Qed.

(** Nothing happened. *)
Lemma summarised_refl (s : St) : summarised (rotationHooks (fst s)) s s.
Proof.
  exists []. rewrite app_nil_r. cbn.
  repeat split; auto; lia.
Qed.

(** The statistics and the registry are the same and the trace grew by
    a piece without a rotation that succeeded. *)
Lemma summarised_quiet (om : OutputManager) (w w' : World)
  (seg : list Event) :
  w_trace w' = (w_trace w ++ seg)%list ->
  check_locks Unlocked seg = Some Unlocked ->
  successes seg = 0%nat ->
  w_now w <= w_now w' ->
  forall om',
    rotationHooks om' = rotationHooks om ->
    rotationCount om' = rotationCount om ->
    lastRotation om' = lastRotation om ->
    summarised (rotationHooks om) (om, w) (om', w').
Proof.
  intros Htr Hl Hr Hnow om' Hh Hc Ht. exists seg. cbn [fst snd].
  rewrite Hr. cbn.
  repeat split; auto.
Qed.

Lemma RotateWithRecovery_summarised (om : OutputManager) (w : World) :
  summarised (rotationHooks om) (om, w)
    (snd (RotateWithRecovery env (om, w))).
Proof.
  pose proof (elapsed_nonneg (w_tick w)).
  pose proof (elapsed_nonneg (S (w_tick w))).
  pose proof (elapsed_nonneg (S (S (w_tick w)))).
  pose proof (elapsed_nonneg (S (S (S (w_tick w))))).
  destruct (fileWriter om) as [[lj|p]|] eqn:Hfw.
  - destruct (env_Rotate env (S (w_tick w)) lj) as [e|] eqn:Hr.
    + destruct (env_MkdirAll env (S (S (S (w_tick w))))
                  (filepath.Dir (FilePath (config om)))) as [me|] eqn:Hm.
      * rewrite (RotateWithRecovery_unrecovered env om w lj e me Hfw Hr Hm).
        cbn [snd].
        eapply summarised_quiet;
          [cbn [w_trace]; reflexivity | reflexivity | reflexivity
          | cbn [w_now]; lia | reflexivity ..].
      * rewrite (RotateWithRecovery_recovered env om w lj e Hfw Hr Hm).
        cbn [snd].
        eapply summarised_quiet;
          [cbn [w_trace]; reflexivity | reflexivity | reflexivity
          | cbn [w_now]; lia | reflexivity ..].
    + rewrite (RotateWithRecovery_success env om w lj Hfw Hr).
      cbn [snd]. eexists. cbn [fst snd w_trace w_now].
      split; [reflexivity|]. split; [reflexivity|].
      split; [reflexivity|]. split; [cbn; lia|].
      split; [reflexivity|]. split; [lia|].
      right. cbn [lastRotation set_rotationCount set_lastRotation
                  rotation_event Timestamp]. lia.
  - destruct om as [c fw fm hs lr rc]; cbn in Hfw; subst fw. exec.
    eapply summarised_quiet;
      [cbn [w_trace]; rewrite <- app_assoc; reflexivity | reflexivity
      | reflexivity | cbn [w_now]; lia | reflexivity ..].
  - rewrite (RotateWithRecovery_no_writer env om w Hfw). cbn [snd].
    apply summarised_refl.
Qed.

Ltac quiet :=
  eapply summarised_quiet;
  [ cbn [w_trace];
    first [ reflexivity
          | rewrite <- !app_assoc; reflexivity
          | symmetry; apply app_nil_r ]
  | reflexivity | reflexivity | cbn [w_now]; lia | reflexivity .. ].

Lemma UpdateConfig_summarised (newConfig : OutputConfig)
  (om : OutputManager) (w : World) :
  summarised (rotationHooks om) (om, w)
    (snd (UpdateConfig env newConfig (om, w))).
Proof.
  pose proof (elapsed_nonneg (w_tick w)).
  pose proof (elapsed_nonneg (S (w_tick w))).
  destruct (validateConfig (OutputManager_literal newConfig)) as [verr|]
    eqn:Hv.
  - rewrite (UpdateConfig_invalid env newConfig (om, w) verr Hv).
    apply summarised_refl.
  - unfold UpdateConfig. rewrite Hv.
    destruct om as [c fw fm hs lr rc]. exec.
    destruct fw as [fw|]; cbn.
    + destruct (env_Close env (w_tick w) fw) as [cerr|]; cbn; [quiet|].
      destruct (nonempty (FilePath newConfig)); cbn; [|quiet].
      destruct (env_MkdirAll env (S (w_tick w))
                  (filepath.Dir (FilePath newConfig))) as [merr|]; cbn;
        quiet.
    + destruct (nonempty (FilePath newConfig)); cbn; [|quiet].
      destruct (env_MkdirAll env (w_tick w)
                  (filepath.Dir (FilePath newConfig))) as [merr|]; cbn;
        quiet.
Qed.

Lemma Close_summarised (om : OutputManager) (w : World) :
  summarised (rotationHooks om) (om, w) (snd (Close env (om, w))).
Proof.
  pose proof (elapsed_nonneg (w_tick w)).
  destruct om as [c fw fm hs lr rc]. exec.
  destruct fw as [fw|]; cbn; quiet.
Qed.

Lemma GetCurrentFileSize_summarised (om : OutputManager) (w : World) :
  summarised (rotationHooks om) (om, w)
    (snd (GetCurrentFileSize env (om, w))).
Proof.
  pose proof (elapsed_nonneg (w_tick w)).
  destruct om as [c fw fm hs lr rc]. exec.
  destruct fm; cbn; [|quiet].
  destruct (env_Stat env (w_tick w) (FilePath c)); cbn; quiet.
Qed.

Lemma GetRotationStats_summarised (om : OutputManager) (w : World) :
  summarised (rotationHooks om) (om, w) (snd (GetRotationStats (om, w))).
Proof. destruct om as [c fw fm hs lr rc]. exec. quiet. Qed.

Lemma AddRotationHook_summarised (hook : RotationHook)
  (om : OutputManager) (w : World) :
  summarised (rotationHooks om ++ [hook]) (om, w)
    (snd (AddRotationHook hook (om, w))).
Proof.
  rewrite AddRotationHook_run. cbn [snd]. eexists. cbn [fst snd w_trace].
  split; [reflexivity|]. cbn. repeat split; auto; lia.
Qed.

Lemma RemoveAllRotationHooks_summarised (om : OutputManager) (w : World) :
  summarised [] (om, w) (snd (RemoveAllRotationHooks (om, w))).
Proof.
  rewrite RemoveAllRotationHooks_run. cbn [snd]. eexists.
  cbn [fst snd w_trace].
  split; [reflexivity|]. cbn. repeat split; auto; lia.
Qed.

Lemma summarised_after_stat (om : OutputManager) (w : World)
  (s' : St) (hooks' : list RotationHook) :
  summarised hooks' (om, after_stat env (FilePath (config om)) w) s' ->
  summarised hooks' (om, w) s'.
Proof.
  pose proof (elapsed_nonneg (w_tick w)).
  intros [seg [Htr [Hl [Hh [Hs [Hc [Hn Ht]]]]]]].
  cbn [fst snd after_stat w_trace w_now] in *.
  exists (EvStat (FilePath (config om))
            (env_Stat env (w_tick w) (FilePath (config om))) :: seg).
  cbn [fst snd].
  split; [rewrite Htr, <- app_assoc; reflexivity|].
  split; [exact Hl|]. split; [exact Hh|].
  change (successes
            (EvStat (FilePath (config om))
               (env_Stat env (w_tick w) (FilePath (config om))) :: seg))
    with (successes seg).
  split; [exact Hs|]. split; [exact Hc|]. split; [lia|].
  destruct Ht as [Ht|Ht]; [left; exact Ht|right; lia].
Qed.

Lemma ForceRotationIfNeeded_summarised (om : OutputManager) (w : World) :
  summarised (rotationHooks om) (om, w)
    (snd (ForceRotationIfNeeded env (om, w))).
Proof.
  destruct (isFileMode om) eqn:Hfm.
  - destruct (fileWriter om) as [fw|] eqn:Hfw.
    + rewrite (ForceRotationIfNeeded_file env om w Hfm) by congruence.
      apply summarised_after_stat.
      destruct (env_Stat env (w_tick w) (FilePath (config om)))
        as [size|err].
      * destruct (size >=? maxSizeBytes (config om)).
        -- apply RotateWithRecovery_summarised.
        -- apply summarised_refl.
      * apply summarised_refl.
    + rewrite (ForceRotationIfNeeded_console env om w) by auto.
      apply summarised_refl.
  - rewrite (ForceRotationIfNeeded_console env om w) by auto.
    apply summarised_refl.
Qed.

Lemma run_task_summarised (i : nat) (om : OutputManager) (w : World)
  (s' : St) :
  run_task i (om, w) = Some s' ->
  summarised (rotationHooks om) (om, w) s'.
Proof.
  unfold run_task. cbn [fst snd].
  destruct (w_crashed w); [discriminate|].
  destruct (take_task i (w_tasks w)) as [[t rest]|]; [|discriminate].
  destruct t as [event|h event]; cbn [run_goroutine].
  - unfold bind, ret. rewrite triggerRotationHooks_run. cbn [fst snd].
    intros H. inversion H; subst. clear H.
    eapply summarised_quiet;
      [ cbn [w_trace set_tasks]; reflexivity | | | cbn; lia
      | reflexivity .. ].
    + cbn. apply (check_locks_go Unlocked (fun h => GoHook h event)).
    + unfold successes. cbn.
      rewrite (rotations_go (fun h => GoHook h event)). reflexivity.
  - unfold hook_goroutine, with_recover, call_hook, bind, emit, ret. cbn.
    destruct (h event); cbn; intros H; inversion H; subst; clear H; quiet.
Qed.

Lemma do_call_summarised (c : Call) (s : St) :
  summarised (registry_step (rotationHooks (fst s)) c) s (do_call env c s).
Proof.
  destruct s as [om w]. cbn [fst].
  destruct c; cbn [do_call registry_step].
  - apply UpdateConfig_summarised.
  - apply Close_summarised.
  - apply RotateWithRecovery_summarised.
  - apply RotateWithRecovery_summarised.
  - apply ForceRotationIfNeeded_summarised.
  - apply AddRotationHook_summarised.
  - apply RemoveAllRotationHooks_summarised.
  - apply GetRotationStats_summarised.
  - apply GetCurrentFileSize_summarised.
  - destruct (run_task i (om, w)) as [s'|] eqn:E.
    + exact (run_task_summarised _ _ _ _ E).
    + apply summarised_refl.
Qed.

End Summaries.

(* ------------------------------------------------------------------ *)
(** ** Sequences of calls *)

Section Sequences.

Variable env : Env.

Lemma NewOutputManager_trace (c : OutputConfig) (w : World) :
  w_trace (snd (NewOutputManager env c w))
  = (w_trace w
     ++ (if isNil (validateConfig (OutputManager_literal c))
            && nonempty (FilePath c)
         then [EvMkdirAll (filepath.Dir (FilePath c))
                 (env_MkdirAll env (w_tick w) (filepath.Dir (FilePath c)))]
         else []))%list.
Proof.
  unfold NewOutputManager.
  destruct (validateConfig (OutputManager_literal c)) as [verr|]; cbn.
  - symmetry. apply app_nil_r.
  - destruct (nonempty (FilePath c)); cbn; [|symmetry; apply app_nil_r].
    exec.
    destruct (env_MkdirAll env (w_tick w) (filepath.Dir (FilePath c)));
      reflexivity.
Qed.

Lemma run_calls_summarised (cs : list Call) (s : St) :
  exists seg : list Event,
    w_trace (snd (run_calls env cs s)) = (w_trace (snd s) ++ seg)%list
    /\ check_locks Unlocked seg = Some Unlocked
    /\ rotationHooks (fst (run_calls env cs s))
       = fold_left registry_step cs (rotationHooks (fst s))
    /\ (successes seg <= List.length cs)%nat
    /\ (int64_min <= rotationCount (fst s) ->
        rotationCount (fst s) + Z.of_nat (List.length cs) <= int64_max ->
        rotationCount (fst (run_calls env cs s))
        = rotationCount (fst s) + Z.of_nat (successes seg))
    /\ w_now (snd s) <= w_now (snd (run_calls env cs s))
    /\ (lastRotation (fst s) <= w_now (snd s) ->
        lastRotation (fst s) <= lastRotation (fst (run_calls env cs s))
        /\ lastRotation (fst (run_calls env cs s))
           <= w_now (snd (run_calls env cs s))).
Proof.
  revert s. induction cs as [|c cs IH]; intros s.
  - exists []. cbn. rewrite app_nil_r.
    repeat split; auto; lia.
  - cbn [run_calls fold_left List.length].
    destruct (do_call_summarised env c s)
      as [seg1 [Htr1 [Hl1 [Hh1 [Hs1 [Hc1 [Hn1 Ht1]]]]]]].
    destruct (IH (do_call env c s))
      as [seg2 [Htr2 [Hl2 [Hh2 [Hs2 [Hc2 [Hn2 Ht2]]]]]]].
    fold (run_calls env cs (do_call env c s)) in *.
    exists (seg1 ++ seg2)%list.
    split; [rewrite Htr2, Htr1, app_assoc; reflexivity|].
    split; [rewrite check_locks_app, Hl1; exact Hl2|].
    split; [rewrite Hh2, Hh1; reflexivity|].
    rewrite successes_app.
    split; [lia|].
    split.
    + intros Hmin Hmax.
      assert (Hroom : int64_min <= rotationCount (fst s) < int64_max)
        by (clear - Hmin Hmax; lia).
      assert (Hstep : rotationCount (fst (do_call env c s))
                      = rotationCount (fst s) + Z.of_nat (successes seg1)).
      { rewrite Hc1. destruct (successes seg1 =? 1)%nat eqn:E.
        - apply Nat.eqb_eq in E. rewrite E.
          rewrite (int64_add_one _ Hroom). reflexivity.
        - apply Nat.eqb_neq in E.
          assert (E0 : successes seg1 = 0%nat) by (clear - E Hs1; lia).
          rewrite E0. cbn. clear. lia. }
      rewrite Hc2; [rewrite Hstep; clear; lia
                   |rewrite Hstep; clear - Hmin; lia
                   |rewrite Hstep; clear - Hmax Hs1; lia].
    + split; [lia|]. intros Hlast.
      assert (Hmid : lastRotation (fst s)
                     <= lastRotation (fst (do_call env c s))
                     /\ lastRotation (fst (do_call env c s))
                        <= w_now (snd (do_call env c s))).
      { destruct Ht1 as [Ht1|Ht1]; [rewrite Ht1|]; lia. }
      destruct (Ht2 (proj2 Hmid)) as [H1 H2]. lia.
Qed.

(** X1: along any sequence of calls and goroutine steps the lock of the
    manager is taken and released in turn, the guarded fields are read
    only under the lock and written only under the write lock, and no
    hook is called while the lock is held. *)
Theorem lock_is_respected (c : OutputConfig) (w0 : World)
  (cs : list Call) (om0 : OutputManager) (w1 : World) :
  check_locks Unlocked (w_trace w0) = Some Unlocked ->
  NewOutputManager env c w0 = ((Some om0, None), w1) ->
  check_locks Unlocked (w_trace (snd (run_calls env cs (om0, w1))))
  = Some Unlocked.
Proof.
  intros H0 Hnew.
  destruct (run_calls_summarised cs (om0, w1)) as [seg [Htr [Hl _]]].
  rewrite Htr. cbn [snd].
  pose proof (NewOutputManager_trace c w0) as Hw1. rewrite Hnew in Hw1.
  cbn [snd] in Hw1. rewrite Hw1, !check_locks_app, H0.
  destruct (isNil (validateConfig (OutputManager_literal c))
            && nonempty (FilePath c)); cbn; exact Hl.
Qed.

(** X2: the hook registry after a sequence of calls is decided by the
    registrations and removals in it alone: each registration adds its
    hook at the end, a removal empties the registry, and no other call,
    reconfiguration and rotation included, touches it. *)
Theorem registry_follows_registrations (cs : list Call) (s : St) :
  rotationHooks (fst (run_calls env cs s))
  = fold_left registry_step cs (rotationHooks (fst s)).
Proof.
  destruct (run_calls_summarised cs s) as [seg [_ [_ [H _]]]]. exact H.
Qed.

(** X3: while the counter cannot overflow, the rotation count grows by
    exactly the number of rotations of the primitive that succeeded,
    however the calls are mixed; each call rotates at most once. *)
Theorem rotationCount_counts_successes (cs : list Call) (s : St) :
  int64_min <= rotationCount (fst s) ->
  rotationCount (fst s) + Z.of_nat (List.length cs) <= int64_max ->
  let s' := run_calls env cs s in
  Z.of_nat (successes (w_trace (snd s')))
  = Z.of_nat (successes (w_trace (snd s)))
    + (rotationCount (fst s') - rotationCount (fst s))
  /\ rotationCount (fst s) <= rotationCount (fst s')
     <= rotationCount (fst s) + Z.of_nat (List.length cs).
Proof.
  intros Hmin Hmax. cbv zeta.
  destruct (run_calls_summarised cs s)
    as [seg [Htr [_ [_ [Hs [Hc _]]]]]].
  rewrite Htr, successes_app, (Hc Hmin Hmax). lia.
Qed.

(** X4: the clock never runs backwards, and the last rotation time never
    moves backwards and never lies ahead of the clock. *)
Theorem lastRotation_is_monotone (cs : list Call) (s : St) :
  lastRotation (fst s) <= w_now (snd s) ->
  let s' := run_calls env cs s in
  lastRotation (fst s) <= lastRotation (fst s')
  /\ lastRotation (fst s') <= w_now (snd s')
  /\ w_now (snd s) <= w_now (snd s').
Proof.
  intros H. cbv zeta.
  destruct (run_calls_summarised cs s) as [seg [_ [_ [_ [_ [_ [Hn Ht]]]]]]].
  destruct (Ht H) as [H1 H2]. auto.
Qed.

End Sequences.

(* ------------------------------------------------------------------ *)
(** ** Construction, reconfiguration and the writers handed out *)

Section Lifecycle.

Variable env : Env.

(** X5: [NewOutputManager] hands out a manager exactly when the
    configuration is valid and, for a file path, its directory could be
    made; it makes that one directory and no other, only after
    validation has passed, and a logger is allocated only on success. *)
Theorem NewOutputManager_succeeds_iff (c : OutputConfig) (w : World) :
  let out := NewOutputManager env c w in
  let dir := filepath.Dir (FilePath c) in
  ((exists om, fst out = (Some om, None))
   <-> validateConfig (OutputManager_literal c) = None
       /\ (FilePath c = "" \/ env_MkdirAll env (w_tick w) dir = None))
  /\ mkdirs (w_trace (snd out))
     = (mkdirs (w_trace w)
        ++ (if isNil (validateConfig (OutputManager_literal c))
               && nonempty (FilePath c)
            then [dir] else []))%list
  /\ (forall merr,
        validateConfig (OutputManager_literal c) = None ->
        FilePath c <> "" ->
        env_MkdirAll env (w_tick w) dir = Some merr ->
        fst out
        = (None,
           Some (wrapError
                   ("failed to setup file output: "
                      ++ "failed to create log directory " ++ dir ++ ": "
                      ++ error_Error merr)
                   (wrapError
                      ("failed to create log directory " ++ dir ++ ": "
                         ++ error_Error merr) merr)))
        /\ w_next_ptr (snd out) = w_next_ptr w).
Proof.
  cbv zeta. split; [|split].
  - unfold NewOutputManager.
    destruct (validateConfig (OutputManager_literal c)) as [verr|] eqn:Hv.
    + cbn. split; [intros [om H]; discriminate|intros [H _]; discriminate].
    + destruct (nonempty (FilePath c)) eqn:Hne.
      * exec.
        destruct (env_MkdirAll env (w_tick w) (filepath.Dir (FilePath c)))
          as [merr|]; cbn.
        -- split; [intros [om H]; discriminate|].
           intros [_ [H|H]]; [|discriminate].
           apply nonempty_prop in Hne. contradiction.
        -- split; [auto|]. intros _. eexists. reflexivity.
      * cbn. split; [|intros _; eexists; reflexivity].
        intros _. split; [reflexivity|]. left.
        unfold nonempty in Hne. apply negb_false_iff in Hne.
        apply String.eqb_eq. exact Hne.
  - rewrite NewOutputManager_trace, mkdirs_app.
    destruct (isNil (validateConfig (OutputManager_literal c))
              && nonempty (FilePath c)); reflexivity.
  - intros merr Hv Hne Hm. unfold NewOutputManager. rewrite Hv.
    apply nonempty_prop in Hne. rewrite Hne. exec. rewrite Hm. cbn.
    split; reflexivity.
Qed.

(** X6: a configuration filled with the defaults fails validation for
    its path only: [NewOutputConfig path] is valid exactly when [path]
    is empty or passes the three path checks. *)
Theorem NewOutputConfig_valid_iff (path : string) :
  validateConfig (OutputManager_literal (NewOutputConfig path)) = None
  <-> path = ""
      \/ (filepath.Dir path <> "" /\ filepath.Dir path <> "."
          /\ HasSuffix path "/" = false /\ HasSuffix path "\" = false
          /\ filepath.Base path <> "" /\ filepath.Base path <> "."
          /\ filepath.Base path <> "..").
Proof.
  pose proof (validateConfig_cases
                (OutputManager_literal (NewOutputConfig path))) as H.
  cbn [config OutputManager_literal NewOutputConfig FilePath MaxSize MaxAge
       MaxBackups] in H.
  unfold DefaultMaxSize, DefaultMaxAge, DefaultMaxBackups in H.
  destruct (validateConfig (OutputManager_literal (NewOutputConfig path)))
    as [err|].
  - split; [discriminate|]. intros Hok. exfalso.
    assert (Hfail : Some err <> None) by discriminate.
    apply H in Hfail.
    destruct Hok as [Hok|[D1 [D2 [S1 [S2 [B1 [B2 B3]]]]]]].
    + subst path.
      destruct Hfail as [[F _]|[[F _]|[[F _]|F]]]; try congruence; lia.
    + destruct Hfail as [[_ [F|F]]|[[_ [F|F]]|[[_ [F|[F|F]]]|F]]];
        try congruence; lia.
  - split; [|reflexivity]. intros _.
    destruct (String.eqb path "") eqn:E; [left; apply String.eqb_eq; exact E|].
    apply String.eqb_neq in E. right.
    assert (Hok : forall F : Prop,
              (F -> (path <> ""
                     /\ (filepath.Dir path = "" \/ filepath.Dir path = "."))
                    \/ (path <> ""
                        /\ (HasSuffix path "/" = true
                            \/ HasSuffix path "\" = true))
                    \/ (path <> ""
                        /\ (filepath.Base path = ""
                            \/ filepath.Base path = "."
                            \/ filepath.Base path = ".."))
                    \/ 100 <= 0 \/ 7 < 0 \/ 5 < 0) -> ~ F).
    { intros F HF HFt. apply (proj2 H); [exact (HF HFt)|reflexivity]. }
    split; [apply Hok; intros F; left; auto|].
    split; [apply Hok; intros F; left; auto|].
    split.
    { destruct (HasSuffix path "/") eqn:S; [|reflexivity].
      exfalso. apply (Hok True); [|exact I]. intros _. right. left. auto. }
    split.
    { destruct (HasSuffix path "\") eqn:S; [|reflexivity].
      exfalso. apply (Hok True); [|exact I]. intros _. right. left. auto. }
    split; [apply Hok; intros F; right; right; left; auto|].
    split; apply Hok; intros F; right; right; left; auto.
Qed.

End Lifecycle.

Section Reconfigured.

Variable env : Env.

(** X7: for a manager a client can hold, [GetWriter] is the logger built
    from the stored configuration when the manager is in file mode and
    standard output otherwise; [GetMultiWriter] adds standard output in
    front of the logger and falls back to standard output alone; both
    leave the manager and the world untouched. *)
Theorem writers_follow_file_mode (s : St) :
  reachable env s ->
  (isFileMode (fst s) = true ->
   exists p,
     fst (GetWriter s)
     = FileWriter (LumberjackLogger (logger_of_config p (config (fst s))))
     /\ fst (GetMultiWriter s)
        = io_MultiWriter
            [os_Stdout;
             FileWriter (LumberjackLogger
                           (logger_of_config p (config (fst s))))]
     /\ destinations (fst (GetMultiWriter s))
        = os_Stdout :: destinations (fst (GetWriter s)))
  /\ (isFileMode (fst s) = false ->
      fst (GetWriter s) = os_Stdout /\ fst (GetMultiWriter s) = os_Stdout)
  /\ snd (GetWriter s) = s /\ snd (GetMultiWriter s) = s.
Proof.
  intros Hr. pose proof (reachable_bound env s Hr) as Hb.
  destruct s as [om w]. cbn [fst] in *.
  unfold GetWriter, GetMultiWriter, bind, get_om, ret. cbn [fst snd].
  destruct Hb as [_ [[H1 H2]|[H1 [_ [p H3]]]]].
  - rewrite H1, H2. cbn. repeat split; auto. intros; discriminate.
  - rewrite H1, H3. cbn.
    split; [intros _; exists p; auto|]. split; [discriminate|auto].
Qed.

(** X8: for a manager a client can hold, [UpdateConfig] returns no error
    exactly when the new configuration is valid, the old writer (if any)
    could be closed and the directory of the new path (if any) could be
    made; afterwards the getters answer from the new configuration, the
    writer is a fresh logger for it (or standard output), and the hook
    registry and the rotation statistics are those from before. *)
Theorem UpdateConfig_success (newConfig : OutputConfig) (s : St) :
  reachable env s ->
  let out := UpdateConfig env newConfig s in
  let s' := snd out in
  (fst out = None
   <-> validateConfig (OutputManager_literal newConfig) = None
       /\ (forall fw, fileWriter (fst s) = Some fw ->
                      env_Close env (w_tick (snd s)) fw = None)
       /\ (FilePath newConfig = ""
           \/ env_MkdirAll env (rebind_tick (fst s) (snd s))
                (filepath.Dir (FilePath newConfig)) = None))
  /\ (fst out = None ->
      fst (GetConfig s') = newConfig
      /\ fst (GetFilePath s') = FilePath newConfig
      /\ fst (IsFileMode s') = nonempty (FilePath newConfig)
      /\ fst (GetWriter s')
         = (if nonempty (FilePath newConfig)
            then FileWriter
                   (LumberjackLogger
                      (logger_of_config (w_next_ptr (snd s)) newConfig))
            else os_Stdout)
      /\ rotationHooks (fst s') = rotationHooks (fst s)
      /\ fst (GetRotationStats s') = fst (GetRotationStats s)).
Proof.
  intros Hr. pose proof (reachable_bound env s Hr) as Hb.
  destruct s as [om w]. cbn [fst snd] in *. cbv zeta.
  assert (Hmode : fileWriter om = None -> isFileMode om = false).
  { destruct Hb as [_ [[H1 _]|[_ [_ [p H3]]]]]; [auto|congruence]. }
  assert (Hempty : forall p : string, nonempty p = false -> p = "").
  { intros p Hp. unfold nonempty in Hp. apply negb_false_iff in Hp.
    apply String.eqb_eq. exact Hp. }
  destruct (validateConfig (OutputManager_literal newConfig)) as [verr|]
    eqn:Hv.
  { rewrite (UpdateConfig_invalid env newConfig (om, w) verr Hv).
    cbn [fst]. split; [|discriminate].
    split; [discriminate|intros [H _]; discriminate]. }
  pose proof (UpdateConfig_manager env newConfig om w Hv) as H.
  cbv zeta in H.
  destruct (UpdateConfig env newConfig (om, w)) as [r [om' w']] eqn:E.
  cbn [fst snd] in *.
  unfold GetConfig, GetFilePath, IsFileMode, GetWriter, bind, get_om, ret.
  cbn [fst snd].
  rewrite (proj1 (GetRotationStats_reads om' w')),
    (proj1 (GetRotationStats_reads om w)).
  assert (Hclosed : forall fw,
            fileWriter om = Some fw ->
            env_Close env (w_tick w) fw = None ->
            forall fw', Some fw = Some fw' ->
                        env_Close env (w_tick w) fw' = None).
  { intros fw _ Hc fw' Efw. inversion Efw; subst. exact Hc. }
  destruct (fileWriter om) as [fw|] eqn:Hfw.
  - destruct (env_Close env (w_tick w) fw) as [cerr|] eqn:Hc.
    { destruct H as [H1 H2]. subst r.
      split; [|discriminate]. split; [discriminate|].
      intros [_ [F _]]. specialize (F fw eq_refl). congruence. }
    destruct (nonempty (FilePath newConfig)) eqn:Hne.
    + destruct (env_MkdirAll env (rebind_tick om w)
                  (filepath.Dir (FilePath newConfig))) as [merr|] eqn:Hm.
      { destruct H as [H1 _]. subst r.
        split; [|discriminate]. split; [discriminate|].
        intros [_ [_ [F|F]]]; [|discriminate].
        apply nonempty_prop in Hne. contradiction. }
      destruct H as [H1 H2]. subst r om'.
      unfold writer_dropped. rewrite Hfw. cbn.
      split; [|intros _; auto 10]. split; [intros _|reflexivity].
      split; [reflexivity|]. split; [|auto]. eauto.
    + destruct H as [H1 H2]. subst r om'. unfold writer_dropped.
      rewrite Hfw. cbn.
      split; [|intros _; auto 10]. split; [intros _|reflexivity].
      split; [reflexivity|]. split; [eauto|]. left. auto.
  - destruct (nonempty (FilePath newConfig)) eqn:Hne.
    + destruct (env_MkdirAll env (rebind_tick om w)
                  (filepath.Dir (FilePath newConfig))) as [merr|] eqn:Hm.
      { destruct H as [H1 _]. subst r.
        split; [|discriminate]. split; [discriminate|].
        intros [_ [_ [F|F]]]; [|discriminate].
        apply nonempty_prop in Hne. contradiction. }
      destruct H as [H1 H2]. subst r om'.
      unfold writer_dropped. rewrite Hfw. cbn.
      split; [|intros _; auto 10]. split; [intros _|reflexivity].
      split; [reflexivity|]. split; [|auto]. intros fw' Efw. discriminate.
    + destruct H as [H1 H2]. subst r om'. unfold writer_dropped.
      rewrite Hfw. cbn. rewrite Hfw, (Hmode eq_refl).
      split; [|intros _; auto 10]. split; [intros _|reflexivity].
      split; [reflexivity|]. split; [intros fw' Efw; discriminate|].
      left. auto.
Qed.

(** X9: what [UpdateConfig] does outside the process: nothing for an
    invalid configuration; otherwise it closes the old writer, if there
    is one, and makes the directory of the new path, if there is one,
    only after closing has succeeded.  It never examines a file and
    never rotates. *)
Theorem UpdateConfig_closes_before_rebinding (newConfig : OutputConfig)
  (om : OutputManager) (w : World) :
  let dir := filepath.Dir (FilePath newConfig) in
  w_trace (snd (snd (UpdateConfig env newConfig (om, w))))
  = (w_trace w
     ++ (if isNil (validateConfig (OutputManager_literal newConfig)) then
           match fileWriter om with
           | Some fw =>
               EvClose fw (env_Close env (w_tick w) fw)
               :: (if isNil (env_Close env (w_tick w) fw)
                      && nonempty (FilePath newConfig)
                   then [EvMkdirAll dir
                           (env_MkdirAll env (S (w_tick w)) dir)]
                   else [])
           | None =>
               if nonempty (FilePath newConfig)
               then [EvMkdirAll dir (env_MkdirAll env (w_tick w) dir)]
               else []
           end
         else []))%list.
Proof.
  cbv zeta.
  destruct (validateConfig (OutputManager_literal newConfig)) as [verr|]
    eqn:Hv.
  - rewrite (UpdateConfig_invalid env newConfig (om, w) verr Hv).
    cbn. symmetry. apply app_nil_r.
  - unfold UpdateConfig. rewrite Hv.
    destruct om as [c fw fm hs lr rc]. exec.
    destruct fw as [fw|]; cbn.
    + destruct (env_Close env (w_tick w) fw) as [cerr|]; cbn;
        [reflexivity|].
      destruct (nonempty (FilePath newConfig)); cbn; [|reflexivity].
      destruct (env_MkdirAll env (S (w_tick w))
                  (filepath.Dir (FilePath newConfig))) as [merr|]; cbn;
        rewrite <- app_assoc; reflexivity.
    + destruct (nonempty (FilePath newConfig)); cbn;
        [|symmetry; apply app_nil_r].
      destruct (env_MkdirAll env (w_tick w)
                  (filepath.Dir (FilePath newConfig))) as [merr|]; cbn;
        reflexivity.
Qed.

(** X10: [Close] passes on the answer of the writer's own [Close] (no
    error without a writer) and changes no field of the manager: the
    writer stays bound, so the manager is still in file mode and a later
    rotation still calls the primitive on that very logger. *)
Theorem Close_keeps_the_writer (om : OutputManager) (w : World) :
  let out := Close env (om, w) in
  fst (snd out) = om
  /\ (fileWriter om = None -> out = (None, (om, w)))
  /\ (forall fw,
        fileWriter om = Some fw ->
        fst out = env_Close env (w_tick w) fw
        /\ w_trace (snd (snd out))
           = (w_trace w ++ [EvClose fw (env_Close env (w_tick w) fw)])%list)
  /\ (forall lj,
        fileWriter om = Some (LumberjackLogger lj) ->
        rotations (w_trace (snd (snd (RotateWithRecovery env (snd out)))))
        = (rotations (w_trace w)
           ++ [(lj, env_Rotate env (S (S (w_tick w))) lj)])%list).
Proof.
  cbv zeta. split; [apply Close_manager|]. split; [|split].
  - intros Hfw. unfold Close, bind, get_om, ret. cbn. rewrite Hfw.
    reflexivity.
  - intros fw Hfw. destruct om as [c fw0 fm hs lr rc]. cbn in Hfw.
    subst fw0. exec. split; reflexivity.
  - intros lj Hfw.
    destruct (Close env (om, w)) as [r [om1 w1]] eqn:E.
    assert (Hom : om1 = om).
    { pose proof (Close_manager env om w) as H. rewrite E in H. exact H. }
    subst om1. cbn [snd].
    rewrite (RotateWithRecovery_rotates_once env om w1 lj Hfw).
    destruct om as [c fw0 fm hs lr rc]. cbn in Hfw. subst fw0.
    revert E. exec. intros E. inversion E; subst. cbn [w_trace w_tick].
    rewrite rotations_app. cbn. rewrite app_nil_r. reflexivity.
Qed.

(** X11: a rotation, whatever its outcome, keeps the configuration, the
    file-mode flag and the hook registry, and never leaves the manager
    without a writer: the logger is the one from before, or, after a
    recovery, a fresh one for the same configuration. *)
Theorem RotateWithRecovery_keeps_binding (om : OutputManager) (w : World) :
  let om' := fst (snd (RotateWithRecovery env (om, w))) in
  config om' = config om
  /\ isFileMode om' = isFileMode om
  /\ rotationHooks om' = rotationHooks om
  /\ (fileWriter om' = None <-> fileWriter om = None)
  /\ (forall lj,
        fileWriter om = Some (LumberjackLogger lj) ->
        fileWriter om' = Some (LumberjackLogger lj)
        \/ (env_Rotate env (S (w_tick w)) lj <> None
            /\ fileWriter om'
               = Some (LumberjackLogger
                         (logger_of_config (w_next_ptr w) (config om))))).
Proof.
  cbv zeta.
  destruct (fileWriter om) as [[lj|p]|] eqn:Hfw.
  - destruct (env_Rotate env (S (w_tick w)) lj) as [e|] eqn:Hr.
    + destruct (env_MkdirAll env (S (S (S (w_tick w))))
                  (filepath.Dir (FilePath (config om)))) as [me|] eqn:Hm.
      * rewrite (RotateWithRecovery_unrecovered env om w lj e me Hfw Hr Hm).
        cbn [fst snd]. rewrite Hfw.
        repeat split; try discriminate. intros lj' E. left. exact E.
      * rewrite (RotateWithRecovery_recovered env om w lj e Hfw Hr Hm).
        cbn. repeat split; try discriminate.
        intros lj' E. inversion E; subst lj'. right.
        split; [congruence|reflexivity].
    + rewrite (RotateWithRecovery_success env om w lj Hfw Hr).
      cbn. rewrite Hfw. repeat split; try discriminate.
      intros lj' E. left. exact E.
  - destruct (RotateWithRecovery_other_writer env om w p Hfw) as [_ E].
    rewrite E. rewrite Hfw. repeat split; discriminate.
  - rewrite (RotateWithRecovery_no_writer env om w Hfw). cbn [fst snd].
    rewrite Hfw. repeat split; auto; discriminate.
Qed.

(** X12: the event of a rotation attempt names the configured path as old
    and as new file, carries the size [os.Stat] reported just before, or
    zero when the file could not be examined, and a timestamp taken
    during the call; the primitive is called once, after that
    examination. *)
Theorem rotation_event_content (om : OutputManager) (w : World)
  (lj : Logger) :
  fileWriter om = Some (LumberjackLogger lj) ->
  let s' := snd (RotateWithRecovery env (om, w)) in
  exists event,
    w_tasks (snd s') = (w_tasks w ++ [GoTriggerRotationHooks event])%list
    /\ OldFile event = FilePath (config om)
    /\ NewFile event = FilePath (config om)
    /\ FileSize event
       = match env_Stat env (w_tick w) (FilePath (config om)) with
         | inl size => size
         | inr _ => 0
         end
    /\ w_now w <= Timestamp event <= w_now (snd s')
    /\ stats (w_trace (snd s'))
       = (stats (w_trace w) ++ [FilePath (config om)])%list
    /\ exists before after,
         w_trace (snd s')
         = (w_trace w ++ before
            ++ [EvStat (FilePath (config om))
                  (env_Stat env (w_tick w) (FilePath (config om)));
                EvRotate lj (env_Rotate env (S (w_tick w)) lj)]
            ++ after)%list
         /\ rotations before = [] /\ rotations after = [].
Proof.
  intros Hfw. cbv zeta. exists (rotation_event env om w lj).
  pose proof (elapsed_nonneg env (w_tick w)).
  pose proof (elapsed_nonneg env (S (w_tick w))).
  pose proof (elapsed_nonneg env (S (S (w_tick w)))).
  pose proof (elapsed_nonneg env (S (S (S (w_tick w))))).
  assert (Hstats : forall a b : list Event,
            stats (a ++ b) = (stats a ++ stats b)%list).
  { intros a b. induction a as [|e a IH]; cbn; [reflexivity|].
    destruct e; cbn; rewrite IH; reflexivity. }
  destruct (env_Rotate env (S (w_tick w)) lj) as [e|] eqn:Hr.
  - destruct (env_MkdirAll env (S (S (S (w_tick w))))
                (filepath.Dir (FilePath (config om)))) as [me|] eqn:Hm.
    + rewrite (RotateWithRecovery_unrecovered env om w lj e me Hfw Hr Hm).
      cbn [fst snd w_tasks w_trace w_now rotation_event OldFile NewFile
           FileSize Timestamp].
      rewrite Hstats.
      repeat split; try reflexivity; try lia.
      exists [EvLock]. eexists. split; [reflexivity|]. split; reflexivity.
    + rewrite (RotateWithRecovery_recovered env om w lj e Hfw Hr Hm).
      cbn [fst snd w_tasks w_trace w_now rotation_event OldFile NewFile
           FileSize Timestamp].
      rewrite Hstats.
      repeat split; try reflexivity; try lia.
      exists [EvLock]. eexists. split; [reflexivity|]. split; reflexivity.
  - rewrite (RotateWithRecovery_success env om w lj Hfw Hr).
    cbn [fst snd w_tasks w_trace w_now rotation_event OldFile NewFile
         FileSize Timestamp].
    rewrite Hstats.
    repeat split; try reflexivity; try lia.
    exists [EvLock]. eexists. split; [reflexivity|]. split; reflexivity.
Qed.

Lemma RotateWithRecovery_error_iff (om : OutputManager) (w : World)
  (lj : Logger) :
  fileWriter om = Some (LumberjackLogger lj) ->
  fst (RotateWithRecovery env (om, w)) = None
  <-> env_Rotate env (S (w_tick w)) lj = None.
Proof.
  intros Hfw.
  destruct (env_Rotate env (S (w_tick w)) lj) as [e|] eqn:Hr.
  - destruct (env_MkdirAll env (S (S (S (w_tick w))))
                (filepath.Dir (FilePath (config om)))) as [me|] eqn:Hm.
    + rewrite (RotateWithRecovery_unrecovered env om w lj e me Hfw Hr Hm).
      cbn [fst]. split; discriminate.
    + rewrite (RotateWithRecovery_recovered env om w lj e Hfw Hr Hm).
      cbn [fst]. split; discriminate.
  - rewrite (RotateWithRecovery_success env om w lj Hfw Hr).
    cbn [fst]. split; reflexivity.
Qed.

(** X13: for a maximum size below 2^43 megabytes, where the byte threshold
    is exact, [ForceRotationIfNeeded] on a manager in file mode leaves a
    file smaller than [MaxSize * 1048576] bytes alone and calls the
    rotation primitive exactly once for a file of that size or more,
    returning what [RotateWithRecovery] returns. *)
Theorem ForceRotationIfNeeded_exact_threshold (om : OutputManager)
  (w : World) (lj : Logger) (size : Z) :
  0 < MaxSize (config om) < 2 ^ 43 ->
  isFileMode om = true ->
  fileWriter om = Some (LumberjackLogger lj) ->
  env_Stat env (w_tick w) (FilePath (config om)) = inl size ->
  let out := ForceRotationIfNeeded env (om, w) in
  (size < MaxSize (config om) * 1048576 ->
   fst out = None /\ fst (snd out) = om
   /\ rotations (w_trace (snd (snd out))) = rotations (w_trace w))
  /\ (MaxSize (config om) * 1048576 <= size ->
      out = RotateWithRecovery env
              (om, after_stat env (FilePath (config om)) w)
      /\ rotations (w_trace (snd (snd out)))
         = (rotations (w_trace w)
            ++ [(lj, env_Rotate env (S (S (w_tick w))) lj)])%list
      /\ (fst out = None
          <-> env_Rotate env (S (S (w_tick w))) lj = None)).
Proof.
  intros Hsize Hfm Hfw Hst. cbv zeta.
  destruct (ForceRotationIfNeeded_threshold env om w) as [_ [H Hexact]].
  cbv zeta in H. specialize (H lj Hfm Hfw). rewrite Hst in H.
  rewrite <- Hexact by lia. destruct H as [Hlt Hge].
  split; [exact Hlt|]. intros Hle. destruct (Hge Hle) as [E Hrot].
  split; [exact E|]. split; [exact Hrot|]. rewrite E.
  exact (RotateWithRecovery_error_iff om
           (after_stat env (FilePath (config om)) w) lj Hfw).
Qed.

End Reconfigured.

(* ------------------------------------------------------------------ *)
(** ** The size of the current file *)

Section FileSize.

Variable env : Env.

Lemma stats_app (a b : list Event) :
  stats (a ++ b) = (stats a ++ stats b)%list.
Proof.
  induction a as [|e a IH]; cbn; [reflexivity|].
  destruct e; cbn; rewrite IH; reflexivity.
Qed.

(** X14: [GetCurrentFileSize] fails exactly when the manager is not in
    file mode or the file cannot be examined, and then reports size
    zero; it examines the configured path once in file mode and nothing
    otherwise, and leaves the manager alone.  When a writer is bound,
    [ForceRotationIfNeeded] rotates from the same state exactly when
    [GetCurrentFileSize] reports, without error, a size of at least the
    byte threshold. *)
Theorem GetCurrentFileSize_reports (om : OutputManager) (w : World) :
  let out := GetCurrentFileSize env (om, w) in
  let size := fst (fst out) in
  let err := snd (fst out) in
  (err = None
   <-> isFileMode om = true
       /\ env_Stat env (w_tick w) (FilePath (config om)) = inl size)
  /\ (err <> None -> size = 0)
  /\ fst (snd out) = om
  /\ stats (w_trace (snd (snd out)))
     = (stats (w_trace w)
        ++ (if isFileMode om then [FilePath (config om)] else []))%list
  /\ (forall lj,
        isFileMode om = true ->
        fileWriter om = Some (LumberjackLogger lj) ->
        (rotations (w_trace (snd (snd (ForceRotationIfNeeded env (om, w)))))
         <> rotations (w_trace w)
         <-> err = None /\ maxSizeBytes (config om) <= size)).
Proof.
  cbv zeta.
  split; [|split; [|split; [apply GetCurrentFileSize_manager|split]]].
  - exec. destruct (isFileMode om); cbn.
    + destruct (env_Stat env (w_tick w) (FilePath (config om)))
        as [size|e]; cbn.
      * split; auto.
      * split; [discriminate|]. intros [_ H]. discriminate.
    + split; [discriminate|]. intros [H _]. discriminate.
  - exec. destruct (isFileMode om); cbn; [|reflexivity].
    destruct (env_Stat env (w_tick w) (FilePath (config om))) as [size|e];
      cbn; [|reflexivity].
    intros H. congruence.
  - exec. destruct (isFileMode om); cbn; [|symmetry; apply app_nil_r].
    destruct (env_Stat env (w_tick w) (FilePath (config om))) as [size|e];
      cbn; rewrite stats_app; reflexivity.
  - intros lj Hfm Hfw.
    destruct (ForceRotationIfNeeded_threshold env om w) as [_ [H _]].
    cbv zeta in H. specialize (H lj Hfm Hfw).
    assert (Hneq : forall (l : list (Logger * option error)) x,
               (l ++ [x])%list <> l).
    { intros l x E. apply (f_equal (@List.length _)) in E.
      rewrite length_app in E. cbn in E. lia. }
    assert (Hg : fst (GetCurrentFileSize env (om, w))
                 = match env_Stat env (w_tick w) (FilePath (config om)) with
                   | inl size => (size, None)
                   | inr e =>
                       (0, Some (Errorf_w "failed to get file stats: " e))
                   end).
    { exec. rewrite Hfm. cbn.
      destruct (env_Stat env (w_tick w) (FilePath (config om)));
        reflexivity. }
    rewrite Hg.
    destruct (env_Stat env (w_tick w) (FilePath (config om))) as [size|e];
      cbn [fst snd].
    + destruct H as [Hlt Hge].
      destruct (Z_lt_le_dec size (maxSizeBytes (config om))) as [Hc|Hc].
      * destruct (Hlt Hc) as [_ [_ Hrot]]. rewrite Hrot.
        split; [congruence|]. intros [_ F]. lia.
      * destruct (Hge Hc) as [_ Hrot]. rewrite Hrot.
        split; [auto|]. intros _. apply Hneq.
    + destruct H as [_ [_ Hrot]]. rewrite Hrot.
      split; [congruence|]. intros [F _]. discriminate.
Qed.

End FileSize.

(* ------------------------------------------------------------------ *)
(** ** The logger package on top of the manager *)

Section Adapter.

Context {ObservabilityConfig : Type}.
Context {Adapter : Type}.
Variable NewZerologAdapter : adapters.ZerologConfig -> Adapter.
Variable env : Env.

Lemma land_OutputFile (x : Z) :
  (Z.land x logger.OutputFile =? 0) = negb (Z.testbit x 1).
Proof.
  change logger.OutputFile with (2 ^ 1).
  destruct (Z.testbit x 1) eqn:Hb; cbn [negb].
  - apply Z.eqb_neq. intros H.
    assert (Hbit : Z.testbit (Z.land x (2 ^ 1)) 1 = true).
    { rewrite Z.land_spec, Hb. reflexivity. }
    rewrite H in Hbit. discriminate.
  - apply Z.eqb_eq. apply Z.bits_inj'. intros n Hn.
    rewrite Z.land_spec, Z.bits_0.
    destruct (Z.eq_dec n 1) as [->|Hne].
    + rewrite Hb. reflexivity.
    + rewrite Z.pow2_bits_false by lia. apply andb_false_r.
Qed.

Lemma outputConfig_of_path (c : logger.Config ObservabilityConfig) :
  logger.outputConfig_of c = NewOutputConfig (manager_path c).
Proof.
  unfold logger.outputConfig_of, manager_path. rewrite land_OutputFile.
  rewrite negb_involutive. destruct (Z.testbit (logger.Output c) 1);
    reflexivity.
Qed.

Lemma console_config_valid :
  validateConfig (OutputManager_literal (NewOutputConfig "")) = None.
Proof. reflexivity. Qed.

(** X15: without the file bit in [Output], [createBaseAdapter] cannot
    fail and touches nothing outside the process: the adapter writes to
    standard output, whatever the other bits and the configured path
    are. *)
Theorem createBaseAdapter_console (c : logger.Config ObservabilityConfig)
  (w : World) :
  Z.testbit (logger.Output c) 1 = false ->
  logger.createBaseAdapter NewZerologAdapter env c w
  = (Some (Some (NewZerologAdapter (adapter_settings c os_Stdout)), None),
     w).
Proof.
  intros Hbit. unfold logger.createBaseAdapter.
  rewrite outputConfig_of_path. unfold manager_path. rewrite Hbit.
  unfold NewOutputManager. rewrite console_config_valid. cbn.
  unfold adapter_settings.
  destruct (logger.Output c =? 1); [reflexivity|].
  destruct (logger.Output c =? 2); [reflexivity|].
  destruct (logger.Output c =? 3); reflexivity.
Qed.

(** X16: [createBaseAdapter] never calls a method on a nil manager: it
    returns either an adapter and no error or no adapter and an error,
    and the error is the one of [NewOutputManager] for the default
    configuration of the chosen path, wrapped. *)
Theorem createBaseAdapter_returns (c : logger.Config ObservabilityConfig)
  (w : World) :
  let made := NewOutputManager env (NewOutputConfig (manager_path c)) w in
  snd (logger.createBaseAdapter NewZerologAdapter env c w) = snd made
  /\ ((exists adapter,
         fst (logger.createBaseAdapter NewZerologAdapter env c w)
         = Some (Some adapter, None)
         /\ exists om, fst made = (Some om, None))
      \/ (exists err,
            fst (logger.createBaseAdapter NewZerologAdapter env c w)
            = Some (None,
                    Some (Errorf_w "failed to create output manager: " err))
            /\ fst made = (None, Some err))).
Proof.
  cbv zeta. unfold logger.createBaseAdapter.
  rewrite outputConfig_of_path.
  destruct (NewOutputManager_result env (NewOutputConfig (manager_path c)) w)
    as [[err H]|[om [H _]]];
    destruct (NewOutputManager env (NewOutputConfig (manager_path c)) w)
      as [[om' err'] w1]; cbn [fst snd] in *; inversion H; subst.
  - split; [reflexivity|]. right. exists err. split; reflexivity.
  - destruct (logger.Output c =? logger.OutputStdout);
      [split; [reflexivity|]; left; eexists; split; [reflexivity|eauto]|].
    destruct (logger.Output c =? logger.OutputFile);
      [split; [reflexivity|]; left; eexists; split; [reflexivity|eauto]|].
    destruct (logger.Output c
              =? Z.lor logger.OutputStdout logger.OutputFile);
      split; try reflexivity; left; eexists; split;
      try reflexivity; eauto.
Qed.

(** X17: with the file bit set and a usable path, [createBaseAdapter]
    makes the directory, binds a logger with the default rotation
    settings, and gives the adapter that logger for [OutputFile], the
    logger behind standard output for both bits, and standard output
    alone for any other value of [Output] with the file bit. *)
Theorem createBaseAdapter_file (c : logger.Config ObservabilityConfig)
  (w : World) :
  let path := logger.LogFilePath c in
  let file :=
    FileWriter (LumberjackLogger
                  (logger_of_config (w_next_ptr w) (NewOutputConfig path))) in
  Z.testbit (logger.Output c) 1 = true ->
  path <> "" ->
  validateConfig (OutputManager_literal (NewOutputConfig path)) = None ->
  env_MkdirAll env (w_tick w) (filepath.Dir path) = None ->
  fst (logger.createBaseAdapter NewZerologAdapter env c w)
  = Some (Some (NewZerologAdapter
                  (adapter_settings c
                     (if logger.Output c =? 2 then file
                      else if logger.Output c =? 3
                           then io_MultiWriter [os_Stdout; file]
                           else os_Stdout))),
          None)
  /\ w_trace (snd (logger.createBaseAdapter NewZerologAdapter env c w))
     = (w_trace w ++ [EvMkdirAll (filepath.Dir path) None])%list
  /\ w_next_ptr (snd (logger.createBaseAdapter NewZerologAdapter env c w))
     = S (w_next_ptr w).
Proof.
  cbv zeta. intros Hbit Hpath Hv Hm. unfold logger.createBaseAdapter.
  rewrite outputConfig_of_path. unfold manager_path. rewrite Hbit.
  unfold NewOutputManager. rewrite Hv.
  apply nonempty_prop in Hpath.
  cbn [FilePath NewOutputConfig]. rewrite Hpath. exec. rewrite Hm. cbn.
  unfold GetWriter, GetMultiWriter, bind, get_om, ret. cbn.
  unfold adapter_settings, logger_of_config. cbn.
  change logger.OutputStdout with 1. change logger.OutputFile with 2.
  change (Z.lor 1 2) with 3.
  assert (H1 : (logger.Output c =? 1) = false).
  { apply Z.eqb_neq. intros E. rewrite E in Hbit. discriminate. }
  rewrite H1.
  destruct (logger.Output c =? 2); [auto|].
  destruct (logger.Output c =? 3); auto.
Qed.

(** X18: [Validate] accepts a configuration exactly when the two names
    are filled in, some output bit is set, a path is given whenever the
    file bit is set, and the level is one of the five known ones. *)
Theorem Validate_accepts_iff (c : logger.Config ObservabilityConfig) :
  logger.Validate c = None
  <-> logger.ServiceName c <> "" /\ logger.Environment c <> ""
      /\ logger.Output c <> 0
      /\ (Z.testbit (logger.Output c) 1 = true -> logger.LogFilePath c <> "")
      /\ 0 <= logger.LogLevel c <= 4.
Proof.
  unfold logger.Validate. rewrite land_OutputFile, negb_involutive.
  unfold DEBUG, INFO, WARN, ERROR, FATAL.
  destruct (String.eqb_spec (logger.ServiceName c) "") as [Hs|Hs].
  { split; [discriminate|]. intros [F _]. contradiction. }
  destruct (String.eqb_spec (logger.Environment c) "") as [He|He].
  { split; [discriminate|]. intros [_ [F _]]. contradiction. }
  destruct (Z.eqb_spec (logger.Output c) 0) as [Ho|Ho].
  { split; [discriminate|]. intros [_ [_ [F _]]]. contradiction. }
  destruct (Z.testbit (logger.Output c) 1) eqn:Hbit; cbn [andb].
  - destruct (String.eqb_spec (logger.LogFilePath c) "") as [Hp|Hp].
    { split; [discriminate|]. intros [_ [_ [_ [F _]]]].
      exfalso. apply F; auto. }
    destruct (Z.eqb_spec (logger.LogLevel c) 0),
      (Z.eqb_spec (logger.LogLevel c) 1),
      (Z.eqb_spec (logger.LogLevel c) 2),
      (Z.eqb_spec (logger.LogLevel c) 3),
      (Z.eqb_spec (logger.LogLevel c) 4); cbn [orb];
      (split; [intros H; try discriminate H; repeat split; auto; lia
              |intros [_ [_ [_ [_ H]]]]; try reflexivity; lia]).
  - destruct (Z.eqb_spec (logger.LogLevel c) 0),
      (Z.eqb_spec (logger.LogLevel c) 1),
      (Z.eqb_spec (logger.LogLevel c) 2),
      (Z.eqb_spec (logger.LogLevel c) 3),
      (Z.eqb_spec (logger.LogLevel c) 4); cbn [orb];
      (split; [intros H; try discriminate H; repeat split; auto;
               try discriminate; lia
              |intros [_ [_ [_ [_ H]]]]; try reflexivity; lia]).
Qed.

(** X19: [Validate] does not check what the manager checks: a
    configuration it accepts, with the file bit set and a path without
    a separator, makes [createBaseAdapter] fail on the validation of
    the manager, before anything outside the process is touched. *)
Theorem Validate_leaves_the_path_unchecked
  (c : logger.Config ObservabilityConfig) (w : World) :
  logger.Validate c = None ->
  Z.testbit (logger.Output c) 1 = true ->
  filepath.has_sep (logger.LogFilePath c) = false ->
  logger.createBaseAdapter NewZerologAdapter env c w
  = (Some (None,
           Some (Errorf_w "failed to create output manager: "
                   (Errorf_w "invalid output configuration: "
                      err_dir_empty))),
     w).
Proof.
  intros Hval Hbit Hsep.
  assert (Hpath : nonempty (logger.LogFilePath c) = true).
  { revert Hval. unfold logger.Validate.
    rewrite land_OutputFile, negb_involutive, Hbit. cbn [andb].
    unfold nonempty.
    destruct (String.eqb (logger.ServiceName c) ""); [discriminate|].
    destruct (String.eqb (logger.Environment c) ""); [discriminate|].
    destruct (logger.Output c =? 0); [discriminate|].
    destruct (String.eqb (logger.LogFilePath c) ""); [discriminate|].
    reflexivity. }
  unfold logger.createBaseAdapter.
  rewrite outputConfig_of_path. unfold manager_path. rewrite Hbit.
  unfold NewOutputManager.
  rewrite (validateConfig_bare_filename
             (OutputManager_literal (NewOutputConfig (logger.LogFilePath c)))
             Hpath Hsep).
  reflexivity.
Qed.

End Adapter.

(* ------------------------------------------------------------------ *)
(** ** Hooks registered while a rotation is being announced *)

Section LateRegistration.

Variable env : Env.

Lemma registrations_keep_pool (regs : list Call) (s : St) :
  forallb is_registration regs = true ->
  w_tasks (snd (run_calls env regs s)) = w_tasks (snd s)
  /\ w_crashed (snd (run_calls env regs s)) = w_crashed (snd s)
  /\ hook_calls (w_trace (snd (run_calls env regs s)))
     = hook_calls (w_trace (snd s)).
Proof.
  revert s. induction regs as [|c regs IH]; intros s H; [auto|].
  cbn [forallb] in H. apply andb_true_iff in H. destruct H as [Hc Hregs].
  cbn [run_calls fold_left].
  fold (run_calls env regs (do_call env c s)).
  destruct (IH (do_call env c s) Hregs) as [H1 [H2 H3]].
  rewrite H1, H2, H3. destruct s as [om w].
  destruct c; try discriminate Hc; cbn [do_call].
  - rewrite AddRotationHook_run. cbn [fst snd w_tasks w_crashed w_trace].
    rewrite hook_calls_app. cbn. rewrite app_nil_r. auto.
  - rewrite RemoveAllRotationHooks_run.
    cbn [fst snd w_tasks w_crashed w_trace].
    rewrite hook_calls_app. cbn. rewrite app_nil_r. auto.
Qed.

Lemma registrations_registry (regs : list Call) (s : St) :
  rotationHooks (fst (run_calls env regs s))
  = fold_left registry_step regs (rotationHooks (fst s)).
Proof.
  destruct (run_calls_summarised env regs s) as [seg [_ [_ [H _]]]].
  exact H.
Qed.

(** X20: the hooks that hear of a rotation are those registered when the
    dispatcher goroutine runs, not those registered when the log was
    rotated: registrations and removals made in between decide, with the
    event of the rotation, which hook goroutines are started, and no
    hook has been called by then. *)
Theorem hooks_are_read_when_dispatched (om : OutputManager) (w : World)
  (lj : Logger) (regs : list Call) :
  fileWriter om = Some (LumberjackLogger lj) ->
  w_tasks w = [] -> w_crashed w = false ->
  forallb is_registration regs = true ->
  let s1 := snd (RotateWithRecovery env (om, w)) in
  let s2 := run_calls env regs s1 in
  exists s3,
    run_task 0 s2 = Some s3
    /\ w_tasks (snd s3)
       = map (fun h => GoHook h (rotation_event env om w lj))
           (fold_left registry_step regs (rotationHooks om))
    /\ calls_since w (snd s3) = []
    /\ w_crashed (snd s3) = false.
Proof.
  intros Hfw Htasks Hcr Hregs. cbv zeta.
  destruct (RotateWithRecovery_dispatches env om w lj Hfw)
    as [Ht1 [Hc1 [Hh1 Hcr1]]].
  destruct (registrations_keep_pool regs
              (snd (RotateWithRecovery env (om, w))) Hregs)
    as [Ht2 [Hcr2 Hc2]].
  pose proof (registrations_registry regs
                (snd (RotateWithRecovery env (om, w)))) as Hh2.
  rewrite Hh1 in Hh2. rewrite Ht1, Htasks in Ht2. rewrite Hcr1, Hcr in Hcr2.
  rewrite Hc1 in Hc2.
  destruct (run_calls env regs (snd (RotateWithRecovery env (om, w))))
    as [om2 w2].
  cbn [fst snd] in *.
  unfold run_task. cbn [fst snd]. rewrite Hcr2, Ht2. cbn [app take_task].
  unfold run_goroutine, bind. rewrite triggerRotationHooks_run.
  cbn [fst snd ret]. eexists. split; [reflexivity|].
  cbn [fst snd w_tasks w_trace w_crashed set_tasks app].
  rewrite Hh2. split; [reflexivity|]. split; [|exact Hcr2].
  unfold calls_since. cbn [w_trace].
  rewrite hook_calls_app, Hc2.
  assert (Hnone : forall (ev : RotationEvent) (hs : list RotationHook),
             hook_calls (map (fun h => EvGo (GoHook h ev)) hs) = []).
  { intros ev hs. induction hs as [|h hs IH]; [reflexivity|exact IH]. }
  cbn [hook_calls app]. rewrite Hnone.
  rewrite app_nil_r. apply skipn_all.
Qed.

End LateRegistration.

(* ------------------------------------------------------------------ *)
(** ** The properties at work *)

Section Instances.

Lemma lock_is_respected_witness :
  check_locks Unlocked (w_trace Scenario.world0) = Some Unlocked
  /\ NewOutputManager Scenario.env_ok Scenario.cfg_app Scenario.world0
     = ((Some (fst Scenario.fresh), None), snd Scenario.fresh)
  /\ check_locks Unlocked
       (w_trace (snd (run_calls Scenario.env_ok Scenario.session
                        (fst Scenario.fresh, snd Scenario.fresh))))
     = Some Unlocked.
Proof.
  assert (H0 : check_locks Unlocked (w_trace Scenario.world0)
               = Some Unlocked) by (vm_compute; reflexivity).
  assert (H1 : NewOutputManager Scenario.env_ok Scenario.cfg_app
                 Scenario.world0
               = ((Some (fst Scenario.fresh), None), snd Scenario.fresh))
    by (vm_compute; reflexivity).
  split; [exact H0|]. split; [exact H1|].
  exact (lock_is_respected Scenario.env_ok Scenario.cfg_app Scenario.world0
           Scenario.session (fst Scenario.fresh) (snd Scenario.fresh)
           H0 H1).
Defined.

Lemma rotationCount_counts_successes_witness :
  int64_min <= rotationCount (fst Scenario.fresh)
  /\ rotationCount (fst Scenario.fresh)
     + Z.of_nat (List.length Scenario.session) <= int64_max
  /\ Z.of_nat (successes
                 (w_trace (snd (run_calls Scenario.env_ok Scenario.session
                                  Scenario.fresh))))
     = Z.of_nat (successes (w_trace (snd Scenario.fresh)))
       + (rotationCount (fst (run_calls Scenario.env_ok Scenario.session
                                Scenario.fresh))
          - rotationCount (fst Scenario.fresh)).
Proof.
  assert (H0 : int64_min <= rotationCount (fst Scenario.fresh))
    by (vm_compute; congruence).
  assert (H1 : rotationCount (fst Scenario.fresh)
               + Z.of_nat (List.length Scenario.session) <= int64_max)
    by (vm_compute; congruence).
  split; [exact H0|]. split; [exact H1|].
  exact (proj1 (rotationCount_counts_successes Scenario.env_ok
                  Scenario.session Scenario.fresh H0 H1)).
Defined.

Lemma lastRotation_is_monotone_witness :
  lastRotation (fst Scenario.fresh) <= w_now (snd Scenario.fresh)
  /\ lastRotation (fst Scenario.fresh)
     <= lastRotation (fst (run_calls Scenario.env_ok Scenario.session
                             Scenario.fresh))
  /\ lastRotation (fst (run_calls Scenario.env_ok Scenario.session
                          Scenario.fresh))
     <= w_now (snd (run_calls Scenario.env_ok Scenario.session
                      Scenario.fresh))
  /\ w_now (snd Scenario.fresh)
     <= w_now (snd (run_calls Scenario.env_ok Scenario.session
                      Scenario.fresh)).
Proof.
  assert (H0 : lastRotation (fst Scenario.fresh)
               <= w_now (snd Scenario.fresh)) by (vm_compute; congruence).
  split; [exact H0|].
  exact (lastRotation_is_monotone Scenario.env_ok Scenario.session
           Scenario.fresh H0).
Defined.

Lemma writers_follow_file_mode_witness :
  reachable Scenario.env_ok Scenario.after_session
  /\ isFileMode (fst Scenario.after_session) = true
  /\ snd (GetMultiWriter Scenario.after_session) = Scenario.after_session.
Proof.
  assert (H : reachable Scenario.env_ok Scenario.after_session).
  { exists Scenario.cfg_app, Scenario.world0,
      (fst Scenario.fresh), (snd Scenario.fresh).
    exists Scenario.session.
    split; vm_compute; reflexivity. }
  split; [exact H|]. split; [vm_compute; reflexivity|].
  exact (proj2 (proj2 (proj2
    (writers_follow_file_mode Scenario.env_ok Scenario.after_session H)))).
Defined.

Lemma UpdateConfig_success_witness :
  reachable Scenario.env_ok Scenario.after_session
  /\ fst (UpdateConfig Scenario.env_ok Scenario.cfg_other_log
            Scenario.after_session) = None
  /\ fst (GetConfig
            (snd (UpdateConfig Scenario.env_ok Scenario.cfg_other_log
                    Scenario.after_session)))
     = Scenario.cfg_other_log.
Proof.
  assert (H : reachable Scenario.env_ok Scenario.after_session).
  { exists Scenario.cfg_app, Scenario.world0,
      (fst Scenario.fresh), (snd Scenario.fresh).
    exists Scenario.session.
    split; vm_compute; reflexivity. }
  assert (Hok : fst (UpdateConfig Scenario.env_ok Scenario.cfg_other_log
                       Scenario.after_session) = None)
    by (vm_compute; reflexivity).
  split; [exact H|]. split; [exact Hok|].
  exact (proj1 (proj2
    (UpdateConfig_success Scenario.env_ok Scenario.cfg_other_log
       Scenario.after_session H) Hok)).
Defined.

Lemma rotation_event_content_witness :
  fileWriter (fst Scenario.fresh)
  = Some (LumberjackLogger (logger_of_config 0 Scenario.cfg_app))
  /\ exists event,
       w_tasks (snd (snd (RotateWithRecovery Scenario.env_ok
                            (fst Scenario.fresh, snd Scenario.fresh))))
       = (w_tasks (snd Scenario.fresh)
          ++ [GoTriggerRotationHooks event])%list
       /\ OldFile event = FilePath (config (fst Scenario.fresh)).
Proof.
  assert (H : fileWriter (fst Scenario.fresh)
              = Some (LumberjackLogger
                        (logger_of_config 0 Scenario.cfg_app)))
    by (vm_compute; reflexivity).
  split; [exact H|].
  destruct (rotation_event_content Scenario.env_ok (fst Scenario.fresh)
              (snd Scenario.fresh) (logger_of_config 0 Scenario.cfg_app) H)
    as [event [H1 [H2 _]]].
  exists event. split; [exact H1|exact H2].
Defined.

Lemma ForceRotationIfNeeded_exact_threshold_witness :
  (0 < MaxSize (config (fst Scenario.fresh)) < 2 ^ 43
   /\ isFileMode (fst Scenario.fresh) = true
   /\ fileWriter (fst Scenario.fresh)
      = Some (LumberjackLogger (logger_of_config 0 Scenario.cfg_app))
   /\ env_Stat Scenario.env_ok (w_tick (snd Scenario.fresh))
        (FilePath (config (fst Scenario.fresh))) = inl 2097152)
  /\ MaxSize (config (fst Scenario.fresh)) * 1048576 <= 2097152
  /\ ForceRotationIfNeeded Scenario.env_ok
       (fst Scenario.fresh, snd Scenario.fresh)
     = RotateWithRecovery Scenario.env_ok
         (fst Scenario.fresh,
          after_stat Scenario.env_ok
            (FilePath (config (fst Scenario.fresh)))
            (snd Scenario.fresh)).
Proof.
  assert (H0 : 0 < MaxSize (config (fst Scenario.fresh)) < 2 ^ 43)
    by (vm_compute; split; reflexivity).
  assert (H1 : isFileMode (fst Scenario.fresh) = true)
    by (vm_compute; reflexivity).
  assert (H2 : fileWriter (fst Scenario.fresh)
               = Some (LumberjackLogger
                         (logger_of_config 0 Scenario.cfg_app)))
    by (vm_compute; reflexivity).
  assert (H3 : env_Stat Scenario.env_ok (w_tick (snd Scenario.fresh))
                 (FilePath (config (fst Scenario.fresh))) = inl 2097152)
    by (vm_compute; reflexivity).
  assert (Hle : MaxSize (config (fst Scenario.fresh)) * 1048576 <= 2097152)
    by (vm_compute; congruence).
  split; [auto|]. split; [exact Hle|].
  exact (proj1 (proj2
    (ForceRotationIfNeeded_exact_threshold Scenario.env_ok
       (fst Scenario.fresh) (snd Scenario.fresh)
       (logger_of_config 0 Scenario.cfg_app) 2097152 H0 H1 H2 H3) Hle)).
Defined.

Lemma hooks_are_read_when_dispatched_witness :
  (fileWriter (fst Scenario.fresh)
   = Some (LumberjackLogger (logger_of_config 0 Scenario.cfg_app))
   /\ w_tasks (snd Scenario.fresh) = []
   /\ w_crashed (snd Scenario.fresh) = false
   /\ forallb is_registration Scenario.late_registrations = true)
  /\ exists s3,
       run_task 0
         (run_calls Scenario.env_ok Scenario.late_registrations
            (snd (RotateWithRecovery Scenario.env_ok
                    (fst Scenario.fresh, snd Scenario.fresh))))
       = Some s3
       /\ w_tasks (snd s3)
          = map (fun h =>
                   GoHook h
                     (rotation_event Scenario.env_ok (fst Scenario.fresh)
                        (snd Scenario.fresh)
                        (logger_of_config 0 Scenario.cfg_app)))
              (fold_left registry_step Scenario.late_registrations
                 (rotationHooks (fst Scenario.fresh))).
Proof.
  assert (H0 : fileWriter (fst Scenario.fresh)
               = Some (LumberjackLogger
                         (logger_of_config 0 Scenario.cfg_app)))
    by (vm_compute; reflexivity).
  assert (H1 : w_tasks (snd Scenario.fresh) = [])
    by (vm_compute; reflexivity).
  assert (H2 : w_crashed (snd Scenario.fresh) = false)
    by (vm_compute; reflexivity).
  assert (H3 : forallb is_registration Scenario.late_registrations = true)
    by (vm_compute; reflexivity).
  split; [auto|].
  destruct (hooks_are_read_when_dispatched Scenario.env_ok
              (fst Scenario.fresh) (snd Scenario.fresh)
              (logger_of_config 0 Scenario.cfg_app)
              Scenario.late_registrations H0 H1 H2 H3)
    as [s3 [Hrun [Htasks _]]].
  exists s3. split; [exact Hrun|exact Htasks].
Defined.

Lemma createBaseAdapter_console_witness :
  Z.testbit (logger.Output (Scenario.svc_config 5 "app.log")) 1 = false
  /\ logger.createBaseAdapter (fun settings => settings) Scenario.env_ok
       (Scenario.svc_config 5 "app.log") Scenario.world0
     = (Some (Some (adapter_settings (Scenario.svc_config 5 "app.log")
                      os_Stdout),
              None),
        Scenario.world0).
Proof.
  assert (H : Z.testbit (logger.Output (Scenario.svc_config 5 "app.log")) 1
              = false) by (vm_compute; reflexivity).
  split; [exact H|].
  exact (createBaseAdapter_console (fun settings => settings)
           Scenario.env_ok (Scenario.svc_config 5 "app.log")
           Scenario.world0 H).
Defined.

Lemma createBaseAdapter_file_witness :
  (Z.testbit (logger.Output (Scenario.svc_config 3 "/var/log/app.log")) 1
   = true
   /\ logger.LogFilePath (Scenario.svc_config 3 "/var/log/app.log") <> ""
   /\ validateConfig
        (OutputManager_literal
           (NewOutputConfig
              (logger.LogFilePath
                 (Scenario.svc_config 3 "/var/log/app.log")))) = None
   /\ env_MkdirAll Scenario.env_ok (w_tick Scenario.world0)
        (filepath.Dir
           (logger.LogFilePath (Scenario.svc_config 3 "/var/log/app.log")))
      = None)
  /\ w_next_ptr
       (snd (logger.createBaseAdapter (fun settings => settings)
               Scenario.env_ok (Scenario.svc_config 3 "/var/log/app.log")
               Scenario.world0))
     = S (w_next_ptr Scenario.world0).
Proof.
  assert (H0 : Z.testbit
                 (logger.Output (Scenario.svc_config 3 "/var/log/app.log"))
                 1 = true) by (vm_compute; reflexivity).
  assert (H1 : logger.LogFilePath (Scenario.svc_config 3 "/var/log/app.log")
               <> "") by (vm_compute; congruence).
  assert (H2 : validateConfig
                 (OutputManager_literal
                    (NewOutputConfig
                       (logger.LogFilePath
                          (Scenario.svc_config 3 "/var/log/app.log"))))
               = None) by (vm_compute; reflexivity).
  assert (H3 : env_MkdirAll Scenario.env_ok (w_tick Scenario.world0)
                 (filepath.Dir
                    (logger.LogFilePath
                       (Scenario.svc_config 3 "/var/log/app.log")))
               = None) by (vm_compute; reflexivity).
  split; [auto|].
  exact (proj2 (proj2
    (createBaseAdapter_file (fun settings => settings) Scenario.env_ok
       (Scenario.svc_config 3 "/var/log/app.log") Scenario.world0
       H0 H1 H2 H3))).
Defined.

Lemma Validate_leaves_the_path_unchecked_witness :
  (logger.Validate (Scenario.svc_config 2 "app.log") = None
   /\ Z.testbit (logger.Output (Scenario.svc_config 2 "app.log")) 1 = true
   /\ filepath.has_sep (logger.LogFilePath (Scenario.svc_config 2 "app.log"))
      = false)
  /\ logger.createBaseAdapter (fun settings => settings) Scenario.env_ok
       (Scenario.svc_config 2 "app.log") Scenario.world0
     = (Some (None,
              Some (Errorf_w "failed to create output manager: "
                      (Errorf_w "invalid output configuration: "
                         err_dir_empty))),
        Scenario.world0).
Proof.
  assert (H0 : logger.Validate (Scenario.svc_config 2 "app.log") = None)
    by (vm_compute; reflexivity).
  assert (H1 : Z.testbit (logger.Output (Scenario.svc_config 2 "app.log")) 1
               = true) by (vm_compute; reflexivity).
  assert (H2 : filepath.has_sep
                 (logger.LogFilePath (Scenario.svc_config 2 "app.log"))
               = false) by (vm_compute; reflexivity).
  split; [auto|].
  exact (Validate_leaves_the_path_unchecked (fun settings => settings)
           Scenario.env_ok (Scenario.svc_config 2 "app.log")
           Scenario.world0 H0 H1 H2).
Defined.

End Instances.
